(** * SJPU vector system: the similarity store of [sjpu_system.py]

    A shallow embedding of the store part of [SJPUVectorSystem]
    ([_initialize_database], [validate_vector], [add_to_db], [query_db],
    [get_system_stats]) together with the small parts of Python, NumPy and
    faiss that these methods rely on.

    - Python integers are [Z]; lists are [list]; a method is a computation
      in a state-and-exception monad over the interpreter state (the object
      [self], the warnings emitted so far and the number of clock reads).
      A raised exception keeps the mutations made before it, as in Python.
    - NumPy floats are IEEE 754 values ([spec_float]); float32 arithmetic is
      the correctly rounded arithmetic of [SpecFloat] at precision 24.
    - faiss is an external module: its index is modelled by the part of its
      state the store observes ([is_trained], the rows added so far), and
      what the store cannot determine (whether a constructor or a training
      run succeeds, which neighbours the approximate search reports) is an
      oracle of the module. *)

From Stdlib Require Import ZArith List Bool Lia String Permutation Sorted.
From Stdlib Require Import SpecFloat.
Import ListNotations.

Local Open Scope Z_scope.

(* ===================================================================== *)
(** * Python *)
(* ===================================================================== *)

Module Py.

(** The exception classes the modelled code can meet. *)
Inductive exn : Type :=
| IndexError
| ValueError
| TypeError
| AttributeError
| AssertionError
| MemoryError
| RuntimeError.

(** [len(l)] *)
Definition len {A : Type} (l : list A) : Z := Z.of_nat (List.length l).

(** [l[:stop]]: a negative [stop] counts from the end, and the bound is
    clipped to the list. *)
Definition slice_to {A : Type} (l : list A) (stop : Z) : list A :=
  let n := len l in
  let stop' := if stop <? 0 then Z.max (stop + n) 0 else Z.min stop n in
  firstn (Z.to_nat stop') l.

(** [l[1:]] *)
Definition slice_from1 {A : Type} (l : list A) : list A := skipn 1 l.

(** [l[i]]: a negative index counts from the end; out of range is an
    [IndexError]. *)
Definition index {A : Type} (l : list A) (i : Z) : exn + A :=
  let n := len l in
  let j := if i <? 0 then i + n else i in
  if (j <? 0) || (n <=? j) then inl IndexError
  else match nth_error l (Z.to_nat j) with
       | Some x => inr x
       | None => inl IndexError
       end.

(** [l.pop(0)]: the list without its first element; [IndexError] when the
    list is empty. *)
Definition pop0 {A : Type} (l : list A) : exn + list A :=
  match l with
  | [] => inl IndexError
  | _ :: t => inr t
  end.

End Py.

(* ===================================================================== *)
(** * NumPy *)
(* ===================================================================== *)

Module Np.

(** A float: an IEEE 754 value.  Values of dtype float64 are read at
    precision 53, values of dtype float32 at precision 24. *)
Definition float := spec_float.

Definition zero : float := S754_zero false.
Definition nan : float := S754_nan.
Definition inf : float := S754_infinity false.
Definition neg_inf : float := S754_infinity true.

(** [np.finfo(np.float64).max] and its opposite. *)
Definition max_float64 : float := SFmax_float 53 1024.
Definition min_float64 : float := SFopp max_float64.

(** [np.isfinite] on one entry. *)
Definition isfinite (x : float) : bool :=
  match x with
  | S754_zero _ | S754_finite _ _ _ => true
  | S754_infinity _ | S754_nan => false
  end.

Definition isnan (x : float) : bool :=
  match x with
  | S754_nan => true
  | _ => false
  end.

(** [np.nan_to_num] on one float64 entry, with its default arguments
    ([nan=0.0, posinf=None, neginf=None]): NaN becomes zero, an infinity
    becomes the finite float of largest magnitude and the same sign. *)
Definition nan_to_num1 (x : float) : float :=
  match x with
  | S754_nan => zero
  | S754_infinity false => max_float64
  | S754_infinity true => min_float64
  | _ => x
  end.

Definition nan_to_num (v : list float) : list float := map nan_to_num1 v.

(** [np.pad(v, (0, n), 'constant')]: [n] zeros after [v]. *)
Definition pad_right (v : list float) (n : Z) : list float :=
  v ++ repeat zero (Z.to_nat n).

(** [x.astype(np.float32)] on one float64 entry: rounding to nearest
    even in binary32, overflowing to an infinity. *)
Definition to_float32 (x : float) : float :=
  match x with
  | S754_finite s m e => binary_round 24 128 s m e
  | _ => x
  end.

Definition astype_float32 (v : list float) : list float := map to_float32 v.

(** float32 arithmetic. *)
Definition sub32 : float -> float -> float := SFsub 24 128.
Definition mul32 : float -> float -> float := SFmul 24 128.
Definition add32 : float -> float -> float := SFadd 24 128.
Definition sqrt32 : float -> float := SFsqrt 24 128.

(** A two-dimensional array of shape [(len rows, ncols)]. *)
Record ndarray : Type := mk_ndarray { ncols : Z; rows : list (list float) }.

(** [a.astype(np.float32)] on a two-dimensional array. *)
Definition astype_float32_2d (a : ndarray) : ndarray :=
  mk_ndarray (ncols a) (map astype_float32 (rows a)).

(** [len(a)] and [a.size] *)
Definition alen (a : ndarray) : Z := Py.len (rows a).
Definition size (a : ndarray) : Z := alen a * ncols a.

(** [np.empty((0, d))]: negative dimensions are not allowed. *)
Definition empty0 (d : Z) : Py.exn + ndarray :=
  if d <? 0 then inl Py.ValueError else inr (mk_ndarray d []).

(** [v.reshape(1, -1)] on a one-dimensional [v]. *)
Definition reshape_row (v : list float) : ndarray :=
  mk_ndarray (Py.len v) [v].

(** [a[1:]] *)
Definition drop_first (a : ndarray) : ndarray :=
  mk_ndarray (ncols a) (Py.slice_from1 (rows a)).

(** [np.vstack((a, b))]: the widths must agree. *)
Definition vstack (a b : ndarray) : Py.exn + ndarray :=
  if ncols a =? ncols b then inr (mk_ndarray (ncols a) (rows a ++ rows b))
  else inl Py.ValueError.

(** [np.array(vs)] on a list of one-dimensional arrays that all have
    length [d]; a ragged list is a [ValueError]. *)
Definition stack (d : Z) (vs : list (list float)) : Py.exn + ndarray :=
  if forallb (fun v => Py.len v =? d) vs then inr (mk_ndarray d vs)
  else inl Py.ValueError.

(** One row of [a - q] under broadcasting of shapes [(n, d)] and
    [(1, d')]: entrywise when [d = d'], a width of one is stretched, any
    other pair of widths is a [ValueError]. *)
Definition sub_row (r q : list float) : list float :=
  match r, q with
  | [x], _ :: _ :: _ => map (fun y => sub32 x y) q
  | _, [y] => map (fun x => sub32 x y) r
  | _, _ => map (fun xy => sub32 (fst xy) (snd xy)) (combine r q)
  end.

Definition broadcastable (d d' : Z) : bool :=
  (d =? d') || (d =? 1) || (d' =? 1).

Definition sub_rows (a : ndarray) (q : list float) : Py.exn + list (list float) :=
  if broadcastable (ncols a) (Py.len q)
  then inr (map (fun r => sub_row r q) (rows a))
  else inl Py.ValueError.

(** [np.add.reduce] along a row of float32, as NumPy computes it on the
    contiguous axis: pairwise summation.  Fewer than 8 entries are added
    one after the other, starting from [-0.0], the identity of the
    addition.  Up to 128 entries are added in eight interleaved partial
    sums [r[0..7]], which are then added as
    [((r0+r1)+(r2+r3)) + ((r4+r5)+(r6+r7))], the entries past the last
    full block of 8 being added one after the other at the end.  Longer
    rows are split at [n/2] rounded down to a multiple of 8, and the sums
    of the two parts are added. *)
Definition neg_zero : float := S754_zero true.

Definition add_each (r block : list float) : list float :=
  map (fun p => add32 (fst p) (snd p)) (combine r block).

Fixpoint add_blocks (r l : list float) (blocks : nat) : list float :=
  match blocks with
  | O => r
  | S b => add_blocks (add_each r (firstn 8 l)) (skipn 8 l) b
  end.

Definition sum_block (l : list float) : float :=
  let n := List.length l in
  let r := add_blocks (firstn 8 l) (skipn 8 l) (n / 8 - 1) in
  let r_ j := nth j r nan in
  let res := add32 (add32 (add32 (r_ 0%nat) (r_ 1%nat)) (add32 (r_ 2%nat) (r_ 3%nat)))
                   (add32 (add32 (r_ 4%nat) (r_ 5%nat)) (add32 (r_ 6%nat) (r_ 7%nat))) in
  fold_left add32 (skipn (8 * (n / 8)) l) res.

(** The recursion on the halves, on a counter: a part is shorter than the
    row it is cut from, so the length of the row is counter enough
    ([pairwise_sum_split] below). *)
Fixpoint pairwise_sum_upto (depth : nat) (l : list float) : float :=
  let n := List.length l in
  if (n <? 8)%nat then fold_left add32 l neg_zero
  else if (n <=? 128)%nat then sum_block l
  else match depth with
       | O => sum_block l
       | S depth' =>
           let n2 := (n / 2 - (n / 2) mod 8)%nat in
           add32 (pairwise_sum_upto depth' (firstn n2 l))
                 (pairwise_sum_upto depth' (skipn n2 l))
       end.

Definition pairwise_sum (l : list float) : float :=
  pairwise_sum_upto (List.length l) l.

(** The reduction starts from the identity, [0.0] for an empty row. *)
Definition add_reduce (l : list float) : float :=
  match l with
  | [] => zero
  | _ :: _ => add32 neg_zero (pairwise_sum l)
  end.

(** [np.linalg.norm(x)] of one row: [sqrt(add.reduce(x * x))] in
    float32. *)
Definition norm_row (r : list float) : float :=
  sqrt32 (add_reduce (map (fun x => mul32 x x) r)).

(** [np.linalg.norm(a - q, axis=1)] *)
Definition norm_sub (a : ndarray) (q : list float) : Py.exn + list float :=
  match sub_rows a q with
  | inl e => inl e
  | inr d => inr (map norm_row d)
  end.

(** The order NumPy sorts floats by: [<] on numbers, NaN after every
    number. *)
Definition lt (x y : float) : bool :=
  SFltb x y || (isnan y && negb (isnan x)).

Definition le (x y : float) : bool := negb (lt y x).

(** [np.argsort(d)]: the positions of [d] in ascending order.  (Which of
    two equal entries comes first is not fixed by NumPy's default sort;
    here the earlier position comes first.) *)
Fixpoint insert_by (p : nat * float) (l : list (nat * float)) : list (nat * float) :=
  match l with
  | [] => [p]
  | h :: t => if lt (snd h) (snd p) then h :: insert_by p t else p :: h :: t
  end.

Definition sort_by (l : list (nat * float)) : list (nat * float) :=
  fold_right insert_by [] l.

Definition enumerate (d : list float) : list (nat * float) :=
  combine (seq 0 (List.length d)) d.

Definition argsort (d : list float) : list nat :=
  map fst (sort_by (enumerate d)).

(** [d[idx]] for an index array [idx] of positions of [d]. *)
Definition take (d : list float) (idx : list nat) : list float :=
  map (fun i => nth i d nan) idx.

End Np.

(* ===================================================================== *)
(** * faiss *)
(* ===================================================================== *)

Module Faiss.

(** What the store observes of a [faiss.IndexIVFFlat]: its dimension,
    its number of clusters, its search breadth, whether it has been
    trained, and the rows added so far ([ntotal] is their number). *)
Record IndexIVFFlat : Type := mk_index {
  d : Z;
  nlist : Z;
  nprobe : Z;
  is_trained : bool;
  xb : list (list Np.float)
}.

Definition ntotal (ix : IndexIVFFlat) : Z := Py.len (xb ix).

(** A fresh index: untrained, empty, with faiss's default [nprobe]. *)
Definition fresh (dim clusters : Z) : IndexIVFFlat :=
  mk_index dim clusters 1 false [].

Definition set_nprobe (ix : IndexIVFFlat) (p : Z) : IndexIVFFlat :=
  mk_index (d ix) (nlist ix) p (is_trained ix) (xb ix).

Definition trained (ix : IndexIVFFlat) : IndexIVFFlat :=
  mk_index (d ix) (nlist ix) (nprobe ix) true (xb ix).

(** [ix.add(x)]: the rows of [x] must have the index's dimension, and an
    inverted-file index accepts rows only once it has been trained. *)
Definition add (ix : IndexIVFFlat) (x : Np.ndarray) : Py.exn + IndexIVFFlat :=
  if negb (Np.ncols x =? d ix) then inl Py.AssertionError
  else if negb (is_trained ix) then inl Py.RuntimeError
  else inr (mk_index (d ix) (nlist ix) (nprobe ix) true (xb ix ++ Np.rows x)).

(** The module as the store sees it.  Whether a constructor or a training
    run raises, and what the approximate search answers when asked for a
    positive number of neighbours, is decided by the library: [None] is a
    normal return. *)
Record module : Type := mk_module {
  IndexFlatL2_raises : Z -> option Py.exn;
  IndexIVFFlat_raises : Z -> Z -> option Py.exn;
  train_raises : IndexIVFFlat -> Z -> option Py.exn;
  neighbours : IndexIVFFlat -> list Np.float -> Z -> Py.exn + (list Np.float * list Z)
}.

(** [ix.search(x, k)]: faiss's wrapper asserts [k > 0] before it hands the
    query to the library. *)
Definition search (fm : module) (ix : IndexIVFFlat) (x : list Np.float) (k : Z)
  : Py.exn + (list Np.float * list Z) :=
  if k <=? 0 then inl Py.AssertionError else neighbours fm ix x k.

End Faiss.

(* ===================================================================== *)
(** * The system *)
(* ===================================================================== *)

(** A metadata record: a dict with string keys, never read by the store. *)
Inductive value : Type :=
| Str (s : string)
| Int (z : Z)
| Float (x : Np.float)
| Vector (v : list Np.float).

Definition meta : Type := list (string * value).

(** [SJPUConfig]: the attributes the store reads. *)
Record SJPUConfig : Type := mk_config {
  MAX_DB_SIZE : Z;
  N_CLUSTERS : Z;
  N_PROBE : Z
}.

Definition default_config : SJPUConfig := mk_config 10000 32 8.

(** [self.knowledge_db] is a NumPy array or a faiss index; [NoAttr] is the
    attribute before its first assignment. *)
Inductive backend : Type :=
| NoAttr
| Array (a : Np.ndarray)
| Index (ix : Faiss.IndexIVFFlat).

(** [self.benchmark_results] *)
Record benchmark : Type := mk_benchmark {
  add_times : list Z;
  query_times : list Z
}.

Record SJPUVectorSystem : Type := mk_system {
  dim : Z;
  config : SJPUConfig;
  metadata : list meta;
  vectors : list (list Np.float);
  use_faiss : bool;
  knowledge_db : backend;
  benchmark_results : benchmark
}.

Definition set_metadata (ms : list meta) (s : SJPUVectorSystem) : SJPUVectorSystem :=
  mk_system (dim s) (config s) ms (vectors s) (use_faiss s) (knowledge_db s) (benchmark_results s).

Definition set_vectors (vs : list (list Np.float)) (s : SJPUVectorSystem) : SJPUVectorSystem :=
  mk_system (dim s) (config s) (metadata s) vs (use_faiss s) (knowledge_db s) (benchmark_results s).

Definition set_use_faiss (b : bool) (s : SJPUVectorSystem) : SJPUVectorSystem :=
  mk_system (dim s) (config s) (metadata s) (vectors s) b (knowledge_db s) (benchmark_results s).

Definition set_knowledge_db (db : backend) (s : SJPUVectorSystem) : SJPUVectorSystem :=
  mk_system (dim s) (config s) (metadata s) (vectors s) (use_faiss s) db (benchmark_results s).

Definition set_benchmark_results (b : benchmark) (s : SJPUVectorSystem) : SJPUVectorSystem :=
  mk_system (dim s) (config s) (metadata s) (vectors s) (use_faiss s) (knowledge_db s) b.

(** The warnings of the module. *)
Inductive warning : Type :=
| FaissInitError (e : Py.exn)
| FaissUnavailable
| Resized (old_dim new_dim : Z)
| NanInfReplaced.

(** What lies outside the program: the faiss module ([None] when its
    import failed), whether drawing a random sample of a given shape
    raises, and the wall clock as a function of the number of earlier
    reads (in ticks). *)
Record environment : Type := mk_env {
  faiss : option Faiss.module;
  random_raises : Z -> Z -> option Py.exn;
  clock : nat -> Z
}.

(** The interpreter state a method runs in. *)
Record world : Type := mk_world {
  self : SJPUVectorSystem;
  warned : list warning;
  clock_reads : nat
}.

(** ** Statements

    A statement ends normally with a value, by [return], or by raising. *)
Inductive res (R A : Type) : Type :=
| Normal (a : A)
| Return_ (r : R)
| Raise (e : Py.exn).

Arguments Normal {R A} a.
Arguments Return_ {R A} r.
Arguments Raise {R A} e.

Definition M (R A : Type) : Type := world -> res R A * world.

Definition ret {R A : Type} (a : A) : M R A := fun w => (Normal a, w).

Definition bind {R A B : Type} (c : M R A) (k : A -> M R B) : M R B :=
  fun w =>
    match c w with
    | (Normal a, w') => k a w'
    | (Return_ r, w') => (Return_ r, w')
    | (Raise e, w') => (Raise e, w')
    end.

Declare Scope stmt_scope.
Delimit Scope stmt_scope with stmt.
Notation "x <- c ;; k" := (bind c (fun x => k))
  (at level 61, c at next level, right associativity) : stmt_scope.
Notation "c ;; k" := (bind c (fun _ => k))
  (at level 61, right associativity) : stmt_scope.
Local Open Scope stmt_scope.

Definition return_ {R A : Type} (r : R) : M R A := fun w => (Return_ r, w).

Definition raise {R A : Type} (e : Py.exn) : M R A := fun w => (Raise e, w).

(** The value of a library call, or the exception it raised. *)
Definition lift {R A : Type} (x : Py.exn + A) : M R A :=
  match x with
  | inl e => raise e
  | inr a => ret a
  end.

(** A call that returns nothing, or raises. *)
Definition check {R : Type} (x : option Py.exn) : M R unit :=
  match x with
  | Some e => raise e
  | None => ret tt
  end.

Definition get_self {R : Type} : M R SJPUVectorSystem :=
  fun w => (Normal (self w), w).

Definition modify_self {R : Type} (f : SJPUVectorSystem -> SJPUVectorSystem) : M R unit :=
  fun w => (Normal tt, mk_world (f (self w)) (warned w) (clock_reads w)).

(** [warnings.warn(...)] *)
Definition warn {R : Type} (x : warning) : M R unit :=
  fun w => (Normal tt, mk_world (self w) (warned w ++ [x]) (clock_reads w)).

(** [try: body except Exception as e: handler] *)
Definition try_except {R A : Type} (body : M R A) (handler : Py.exn -> M R A) : M R A :=
  fun w =>
    match body w with
    | (Raise e, w') => handler e w'
    | r => r
    end.

(** [[f(x) for x in l]] *)
Fixpoint for_each {R A B : Type} (f : A -> M R B) (l : list A) : M R (list B) :=
  match l with
  | [] => ret []
  | x :: t => y <- f x ;; ys <- for_each f t ;; ret (y :: ys)
  end.

(** The result of a call: the returned value ([None] when the body ends
    without [return]) or the exception that left the method. *)
Inductive outcome (R : Type) : Type :=
| Returned (r : option R)
| Raised (e : Py.exn).

Arguments Returned {R} r.
Arguments Raised {R} e.

Definition call {R : Type} (body : M R unit) (w : world) : outcome R * world :=
  match body w with
  | (Normal _, w') => (Returned None, w')
  | (Return_ r, w') => (Returned (Some r), w')
  | (Raise e, w') => (Raised e, w')
  end.

(** ** Methods *)

Section Methods.

Variable env : environment.

(** [time.time()] *)
Definition time_time {R : Type} : M R Z :=
  fun w => (Normal (clock env (clock_reads w)),
            mk_world (self w) (warned w) (S (clock_reads w))).

(** The module global [faiss], used as a module: [None] has no
    attributes. *)
Definition faiss_module {R : Type} : M R Faiss.module :=
  match faiss env with
  | Some fm => ret fm
  | None => raise Py.AttributeError
  end.

(** [faiss.IndexIVFFlat(faiss.IndexFlatL2(dim), dim, clusters)] *)
Definition new_IndexIVFFlat {R : Type} (fm : Faiss.module) (dim clusters : Z)
  : M R Faiss.IndexIVFFlat :=
  check (Faiss.IndexFlatL2_raises fm dim) ;;
  check (Faiss.IndexIVFFlat_raises fm dim clusters) ;;
  ret (Faiss.fresh dim clusters).

(** [self.knowledge_db.ntotal]: an attribute of a faiss index only. *)
Definition db_ntotal {R : Type} : M R Z :=
  s <- get_self ;;
  match knowledge_db s with
  | Index ix => ret (Faiss.ntotal ix)
  | _ => raise Py.AttributeError
  end.

(** [len(self.knowledge_db)]: a faiss index has no length. *)
Definition db_len {R : Type} : M R Z :=
  s <- get_self ;;
  match knowledge_db s with
  | Array a => ret (Np.alen a)
  | Index _ => raise Py.TypeError
  | NoAttr => raise Py.AttributeError
  end.

(** [self.knowledge_db] where the code uses it as an array. *)
Definition db_array {R : Type} : M R Np.ndarray :=
  s <- get_self ;;
  match knowledge_db s with
  | Array a => ret a
  | _ => raise Py.AttributeError
  end.

(** [self.knowledge_db] where the code uses it as an index. *)
Definition db_index {R : Type} : M R Faiss.IndexIVFFlat :=
  s <- get_self ;;
  match knowledge_db s with
  | Index ix => ret ix
  | _ => raise Py.AttributeError
  end.

(** [self.knowledge_db.nprobe = p] *)
Definition db_set_nprobe {R : Type} (p : Z) : M R unit :=
  ix <- db_index ;;
  modify_self (set_knowledge_db (Index (Faiss.set_nprobe ix p))).

(** [self.knowledge_db.add(x)] *)
Definition db_add {R : Type} (x : Np.ndarray) : M R unit :=
  ix <- db_index ;;
  ix' <- lift (Faiss.add ix x) ;;
  modify_self (set_knowledge_db (Index ix')).

(** [self.knowledge_db = np.empty((0, self.dim))] *)
Definition db_reset_array {R : Type} : M R unit :=
  s <- get_self ;;
  a <- lift (Np.empty0 (dim s)) ;;
  modify_self (set_knowledge_db (Array a)).

(** [_initialize_database] *)
Definition _initialize_database {R : Type} : M R unit :=
  modify_self (set_metadata []) ;;
  modify_self (set_vectors []) ;;
  modify_self (set_use_faiss false) ;;
  match faiss env with
  | Some fm =>
      try_except
        (s <- get_self ;;
         ix <- new_IndexIVFFlat fm (dim s) (N_CLUSTERS (config s)) ;;
         modify_self (set_knowledge_db (Index ix)) ;;
         db_set_nprobe (N_PROBE (config s)) ;;
         modify_self (set_use_faiss true))
        (fun e =>
           warn (FaissInitError e) ;;
           db_reset_array)
  | None =>
      warn FaissUnavailable ;;
      db_reset_array
  end ;;
  s <- get_self ;;
  (if negb (use_faiss s)
   then a <- db_array ;;
        if Np.size a =? 0 then db_reset_array else ret tt
   else ret tt) ;;
  s <- get_self ;;
  match use_faiss s, faiss env with
  | true, Some fm =>
      check (random_raises env (N_CLUSTERS (config s) * 10) (dim s)) ;;
      ix <- db_index ;;
      check (Faiss.train_raises fm ix (N_CLUSTERS (config s) * 10)) ;;
      modify_self (set_knowledge_db (Index (Faiss.trained ix)))
  | _, _ => ret tt
  end.

(** The object before [__init__] has assigned anything but [dim] and
    [config]. *)
Definition allocated (dim : Z) (cfg : SJPUConfig) : SJPUVectorSystem :=
  mk_system dim cfg [] [] false NoAttr (mk_benchmark [] []).

(** [SJPUVectorSystem(dim, config)]: the constructed object, or the
    exception that left [__init__], with the warnings emitted. *)
Definition __init__ (dim : Z) (cfg : option SJPUConfig)
  : (Py.exn + SJPUVectorSystem) * list warning :=
  let cfg := match cfg with Some c => c | None => default_config end in
  let body : M unit unit :=
    _initialize_database ;;
    modify_self (set_benchmark_results (mk_benchmark [] [])) in
  match call body (mk_world (allocated dim cfg) [] 0) with
  | (Returned _, w) => (inr (self w), warned w)
  | (Raised e, w) => (inl e, warned w)
  end.

(** [validate_vector], on a sequence of floats. *)
Definition validate_vector {R : Type} (vec : list Np.float) : M R (list Np.float) :=
  s <- get_self ;;
  vec <- (if negb (Py.len vec =? dim s)
          then
            let old_dim := Py.len vec in
            let vec' := if old_dim >? dim s
                        then Py.slice_to vec (dim s)
                        else Np.pad_right vec (dim s - old_dim) in
            warn (Resized old_dim (dim s)) ;;
            ret vec'
          else ret vec) ;;
  if negb (forallb Np.isfinite vec)
  then
    let vec' := Np.nan_to_num vec in
    warn NanInfReplaced ;;
    ret vec'
  else ret vec.

(** [self.metadata.pop(0)] and [self.vectors.pop(0)] *)
Definition metadata_pop0 {R : Type} : M R unit :=
  s <- get_self ;;
  ms <- lift (Py.pop0 (metadata s)) ;;
  modify_self (set_metadata ms).

Definition vectors_pop0 {R : Type} : M R unit :=
  s <- get_self ;;
  vs <- lift (Py.pop0 (vectors s)) ;;
  modify_self (set_vectors vs).

(** [self.metadata.append(m)] and [self.vectors.append(v)] *)
Definition metadata_append {R : Type} (m : meta) : M R unit :=
  modify_self (fun s => set_metadata (metadata s ++ [m]) s).

Definition vectors_append {R : Type} (v : list Np.float) : M R unit :=
  modify_self (fun s => set_vectors (vectors s ++ [v]) s).

(** [np.array(self.vectors).astype(np.float32)]: the rows must have one
    length.  (The code builds this array only from a non-empty list.) *)
Definition vectors_array {R : Type} : M R Np.ndarray :=
  s <- get_self ;;
  a <- match vectors s with
       | [] => ret (Np.mk_ndarray 0 [])
       | v :: _ => lift (Np.stack (Py.len v) (vectors s))
       end ;;
  ret (Np.astype_float32_2d a).

(** [add_to_db] *)
Definition add_to_db (vec : list Np.float) (m : meta) : M unit unit :=
  start_time <- time_time ;;
  vec <- validate_vector vec ;;
  let vec_f32 := Np.astype_float32 vec in
  s <- get_self ;;
  (if use_faiss s
   then
     n <- db_ntotal ;;
     (if n >=? MAX_DB_SIZE (config s)
      then
        metadata_pop0 ;;
        vectors_pop0 ;;
        fm <- faiss_module ;;
        ix <- new_IndexIVFFlat fm (dim s) (N_CLUSTERS (config s)) ;;
        modify_self (set_knowledge_db (Index ix)) ;;
        db_set_nprobe (N_PROBE (config s)) ;;
        s' <- get_self ;;
        match vectors s' with
        | [] => ret tt
        | _ :: _ => a <- vectors_array ;; db_add a
        end
      else ret tt) ;;
     db_add (Np.reshape_row vec_f32) ;;
     vectors_append vec_f32 ;;
     metadata_append m
   else
     n <- db_len ;;
     (if n >=? MAX_DB_SIZE (config s)
      then
        a <- db_array ;;
        modify_self (set_knowledge_db (Array (Np.drop_first a))) ;;
        metadata_pop0
      else ret tt) ;;
     a <- db_array ;;
     a' <- (if negb (Np.size a =? 0)
            then lift (Np.vstack a (Np.reshape_row vec_f32))
            else ret (Np.reshape_row vec_f32)) ;;
     modify_self (set_knowledge_db (Array a')) ;;
     metadata_append m) ;;
  end_time <- time_time ;;
  modify_self (fun s =>
    set_benchmark_results
      (mk_benchmark (add_times (benchmark_results s) ++ [end_time - start_time])
                    (query_times (benchmark_results s))) s).

(** [query_db]: the metadata of the neighbours and their distances. *)
Definition query_db (query_vec : list Np.float) (k : Z)
  : M (list meta * list Np.float) unit :=
  start_time <- time_time ;;
  query_vec <- validate_vector query_vec ;;
  let query_f32 := Np.astype_float32 query_vec in
  s <- get_self ;;
  (if use_faiss s
   then
     n <- db_ntotal ;;
     (if n =? 0 then return_ ([], []) else ret tt) ;;
     let k := Z.min k n in
     fm <- faiss_module ;;
     ix <- db_index ;;
     DI <- lift (Faiss.search fm ix query_f32 k) ;;
     ms <- for_each (fun i => lift (Py.index (metadata s) i)) (snd DI) ;;
     (return_ (ms, fst DI) : M _ unit)
   else
     n <- db_len ;;
     (if n =? 0 then return_ ([], []) else ret tt) ;;
     a <- db_array ;;
     dists <- lift (Np.norm_sub a query_f32) ;;
     let idx := Py.slice_to (Np.argsort dists) (Z.min k (Py.len dists)) in
     ms <- for_each (fun i => lift (Py.index (metadata s) (Z.of_nat i))) idx ;;
     (return_ (ms, Np.take dists idx) : M _ unit)) ;;
  end_time <- time_time ;;
  modify_self (fun s =>
    set_benchmark_results
      (mk_benchmark (add_times (benchmark_results s))
                    (query_times (benchmark_results s) ++ [end_time - start_time])) s).

(** The dict returned by [get_system_stats]. *)
Record stats : Type := mk_stats {
  stat_dim : Z;
  stat_db_size : Z;
  stat_max_db_size : Z;
  stat_using_faiss : bool;
  stat_metadata_count : Z
}.

(** [get_system_stats] *)
Definition get_system_stats : M stats unit :=
  s <- get_self ;;
  db_size <- (if use_faiss s then db_ntotal else db_len) ;;
  return_ (mk_stats (dim s) db_size (MAX_DB_SIZE (config s)) (use_faiss s)
                    (Py.len (metadata s))).

End Methods.

(* ===================================================================== *)
(** * Vocabulary of the statements *)
(* ===================================================================== *)

(** A statement that never touches [self]. *)
Definition keeps_self {R A : Type} (c : M R A) : Prop :=
  forall w, self (snd (c w)) = self w.

(** A statement that never ends normally: it returns or raises. *)
Definition leaves {R A : Type} (c : M R A) : Prop :=
  forall w, match fst (c w) with Normal _ => False | _ => True end.

(** The input of [validate_vector] cut or padded to length [d]. *)
Definition resized (d : Z) (vec : list Np.float) : list Np.float :=
  if negb (Py.len vec =? d)
  then if Py.len vec >? d then Py.slice_to vec d
       else Np.pad_right vec (d - Py.len vec)
  else vec.

(** The value [validate_vector] returns, and the warnings it emits. *)
Definition validated (d : Z) (vec : list Np.float) : list Np.float :=
  if negb (forallb Np.isfinite (resized d vec))
  then Np.nan_to_num (resized d vec)
  else resized d vec.

Definition validate_warnings (d : Z) (vec : list Np.float) : list warning :=
  (if negb (Py.len vec =? d) then [Resized (Py.len vec) d] else []) ++
  (if negb (forallb Np.isfinite (resized d vec)) then [NanInfReplaced] else []).

(** The row a vector is stored or searched as. *)
Definition stored_row (d : Z) (vec : list Np.float) : list Np.float :=
  Np.astype_float32 (validated d vec).

(** The current size of the store, as [get_system_stats] reads it; [None]
    when the flag and the collection disagree. *)
Definition current_size (s : SJPUVectorSystem) : option Z :=
  match use_faiss s, knowledge_db s with
  | true, Index ix => Some (Faiss.ntotal ix)
  | false, Array a => Some (Np.alen a)
  | _, _ => None
  end.

(** A store on the fallback backend: the collection is an array [a] of
    the store's (positive) dimension, with one metadata record per row. *)
Record fallback_store (s : SJPUVectorSystem) (a : Np.ndarray) : Prop := {
  fb_flag : use_faiss s = false;
  fb_db : knowledge_db s = Array a;
  fb_dim : 0 < dim s;
  fb_width : Np.ncols a = dim s;
  fb_meta : Py.len (metadata s) = Np.alen a
}.

(** A store on the indexed backend: faiss is present, the collection is an
    index [ix], with one metadata record per row. *)
Record indexed_store (env : environment) (s : SJPUVectorSystem)
    (fm : Faiss.module) (ix : Faiss.IndexIVFFlat) : Prop := {
  ix_module : faiss env = Some fm;
  ix_flag : use_faiss s = true;
  ix_db : knowledge_db s = Index ix;
  ix_meta : Py.len (metadata s) = Faiss.ntotal ix
}.


(** The number of entries of [l[:min(k, n)]] for a list of [n] entries. *)
Definition clamped (k n : Z) : Z :=
  if n <=? k then n else if k <? 0 then Z.max (k + n) 0 else k.

(** The last [n] entries of a list. *)
Definition last_n {A : Type} (n : Z) (l : list A) : list A :=
  skipn (List.length l - Z.to_nat n) l.

(** A sequence of inserts, and the state it leaves. *)
Definition insert (env : environment) (w : world) (it : list Np.float * meta) : world :=
  snd (call (add_to_db env (fst it) (snd it)) w).

Definition inserts (env : environment) (w : world)
    (its : list (list Np.float * meta)) : world :=
  fold_left (insert env) its w.

(** The operations of the store, and a sequence of them. *)
Inductive operation : Type :=
| Insert (vec : list Np.float) (m : meta)
| Query (vec : list Np.float) (k : Z)
| Stats.

Definition perform (env : environment) (w : world) (o : operation) : world :=
  match o with
  | Insert vec m => snd (call (add_to_db env vec m) w)
  | Query vec k => snd (call (query_db env vec k) w)
  | Stats => snd (call get_system_stats w)
  end.

Definition perform_all (env : environment) (w : world) (os : list operation) : world :=
  fold_left (perform env) os w.

(** The rows and metadata an insert leaves, as lists. *)
Definition evict_append {A : Type} (cap : Z) (l : list A) (x : A) : list A :=
  (if Py.len l >=? cap then tl l else l) ++ [x].

(** The store [__init__] builds on the fallback backend. *)
Definition fallback_fresh (dim : Z) (cfg : SJPUConfig) : SJPUVectorSystem :=
  mk_system dim cfg [] [] false (Array (Np.mk_ndarray dim [])) (mk_benchmark [] []).

(** The store [__init__] builds on the indexed backend. *)
Definition indexed_fresh (dim : Z) (cfg : SJPUConfig) : SJPUVectorSystem :=
  mk_system dim cfg [] [] true
    (Index (Faiss.mk_index dim (N_CLUSTERS cfg) (N_PROBE cfg) true []))
    (mk_benchmark [] []).

Definition config_or_default (cfg : option SJPUConfig) : SJPUConfig :=
  match cfg with Some c => c | None => default_config end.

(** Ascending in the order of [np.argsort]. *)
Definition ascending (l : list (nat * Np.float)) : Prop :=
  StronglySorted (fun p q => Np.le (snd p) (snd q) = true) l.

(** The distances [query_db] computes on the fallback backend, and the
    positions it selects. *)
Definition distances (a : Np.ndarray) (q32 : list Np.float) : list Np.float :=
  map (fun r => Np.norm_row (Np.sub_row r q32)) (Np.rows a).

Definition selected (dists : list Np.float) (k : Z) : list nat :=
  Py.slice_to (Np.argsort dists) (Z.min k (Py.len dists)).

(** The index a rebuild starts from: fresh, hence untrained. *)
Definition rebuilt_index (s : SJPUVectorSystem) : Faiss.IndexIVFFlat :=
  Faiss.set_nprobe (Faiss.fresh (dim s) (N_CLUSTERS (config s)))
                   (N_PROBE (config s)).

(** ** Sample data *)

(** The float64 value of an integer. *)
Definition f64 (z : Z) : Np.float := binary_normalize 53 1024 z 0 false.

(** An interpreter without faiss, and one with a faiss whose constructors
    and training succeed (its search reports the first [k] positions). *)
Definition ticking (n : nat) : Z := Z.of_nat n.

Definition no_faiss : environment := mk_env None (fun _ _ => None) ticking.

Definition faiss_ok : Faiss.module :=
  Faiss.mk_module (fun _ => None) (fun _ _ => None) (fun _ _ => None)
    (fun ix q k => inr (repeat Np.zero (Z.to_nat k), map Z.of_nat (seq 0 (Z.to_nat k)))).

Definition with_faiss : environment := mk_env (Some faiss_ok) (fun _ _ => None) ticking.

(** A faiss whose training run raises. *)
Definition faiss_train_fails : Faiss.module :=
  Faiss.mk_module (fun _ => None) (fun _ _ => None)
    (fun _ _ => Some Py.RuntimeError)
    (fun ix q k => inr ([], [])).

Definition with_failing_training : environment :=
  mk_env (Some faiss_train_fails) (fun _ _ => None) ticking.

Definition meta_A : meta := [("id"%string, Str "A")].
Definition meta_B : meta := [("id"%string, Str "B")].
Definition meta_C : meta := [("id"%string, Str "C")].

(** The world of a store of dimension 2 and capacity 2 built by
    [__init__] in an environment. *)
Definition small_store (env : environment) : world :=
  match __init__ env 2 (Some (mk_config 2 32 8)) with
  | (inr s, ws) => mk_world s ws 0
  | (inl _, ws) => mk_world (allocated 2 (mk_config 2 32 8)) ws 0
  end.

(** Sample vectors: two unit vectors, their sum, and a vector whose first
    entry (1e39) is finite in float64 and beyond the range of float32. *)
Definition unit_x : list Np.float := [f64 1; f64 0].
Definition unit_y : list Np.float := [f64 0; f64 1].
Definition diagonal : list Np.float := [f64 1; f64 1].
Definition huge : list Np.float := [f64 (10 ^ 39); f64 0].

(** A store of capacity 2 on the indexed backend, filled by two inserts. *)
Definition indexed_full : world :=
  inserts with_faiss (small_store with_faiss) [(unit_x, meta_A); (unit_y, meta_B)].

(** A store of capacity 2 on the fallback backend, after two inserts. *)
Definition fallback_two : world :=
  inserts no_faiss (small_store no_faiss) [(unit_x, meta_A); (unit_y, meta_B)].

(** A fallback store holding the same vector twice, under two metadata
    records. *)
Definition fallback_twice : world :=
  inserts no_faiss (small_store no_faiss) [(unit_x, meta_A); (unit_x, meta_B)].

(** A fallback store holding the float32 image of [huge]. *)
Definition fallback_huge : world :=
  insert no_faiss (small_store no_faiss) (huge, meta_A).

(* ===================================================================== *)
(** * Generating vectors and the benchmark *)
(* ===================================================================== *)

(** ** More of NumPy: float64 vectors *)

Module Np64.

(** [1.0] *)
Definition one : Np.float := S754_finite false 4503599627370496 (-52).

(** float64 division and square root, correctly rounded. *)
Definition div : Np.float -> Np.float -> Np.float := SFdiv 53 1024.
Definition sqrt : Np.float -> Np.float := SFsqrt 53 1024.

(** The float64 a decimal literal [p/q] denotes, for small integers [p]
    and [q]: the correctly rounded quotient. *)
Definition ratio (p q : Z) : Np.float := div (f64 p) (f64 q).

(** [np.zeros(n)] and [np.ones(n)]: negative dimensions are not allowed.
    (The memory a large array needs is not modelled.) *)
Definition zeros (n : Z) : Py.exn + list Np.float :=
  if n <? 0 then inl Py.ValueError else inr (repeat Np.zero (Z.to_nat n)).

Definition ones (n : Z) : Py.exn + list Np.float :=
  if n <? 0 then inl Py.ValueError else inr (repeat one (Z.to_nat n)).

(** [v[0] = x]: an [IndexError] on an empty vector. *)
Definition set_item0 (v : list Np.float) (x : Np.float) : Py.exn + list Np.float :=
  match v with
  | [] => inl Py.IndexError
  | _ :: t => inr (x :: t)
  end.

(** [v[:stop] = src]: the source must have the length of the slice, or
    length one; otherwise it cannot be broadcast, a [ValueError]. *)
Definition set_slice_to (v : list Np.float) (stop : Z) (src : list Np.float)
  : Py.exn + list Np.float :=
  let target := Py.slice_to v stop in
  let rest := skipn (List.length target) v in
  if Py.len src =? Py.len target then inr (src ++ rest)
  else match src with
       | [x] => inr (map (fun _ => x) target ++ rest)
       | _ => inl Py.ValueError
       end.

End Np64.

(** What the numeric libraries compute and the model does not: the vector
    [np.exp(-np.linspace(-3, 3, dim)**2 / 2)] divided by its norm, and the
    normalized vector of the [n]-th draw of [np.random.normal(0, 1, dim)];
    either may raise. *)
Record numerics : Type := mk_numerics {
  gaussian_vector : Z -> Py.exn + list Np.float;
  normal_vector : nat -> Z -> Py.exn + list Np.float
}.

(** [np.mean(l) if l else 0], its argument kept as it is. *)
Inductive average : Type :=
| Mean (samples : list Z)
| Zero.

Definition average_of (l : list Z) : average :=
  match l with
  | [] => Zero
  | _ :: _ => Mean l
  end.

(** The lines [benchmark_db] prints. *)
Inductive line : Type :=
| BenchmarkStart (num_operations : Z)
| AverageAddTime (v : average)
| AverageQueryTime (v : average)
| BenchmarkDone (using_faiss : bool).

(** The interpreter state with the standard output and the number of
    random draws made so far. *)
Record process : Type := mk_process {
  interp : world;
  stdout : list line;
  draws : nat
}.

Definition P (R A : Type) : Type := process -> res R A * process.

Definition pret {R A : Type} (a : A) : P R A := fun p => (Normal a, p).

Definition pbind {R A B : Type} (c : P R A) (k : A -> P R B) : P R B :=
  fun p =>
    match c p with
    | (Normal a, p') => k a p'
    | (Return_ r, p') => (Return_ r, p')
    | (Raise e, p') => (Raise e, p')
    end.

Declare Scope proc_scope.
Delimit Scope proc_scope with proc.
Notation "x <- c ;; k" := (pbind c (fun x => k))
  (at level 61, c at next level, right associativity) : proc_scope.
Notation "c ;; k" := (pbind c (fun _ => k))
  (at level 61, right associativity) : proc_scope.

(** A statement of a method, run in the process. *)
Definition run {R A : Type} (c : M R A) : P R A :=
  fun p =>
    let (r, w') := c (interp p) in
    (r, mk_process w' (stdout p) (draws p)).

(** A call [self.method(...)]: its value, or its exception. *)
Definition invoke {R R' : Type} (body : M R' unit) : P R (option R') :=
  fun p =>
    match call body (interp p) with
    | (Returned r, w') => (Normal r, mk_process w' (stdout p) (draws p))
    | (Raised e, w') => (Raise e, mk_process w' (stdout p) (draws p))
    end.

(** [print(...)] *)
Definition print {R : Type} (l : line) : P R unit :=
  fun p => (Normal tt, mk_process (interp p) (stdout p ++ [l]) (draws p)).

(** The next draw of the random generator. *)
Definition next_draw {R : Type} : P R nat :=
  fun p => (Normal (draws p), mk_process (interp p) (stdout p) (S (draws p))).

(** [for _ in range(n): body] *)
Fixpoint for_range {R : Type} (n : nat) (body : P R unit) : P R unit :=
  match n with
  | O => pret tt
  | S n' => pbind body (fun _ => for_range n' body)
  end.

(** The result of a call in the process. *)
Definition pcall {R : Type} (body : P R unit) (p : process) : outcome R * process :=
  match body p with
  | (Normal _, p') => (Returned None, p')
  | (Return_ r, p') => (Returned (Some r), p')
  | (Raise e, p') => (Raised e, p')
  end.

Section Process.

Variable env : environment.
Variable num : numerics.

Local Open Scope proc_scope.

(** [probs] of the sparse vector: [np.array([0.5, 0.2, 0.15, 0.1, 0.05])] *)
Definition sparse_probs : list Np.float :=
  [Np64.ratio 1 2; Np64.ratio 1 5; Np64.ratio 3 20; Np64.ratio 1 10; Np64.ratio 1 20].

(** [generate_vector] *)
Definition generate_vector {R : Type} (vec_type : string) : P R (list Np.float) :=
  s <- run get_self ;;
  vec <- (if String.eqb vec_type "uniform" then
            o <- run (lift (Np64.ones (dim s))) ;;
            pret (map (fun x => Np64.div x (Np64.sqrt (f64 (dim s)))) o)
          else if String.eqb vec_type "gaussian" then
            run (lift (gaussian_vector num (dim s)))
          else if String.eqb vec_type "sparse" then
            z <- run (lift (Np64.zeros (dim s))) ;;
            run (lift (Np64.set_slice_to z 5 (map Np64.sqrt sparse_probs)))
          else if String.eqb vec_type "impulse" then
            z <- run (lift (Np64.zeros (dim s))) ;;
            run (lift (Np64.set_item0 z Np64.one))
          else
            n <- next_draw ;;
            run (lift (normal_vector num n (dim s)))) ;;
  run (validate_vector vec).

(** [{'test': 'benchmark'}] *)
Definition benchmark_meta : meta := [("test"%string, Str "benchmark")].

(** [benchmark_db] *)
Definition benchmark_db (num_operations : Z) : P unit unit :=
  print (BenchmarkStart num_operations) ;;
  for_range (Z.to_nat num_operations)
    (vec <- generate_vector "gaussian" ;;
     invoke (add_to_db env vec benchmark_meta) ;;
     invoke (query_db env vec 3) ;;
     pret tt) ;;
  s <- run get_self ;;
  let add_avg := average_of (add_times (benchmark_results s)) in
  let query_avg := average_of (query_times (benchmark_results s)) in
  print (AverageAddTime add_avg) ;;
  print (AverageQueryTime query_avg) ;;
  print (BenchmarkDone (use_faiss s)) ;;
  run (modify_self (set_benchmark_results (mk_benchmark [] []))).

End Process.

(** ** Vocabulary of the further properties *)

(** A statement that keeps an observation [f] of the interpreter state and
    never ends by [return]. *)
Definition steady {T R A : Type} (f : world -> T) (c : M R A) : Prop :=
  forall w, f (snd (c w)) = f w /\ forall r, fst (c w) <> Return_ r.

(** What no operation of the store changes: the dimension, the
    configuration, the backend flag and the recorded query times. *)
Definition fixed_part (w : world) : Z * SJPUConfig * bool * list Z :=
  (dim (self w), config (self w), use_faiss (self w),
   query_times (benchmark_results (self w))).

(** What an insert leaves alone until it records its time: everything but
    the collections and the warnings. *)
Definition steady_part (w : world) : Z * SJPUConfig * bool * benchmark * nat :=
  (dim (self w), config (self w), use_faiss (self w),
   benchmark_results (self w), clock_reads w).

(** The body of [add_to_db] between its two clock reads, on the sanitized
    vector, and its last two statements. *)
Definition add_block (env : environment) (vec : list Np.float) (m : meta)
    (s : SJPUVectorSystem) : M unit unit :=
  let vec_f32 := Np.astype_float32 vec in
  if use_faiss s
  then
    n <- db_ntotal ;;
    (if n >=? MAX_DB_SIZE (config s)
     then
       metadata_pop0 ;;
       vectors_pop0 ;;
       fm <- faiss_module env ;;
       ix <- new_IndexIVFFlat fm (dim s) (N_CLUSTERS (config s)) ;;
       modify_self (set_knowledge_db (Index ix)) ;;
       db_set_nprobe (N_PROBE (config s)) ;;
       s' <- get_self ;;
       match vectors s' with
       | [] => ret tt
       | _ :: _ => a <- vectors_array ;; db_add a
       end
     else ret tt) ;;
    db_add (Np.reshape_row vec_f32) ;;
    vectors_append vec_f32 ;;
    metadata_append m
  else
    n <- db_len ;;
    (if n >=? MAX_DB_SIZE (config s)
     then
       a <- db_array ;;
       modify_self (set_knowledge_db (Array (Np.drop_first a))) ;;
       metadata_pop0
     else ret tt) ;;
    a <- db_array ;;
    a' <- (if negb (Np.size a =? 0)
           then lift (Np.vstack a (Np.reshape_row vec_f32))
           else ret (Np.reshape_row vec_f32)) ;;
    modify_self (set_knowledge_db (Array a')) ;;
    metadata_append m.

Definition add_tail (env : environment) (start_time : Z) : M unit unit :=
  end_time <- time_time env ;;
  modify_self (fun s =>
    set_benchmark_results
      (mk_benchmark (add_times (benchmark_results s) ++ [end_time - start_time])
                    (query_times (benchmark_results s))) s).

(** The world of a store of dimension [d] and capacity [cap] built without
    faiss. *)
Definition fresh_fallback (d cap : Z) : world :=
  mk_world (fallback_fresh d (mk_config cap 32 8)) [FaissUnavailable] 0.

(** A store on the indexed backend whose index is trained and holds the
    raw vectors, with one metadata record per vector. *)
Record aligned_index (s : SJPUVectorSystem) (ix : Faiss.IndexIVFFlat) : Prop := {
  al_flag : use_faiss s = true;
  al_db : knowledge_db s = Index ix;
  al_trained : Faiss.is_trained ix = true;
  al_width : Faiss.d ix = dim s;
  al_dim : 0 <= dim s;
  al_rows : Faiss.xb ix = vectors s;
  al_meta : List.length (metadata s) = List.length (vectors s)
}.

(** A store on the indexed backend whose index is full or untrained. *)
Definition stuck (s : SJPUVectorSystem) : Prop :=
  use_faiss s = true /\
  exists ix, knowledge_db s = Index ix /\
             (Faiss.is_trained ix = false \/
              MAX_DB_SIZE (config s) <= Faiss.ntotal ix).

(** The metadata record [query_db] reads for a label of the search: the
    record at that position, the last record for the label [-1]. *)
Definition labelled (ms : list meta) (i : Z) : meta :=
  if i =? -1 then last ms [] else nth (Z.to_nat i) ms [].


(** Sample data: a faiss whose search finds one neighbour only, and marks
    the missing ones with the label [-1]; a store of capacity 2 on its
    indexed backend, after two inserts. *)
Definition faiss_short : Faiss.module :=
  Faiss.mk_module (fun _ => None) (fun _ _ => None) (fun _ _ => None)
    (fun ix q k => inr (repeat Np.zero (Z.to_nat k),
                        0 :: repeat (-1) (Z.to_nat k - 1))).

Definition with_short_faiss : environment :=
  mk_env (Some faiss_short) (fun _ _ => None) ticking.

Definition indexed_short : world :=
  inserts with_short_faiss (small_store with_short_faiss)
    [(unit_x, meta_A); (unit_y, meta_B)].

(** Numeric libraries whose vectors have equal entries. *)
Definition flat_vector (d : Z) : Py.exn + list Np.float :=
  if d <? 0 then inl Py.ValueError
  else inr (repeat (Np64.div Np64.one (Np64.sqrt (f64 d))) (Z.to_nat d)).

Definition flat_numerics : numerics := mk_numerics flat_vector (fun _ => flat_vector).

(** A process that has printed nothing and drawn nothing. *)
Definition started (w : world) : process := mk_process w [] 0.

(** One pass of the loop of [benchmark_db]. *)
Definition benchmark_pass (env : environment) (num : numerics) : P unit unit :=
  pbind (generate_vector num "gaussian") (fun vec =>
  pbind (invoke (add_to_db env vec benchmark_meta)) (fun _ =>
  pbind (invoke (query_db env vec 3)) (fun _ => pret tt))).

(** The durations [k] passes of the benchmark record for their inserts,
    the clock having been read [n] times before: a pass reads the clock
    three times, twice in its insert. *)
Definition benchmark_add_times (env : environment) (n k : nat) : list Z :=
  map (fun i => clock env (S (n + 3 * i)) - clock env (n + 3 * i)) (seq 0 k).
(* ===================================================================== *)
(** * Running statements *)
(* ===================================================================== *)

Lemma keeps_ret {R A : Type} (a : A) : keeps_self (@ret R A a).
Proof. intro w. reflexivity. Qed.

Lemma keeps_return {R A : Type} (r : R) : keeps_self (@return_ R A r).
Proof. intro w. reflexivity. Qed.

Lemma keeps_raise {R A : Type} (e : Py.exn) : keeps_self (@raise R A e).
Proof. intro w. reflexivity. Qed.

Lemma keeps_lift {R A : Type} (x : Py.exn + A) : keeps_self (@lift R A x).
Proof. destruct x; intro w; reflexivity. Qed.

Lemma keeps_get_self {R : Type} : keeps_self (@get_self R).
Proof. intro w. reflexivity. Qed.

Lemma keeps_warn {R : Type} (x : warning) : keeps_self (@warn R x).
Proof. intro w. reflexivity. Qed.

Lemma keeps_time {R : Type} (env : environment) : keeps_self (@time_time env R).
Proof. intro w. reflexivity. Qed.

Lemma keeps_bind {R A B : Type} (c : M R A) (k : A -> M R B) :
  keeps_self c -> (forall a, keeps_self (k a)) -> keeps_self (bind c k).
Proof.
  intros Hc Hk w. unfold bind. specialize (Hc w).
  destruct (c w) as [[a | r | e] w']; simpl in *; try assumption.
  rewrite Hk. assumption.
Qed.

Lemma keeps_if {R A : Type} (b : bool) (c1 c2 : M R A) :
  keeps_self c1 -> keeps_self c2 -> keeps_self (if b then c1 else c2).
Proof. destruct b; auto. Qed.

Lemma keeps_for_each {R A B : Type} (f : A -> M R B) (l : list A) :
  (forall a, keeps_self (f a)) -> keeps_self (for_each f l).
Proof.
  intro Hf. induction l as [| x t IH]; simpl.
  - apply keeps_ret.
  - apply keeps_bind; [apply Hf |]. intro y.
    apply keeps_bind; [exact IH |]. intro ys. apply keeps_ret.
Qed.

(** A statement that leaves is the end of its block: what follows it is
    never run. *)
Lemma keeps_bind_leaves {R A B : Type} (c : M R A) (k : A -> M R B) :
  keeps_self c -> leaves c -> keeps_self (bind c k).
Proof.
  intros Hc Hl w. unfold bind. specialize (Hc w). specialize (Hl w).
  destruct (c w) as [[a | r | e] w']; simpl in *; try assumption.
  contradiction.
Qed.

Lemma leaves_bind_leaves {R A B : Type} (c : M R A) (k : A -> M R B) :
  leaves c -> leaves (bind c k).
Proof.
  intros Hl w. unfold bind. specialize (Hl w).
  destruct (c w) as [[a | r | e] w']; simpl in *; auto. contradiction.
Qed.

Lemma leaves_return {R A : Type} (r : R) : leaves (@return_ R A r).
Proof. intro w. exact I. Qed.

Lemma leaves_raise {R A : Type} (e : Py.exn) : leaves (@raise R A e).
Proof. intro w. exact I. Qed.

Lemma leaves_bind {R A B : Type} (c : M R A) (k : A -> M R B) :
  (forall a, leaves (k a)) -> leaves (bind c k).
Proof.
  intros Hk w. unfold bind.
  destruct (c w) as [[a | r | e] w']; simpl; auto. apply Hk.
Qed.

Lemma leaves_if {R A : Type} (b : bool) (c1 c2 : M R A) :
  leaves c1 -> leaves c2 -> leaves (if b then c1 else c2).
Proof. destruct b; auto. Qed.

Create HintDb stmt.

#[local] Hint Resolve keeps_ret keeps_return keeps_raise keeps_lift
  keeps_get_self keeps_warn keeps_time keeps_if keeps_for_each
  leaves_return leaves_raise leaves_if : stmt.

(** ** What [validate_vector] computes *)

Lemma validate_vector_run {R : Type} (vec : list Np.float) (w : world) :
  @validate_vector R vec w =
  (Normal (validated (dim (self w)) vec),
   mk_world (self w) (warned w ++ validate_warnings (dim (self w)) vec)
            (clock_reads w)).
Proof.
  destruct w as [s ws n].
  unfold validate_vector, validated, validate_warnings, resized, bind,
    get_self, warn, ret; simpl.
  destruct (negb (Py.len vec =? dim s)); simpl;
    match goal with
    | |- context [forallb Np.isfinite ?v] => destruct (forallb Np.isfinite v)
    end; simpl; rewrite <- ?app_assoc, ?app_nil_r; reflexivity.
Qed.

Lemma keeps_validate {R : Type} (vec : list Np.float) :
  keeps_self (@validate_vector R vec).
Proof. intro w. rewrite validate_vector_run. reflexivity. Qed.

#[local] Hint Resolve keeps_validate : stmt.

Lemma len_nonneg {A : Type} (l : list A) : 0 <= Py.len l.
Proof. unfold Py.len. lia. Qed.

Lemma len_nil {A : Type} : Py.len (@nil A) = 0.
Proof. reflexivity. Qed.

Lemma len_cons {A : Type} (x : A) (l : list A) : Py.len (x :: l) = 1 + Py.len l.
Proof. unfold Py.len. cbn [List.length]. lia. Qed.

Lemma len_cons_pos {A : Type} (x : A) (l : list A) : 0 < Py.len (x :: l).
Proof. unfold Py.len. cbn [List.length]. lia. Qed.

Lemma len_zero_nil {A : Type} (l : list A) : Py.len l = 0 -> l = [].
Proof. destruct l; [reflexivity | unfold Py.len; cbn [List.length]; lia]. Qed.

Lemma len_app {A : Type} (l1 l2 : list A) :
  Py.len (l1 ++ l2) = Py.len l1 + Py.len l2.
Proof. unfold Py.len. rewrite length_app. lia. Qed.

Lemma len_map {A B : Type} (f : A -> B) (l : list A) :
  Py.len (map f l) = Py.len l.
Proof. unfold Py.len. rewrite length_map. reflexivity. Qed.

Ltac len_norm :=
  repeat (rewrite len_app || rewrite len_cons || rewrite len_map);
  repeat match goal with
         | |- context [@Py.len ?A (@nil ?A)] => change (@Py.len A (@nil A)) with 0
         end.

Ltac len_norm_in H :=
  repeat (rewrite len_app in H || rewrite len_cons in H || rewrite len_map in H);
  repeat match type of H with
         | context [@Py.len ?A (@nil ?A)] => change (@Py.len A (@nil A)) with 0 in H
         end.

Lemma resized_len (d : Z) (vec : list Np.float) :
  0 <= d -> Py.len (resized d vec) = d.
Proof.
  intro Hd. unfold resized.
  destruct (Z.eqb_spec (Py.len vec) d) as [E | N]; simpl; [exact E |].
  destruct (Z.gtb_spec (Py.len vec) d) as [G | L].
  - unfold Py.slice_to. destruct (Z.ltb_spec d 0); [lia |].
    fold (Py.len vec). unfold Py.len at 1. rewrite length_firstn.
    unfold Py.len in *. lia.
  - unfold Np.pad_right. rewrite len_app. unfold Py.len at 2.
    rewrite repeat_length. unfold Py.len in *. lia.
Qed.

Lemma zeros_finite (n : nat) : forallb Np.isfinite (repeat Np.zero n) = true.
Proof. induction n as [| n IH]; [reflexivity | exact IH]. Qed.


Lemma nan_to_num1_finite (x : Np.float) : Np.isfinite (Np.nan_to_num1 x) = true.
Proof. destruct x as [s | [|] | | s m e]; reflexivity. Qed.

Lemma nan_to_num1_id (x : Np.float) :
  Np.isfinite x = true -> Np.nan_to_num1 x = x.
Proof. destruct x as [s | [|] | | s m e]; simpl; congruence. Qed.

Lemma nan_to_num_id (v : list Np.float) :
  forallb Np.isfinite v = true -> Np.nan_to_num v = v.
Proof.
  induction v as [| x t IH]; simpl; [reflexivity |].
  intro H. apply andb_prop in H. destruct H as [Hx Ht].
  rewrite nan_to_num1_id, IH by assumption. reflexivity.
Qed.

(** Whatever the branch taken, the result is [nan_to_num] of the resized
    input. *)
Lemma validated_nan_to_num (d : Z) (vec : list Np.float) :
  validated d vec = Np.nan_to_num (resized d vec).
Proof.
  unfold validated.
  destruct (forallb Np.isfinite (resized d vec)) eqn:E; simpl; [| reflexivity].
  symmetry. apply nan_to_num_id. exact E.
Qed.

Lemma validated_len (d : Z) (vec : list Np.float) :
  0 <= d -> Py.len (validated d vec) = d.
Proof.
  intro Hd. rewrite validated_nan_to_num. unfold Np.nan_to_num.
  rewrite len_map. apply resized_len. exact Hd.
Qed.

Lemma validated_finite (d : Z) (vec : list Np.float) :
  forallb Np.isfinite (validated d vec) = true.
Proof.
  rewrite validated_nan_to_num. unfold Np.nan_to_num.
  rewrite forallb_forall. intros x Hx. apply in_map_iff in Hx.
  destruct Hx as [y [<- _]]. apply nan_to_num1_finite.
Qed.

Lemma resized_firstn (d : Z) (vec : list Np.float) :
  0 <= d ->
  resized d vec =
  firstn (Z.to_nat d) (vec ++ repeat Np.zero (Z.to_nat (d - Py.len vec))).
Proof.
  intro Hd. unfold resized.
  destruct (Z.eqb_spec (Py.len vec) d) as [E | N]; simpl.
  - rewrite <- E, Z.sub_diag. simpl. rewrite app_nil_r.
    unfold Py.len. rewrite Nat2Z.id. symmetry. apply firstn_all.
  - destruct (Z.gtb_spec (Py.len vec) d) as [G | L].
    + unfold Py.slice_to. destruct (Z.ltb_spec d 0); [lia |].
      fold (Py.len vec). replace (Z.min d (Py.len vec)) with d by lia.
      replace (Z.to_nat (d - Py.len vec)) with 0%nat by lia.
      simpl. rewrite app_nil_r. reflexivity.
    + unfold Np.pad_right. symmetry. apply firstn_all2.
      rewrite length_app, repeat_length. unfold Py.len in *. lia.
Qed.

(** ** The frame of [query_db] *)

Lemma call_keeps {R : Type} (body : M R unit) (w : world) :
  keeps_self body -> self (snd (call body w)) = self w.
Proof.
  intro H. specialize (H w). unfold call.
  destruct (body w) as [[a | r | e] w']; exact H.
Qed.

Lemma call_leaves {R : Type} (body : M R unit) (w : world) :
  leaves body -> fst (call body w) <> Returned None.
Proof.
  intro H. specialize (H w). unfold call.
  destruct (body w) as [[a | r | e] w']; simpl in *;
    [contradiction | discriminate | discriminate].
Qed.

Lemma keeps_faiss_module {R : Type} (env : environment) :
  keeps_self (@faiss_module env R).
Proof. unfold faiss_module. destruct (faiss env); auto with stmt. Qed.

Lemma keeps_db_ntotal {R : Type} : keeps_self (@db_ntotal R).
Proof.
  unfold db_ntotal. apply keeps_bind; [auto with stmt | intro s].
  destruct (knowledge_db s); auto with stmt.
Qed.

Lemma keeps_db_len {R : Type} : keeps_self (@db_len R).
Proof.
  unfold db_len. apply keeps_bind; [auto with stmt | intro s].
  destruct (knowledge_db s); auto with stmt.
Qed.

Lemma keeps_db_array {R : Type} : keeps_self (@db_array R).
Proof.
  unfold db_array. apply keeps_bind; [auto with stmt | intro s].
  destruct (knowledge_db s); auto with stmt.
Qed.

Lemma keeps_db_index {R : Type} : keeps_self (@db_index R).
Proof.
  unfold db_index. apply keeps_bind; [auto with stmt | intro s].
  destruct (knowledge_db s); auto with stmt.
Qed.

#[local] Hint Resolve keeps_faiss_module keeps_db_ntotal keeps_db_len
  keeps_db_array keeps_db_index : stmt.

Ltac keeps_block :=
  repeat (apply keeps_bind; [auto with stmt | intro]); auto with stmt.

Ltac leaves_block :=
  repeat (apply leaves_bind; intro); auto with stmt.

(** Both branches of [query_db] end in a [return] or raise. *)
Lemma query_db_branches (env : environment) (q32 : list Np.float) (k : Z)
    (s : SJPUVectorSystem) (c1 c2 : M (list meta * list Np.float) unit) :
  c1 = (n <- db_ntotal ;;
        (if n =? 0 then return_ ([], []) else ret tt) ;;
        fm <- faiss_module env ;;
        ix <- db_index ;;
        DI <- lift (Faiss.search fm ix q32 (Z.min k n)) ;;
        ms <- for_each (fun i => lift (Py.index (metadata s) i)) (snd DI) ;;
        return_ (ms, fst DI)) ->
  c2 = (n <- db_len ;;
        (if n =? 0 then return_ ([], []) else ret tt) ;;
        a <- db_array ;;
        dists <- lift (Np.norm_sub a q32) ;;
        ms <- for_each (fun i => lift (Py.index (metadata s) (Z.of_nat i)))
                (Py.slice_to (Np.argsort dists) (Z.min k (Py.len dists))) ;;
        return_ (ms, Np.take dists
                       (Py.slice_to (Np.argsort dists) (Z.min k (Py.len dists))))) ->
  keeps_self (if use_faiss s then c1 else c2) /\
  leaves (if use_faiss s then c1 else c2).
Proof.
  intros -> ->. split.
  - apply keeps_if; keeps_block.
  - apply leaves_if; leaves_block.
Qed.

Lemma query_db_keeps_and_leaves (env : environment) (q : list Np.float) (k : Z) :
  keeps_self (query_db env q k) /\ leaves (query_db env q k).
Proof.
  unfold query_db. split.
  - apply keeps_bind; [auto with stmt | intro t0].
    apply keeps_bind; [auto with stmt | intro v].
    apply keeps_bind; [auto with stmt | intro s].
    apply keeps_bind_leaves;
      eapply query_db_branches; reflexivity.
  - apply leaves_bind; intro t0.
    apply leaves_bind; intro v.
    apply leaves_bind; intro s.
    apply leaves_bind_leaves.
    eapply query_db_branches; reflexivity.
Qed.

(** ** Inserting on the fallback backend *)

Lemma stored_row_len (d : Z) (vec : list Np.float) :
  0 <= d -> Py.len (stored_row d vec) = d.
Proof.
  intro Hd. unfold stored_row, Np.astype_float32. rewrite len_map.
  apply validated_len. exact Hd.
Qed.

Lemma size_nonzero {A : Type} (d : Z) (x : A) (l : list A) :
  0 < d -> (Py.len (x :: l) * d =? 0) = false.
Proof.
  intro Hd. apply Z.eqb_neq. pose proof (len_cons_pos x l). nia.
Qed.

(** The state an insert leaves on the fallback backend. *)
Lemma add_to_db_fallback (env : environment) (vec : list Np.float) (m : meta)
    (w : world) (a : Np.ndarray) :
  fallback_store (self w) a ->
  0 < MAX_DB_SIZE (config (self w)) ->
  let s := self w in
  let full := Np.alen a >=? MAX_DB_SIZE (config s) in
  add_to_db env vec m w =
  (Normal tt,
   mk_world
     (mk_system (dim s) (config s)
        ((if full then tl (metadata s) else metadata s) ++ [m])
        (vectors s) false
        (Array (Np.mk_ndarray (dim s)
                  ((if full then tl (Np.rows a) else Np.rows a)
                   ++ [stored_row (dim s) vec])))
        (mk_benchmark
           (add_times (benchmark_results s)
            ++ [clock env (S (clock_reads w)) - clock env (clock_reads w)])
           (query_times (benchmark_results s))))
     (warned w ++ validate_warnings (dim s) vec)
     (S (S (clock_reads w)))).
Proof.
  intros [Hflag Hdb Hdim Hwidth Hmeta] Hmax.
  destruct w as [s ws n]. destruct s as [d c ms vs uf db br]. simpl in *.
  subst uf db. destruct a as [nc rs]. simpl in *. subst nc.
  unfold add_to_db, bind. unfold time_time at 1. simpl.
  rewrite validate_vector_run. simpl.
  assert (Hrow : Py.len (Np.astype_float32 (validated d vec)) = d)
    by (apply (stored_row_len d vec); lia).
  unfold stored_row.
  destruct (Z.geb_spec (Np.alen {| Np.ncols := d; Np.rows := rs |}) (MAX_DB_SIZE c))
    as [Hfull | Hroom]; unfold Np.alen in *; cbn [Np.rows] in *.
  - destruct rs as [| r0 rs']; [unfold Py.len in Hfull; cbn [List.length] in Hfull; lia |].
    destruct ms as [| m0 ms']; [unfold Py.len in Hmeta; cbn [List.length] in Hmeta; lia |].
    cbn -[Z.mul Py.len Z.eqb]. unfold Np.size, Np.alen, Np.drop_first.
    cbn -[Z.mul Py.len Z.eqb].
    destruct rs' as [| r1 rs'']; cbn -[Z.mul Py.len Z.eqb].
    + unfold Np.reshape_row. rewrite Hrow. reflexivity.
    + rewrite (size_nonzero d r1 rs'' Hdim).
      cbn -[Z.mul Py.len Z.eqb]. unfold Np.vstack.
      cbn -[Z.mul Py.len Z.eqb]. rewrite Hrow, Z.eqb_refl. reflexivity.
  - cbn -[Z.mul Py.len Z.eqb]. unfold Np.size, Np.alen.
    cbn -[Z.mul Py.len Z.eqb].
    destruct rs as [| r0 rs']; cbn -[Z.mul Py.len Z.eqb].
    + unfold Np.reshape_row. rewrite Hrow. reflexivity.
    + rewrite (size_nonzero d r0 rs' Hdim).
      cbn -[Z.mul Py.len Z.eqb]. unfold Np.vstack.
      cbn -[Z.mul Py.len Z.eqb]. rewrite Hrow, Z.eqb_refl. reflexivity.
Qed.

Lemma insert_fallback (env : environment) (it : list Np.float * meta)
    (w : world) (a : Np.ndarray) :
  fallback_store (self w) a ->
  0 < MAX_DB_SIZE (config (self w)) ->
  let w' := insert env w it in
  let a' := Np.mk_ndarray (dim (self w))
              (evict_append (MAX_DB_SIZE (config (self w))) (Np.rows a)
                 (stored_row (dim (self w)) (fst it))) in
  fallback_store (self w') a' /\
  metadata (self w') =
    evict_append (MAX_DB_SIZE (config (self w))) (metadata (self w)) (snd it) /\
  dim (self w') = dim (self w) /\
  config (self w') = config (self w) /\
  vectors (self w') = vectors (self w).
Proof.
  intros Hfb Hmax. unfold insert, call.
  rewrite (add_to_db_fallback env (fst it) (snd it) w a Hfb Hmax).
  destruct Hfb as [Hflag Hdb Hdim Hwidth Hmeta]. cbn [snd self].
  unfold evict_append. rewrite Hmeta. fold (Np.alen a).
  cbn [metadata dim config vectors]. repeat split; try assumption.
  cbn [metadata]. unfold Np.alen in *. cbn [Np.rows].
  destruct (Z.geb_spec (Py.len (Np.rows a)) (MAX_DB_SIZE (config (self w))))
    as [E | E].
  - destruct (Np.rows a) as [| r rs];
      [rewrite len_nil in E; lia |].
    destruct (metadata (self w)) as [| m ms];
      [rewrite len_nil, len_cons in Hmeta; pose proof (len_nonneg rs); lia |].
    rewrite len_cons in E.
    cbn [tl]. len_norm. len_norm_in Hmeta. lia.
  - len_norm. lia.
Qed.

Lemma len_tl {A : Type} (l : list A) : Py.len (tl l) = Z.max (Py.len l - 1) 0.
Proof. destruct l; [reflexivity | cbn [tl]; rewrite len_cons; pose proof (len_nonneg l); lia]. Qed.

Lemma evict_append_len {A : Type} (cap : Z) (l : list A) (x : A) :
  0 < cap -> Py.len l <= cap -> Py.len (evict_append cap l x) <= cap.
Proof.
  intros Hc Hl. unfold evict_append. rewrite len_app, len_cons, len_nil.
  destruct (Z.geb_spec (Py.len l) cap); [rewrite len_tl |]; lia.
Qed.

Lemma last_n_len {A : Type} (n : Z) (l : list A) :
  0 <= n -> Py.len (last_n n l) = Z.min n (Py.len l).
Proof.
  intro Hn. unfold last_n, Py.len. rewrite length_skipn. lia.
Qed.

(** Evicting the oldest entry of the last [cap] entries and appending
    gives the last [cap] entries of the longer list. *)
Lemma evict_append_last_n {A : Type} (cap : Z) (l : list A) (x : A) :
  0 < cap ->
  evict_append cap (last_n cap l) x = last_n cap (l ++ [x]).
Proof.
  intro Hc. unfold evict_append. rewrite last_n_len by lia.
  unfold last_n. rewrite length_app. cbn [List.length].
  destruct (Z.geb_spec (Z.min cap (Py.len l)) cap) as [Hfull | Hroom].
  - unfold Py.len in Hfull.
    replace (List.length l + 1 - Z.to_nat cap)%nat
      with (S (List.length l - Z.to_nat cap)) by lia.
    rewrite skipn_app.
    replace (S (List.length l - Z.to_nat cap) - List.length l)%nat with 0%nat by lia.
    change (skipn 0 [x]) with [x]. f_equal.
    change (S (List.length l - Z.to_nat cap))
      with (1 + (List.length l - Z.to_nat cap))%nat.
    rewrite <- (skipn_skipn 1 (List.length l - Z.to_nat cap) l).
    destruct (skipn (List.length l - Z.to_nat cap) l); reflexivity.
  - unfold Py.len in Hroom.
    replace (List.length l - Z.to_nat cap)%nat with 0%nat by lia.
    replace (List.length l + 1 - Z.to_nat cap)%nat with 0%nat by lia.
    reflexivity.
Qed.

Lemma inserts_snoc (env : environment) (w : world)
    (its : list (list Np.float * meta)) (it : list Np.float * meta) :
  inserts env w (its ++ [it]) = insert env (inserts env w its) it.
Proof. unfold inserts. rewrite fold_left_app. reflexivity. Qed.

(** On the fallback backend a store that starts empty holds, after any
    sequence of inserts, the last [MAX_DB_SIZE] rows and metadata records
    inserted, oldest first. *)
Lemma inserts_fallback (env : environment) (w : world) (a : Np.ndarray)
    (its : list (list Np.float * meta)) :
  fallback_store (self w) a ->
  Np.rows a = [] ->
  0 < MAX_DB_SIZE (config (self w)) ->
  let cap := MAX_DB_SIZE (config (self w)) in
  let w' := inserts env w its in
  fallback_store (self w')
    (Np.mk_ndarray (dim (self w))
       (last_n cap (map (fun it => stored_row (dim (self w)) (fst it)) its))) /\
  metadata (self w') = last_n cap (map snd its) /\
  dim (self w') = dim (self w) /\
  config (self w') = config (self w) /\
  vectors (self w') = vectors (self w).
Proof.
  intros Hfb Hrows Hmax cap. induction its as [| it its IH] using rev_ind.
  - cbn. destruct Hfb as [Hflag Hdb Hdim Hwidth Hmeta].
    unfold Np.alen in Hmeta. rewrite Hrows in Hmeta.
    apply len_zero_nil in Hmeta. repeat split; try assumption.
    + rewrite Hdb. destruct a as [nc rs]. cbn in *. subst. reflexivity.
    + cbn. rewrite Hmeta. reflexivity.
  - cbv zeta in IH. destruct IH as (Hfb' & Hms & Hd & Hc & Hv).
    cbv zeta. rewrite inserts_snoc.
    assert (Hmax' : 0 < MAX_DB_SIZE (config (self (inserts env w its))))
      by (rewrite Hc; exact Hmax).
    destruct (insert_fallback env it _ _ Hfb' Hmax') as (Hfb'' & Hms' & Hd' & Hc' & Hv').
    rewrite Hc, Hd in Hfb''. rewrite Hc in Hms'. cbn [Np.rows] in Hfb''.
    fold cap in Hfb'', Hms'.
    rewrite !map_app. cbn [map].
    rewrite <- !evict_append_last_n by exact Hmax.
    rewrite <- Hms.
    refine (conj Hfb'' (conj Hms' (conj _ (conj _ _)))); congruence.
Qed.

Lemma call_add_to_db_fallback (env : environment) (vec : list Np.float) (m : meta)
    (w : world) (a : Np.ndarray) :
  fallback_store (self w) a ->
  0 < MAX_DB_SIZE (config (self w)) ->
  let s := self w in
  let full := Np.alen a >=? MAX_DB_SIZE (config s) in
  call (add_to_db env vec m) w =
  (Returned None,
   mk_world
     (mk_system (dim s) (config s)
        ((if full then tl (metadata s) else metadata s) ++ [m])
        (vectors s) false
        (Array (Np.mk_ndarray (dim s)
                  ((if full then tl (Np.rows a) else Np.rows a)
                   ++ [stored_row (dim s) vec])))
        (mk_benchmark
           (add_times (benchmark_results s)
            ++ [clock env (S (clock_reads w)) - clock env (clock_reads w)])
           (query_times (benchmark_results s))))
     (warned w ++ validate_warnings (dim s) vec)
     (S (S (clock_reads w)))).
Proof.
  intros Hfb Hmax. unfold call.
  rewrite (add_to_db_fallback env vec m w a Hfb Hmax). reflexivity.
Qed.

(** ** Construction *)

Lemma empty0_nonneg (dim : Z) :
  0 <= dim -> Np.empty0 dim = inr (Np.mk_ndarray dim []).
Proof. intro H. unfold Np.empty0. destruct (Z.ltb_spec dim 0); [lia | reflexivity]. Qed.

Lemma size_empty (d : Z) : Np.size (Np.mk_ndarray d []) = 0.
Proof. reflexivity. Qed.

Ltac init_steps He :=
  repeat (progress (cbn -[Z.mul Np.empty0 Np.size];
                    unfold db_reset_array, db_array, db_set_nprobe, db_index, bind;
                    rewrite ?He, ?size_empty)).

(** Without faiss the store is built on the fallback backend, with a
    warning. *)
Lemma init_without_faiss (env : environment) (dim : Z) (cfg : option SJPUConfig) :
  faiss env = None -> 0 <= dim ->
  __init__ env dim cfg =
  (inr (fallback_fresh dim (config_or_default cfg)), [FaissUnavailable]).
Proof.
  intros Hf Hd. pose proof (empty0_nonneg dim Hd) as He.
  unfold __init__, call, _initialize_database, bind. rewrite Hf.
  init_steps He. destruct cfg; reflexivity.
Qed.

(** When a faiss constructor raises, the exception is caught: the store is
    built on the fallback backend, with a warning. *)
Lemma init_constructor_raises (env : environment) (fm : Faiss.module) (dim : Z)
    (cfg : option SJPUConfig) (e : Py.exn) :
  faiss env = Some fm -> 0 <= dim ->
  Faiss.IndexFlatL2_raises fm dim = Some e \/
  (Faiss.IndexFlatL2_raises fm dim = None /\
   Faiss.IndexIVFFlat_raises fm dim (N_CLUSTERS (config_or_default cfg)) = Some e) ->
  __init__ env dim cfg =
  (inr (fallback_fresh dim (config_or_default cfg)), [FaissInitError e]).
Proof.
  intros Hf Hd Hraise. pose proof (empty0_nonneg dim Hd) as He.
  unfold __init__, call, _initialize_database, bind. rewrite Hf.
  fold (config_or_default cfg).
  unfold try_except, new_IndexIVFFlat, bind. init_steps He.
  destruct Hraise as [H1 | [H1 H2]].
  - rewrite H1. init_steps He. reflexivity.
  - rewrite H1. init_steps He. rewrite H2. init_steps He. reflexivity.
Qed.

(** When construction and training succeed the store is built on the
    indexed backend. *)
Lemma init_with_faiss (env : environment) (fm : Faiss.module) (dim : Z)
    (cfg : option SJPUConfig) :
  let c := config_or_default cfg in
  faiss env = Some fm ->
  Faiss.IndexFlatL2_raises fm dim = None ->
  Faiss.IndexIVFFlat_raises fm dim (N_CLUSTERS c) = None ->
  random_raises env (N_CLUSTERS c * 10) dim = None ->
  Faiss.train_raises fm
    (Faiss.set_nprobe (Faiss.fresh dim (N_CLUSTERS c)) (N_PROBE c))
    (N_CLUSTERS c * 10) = None ->
  __init__ env dim cfg = (inr (indexed_fresh dim c), []).
Proof.
  intros c Hf H1 H2 H3 H4.
  unfold __init__, call, _initialize_database, bind. rewrite Hf.
  fold (config_or_default cfg). fold c.
  unfold try_except, new_IndexIVFFlat, bind. init_steps H1.
  rewrite H2. init_steps H1. rewrite H3. init_steps H1.
  rewrite H4. reflexivity.
Qed.

(** ** The order of [np.argsort] *)

Lemma compare_cont_Eq (m1 m2 : positive) :
  Pos.compare_cont Eq m1 m2 = Pos.compare m1 m2.
Proof. reflexivity. Qed.

Ltac order_cases :=
  repeat match goal with
         | |- context [Z.compare ?a ?b] =>
             destruct (Z.compare_spec a b); subst; simpl
         | |- context [Pos.compare_cont Eq ?a ?b] =>
             change (Pos.compare_cont Eq a b) with (Pos.compare a b);
             destruct (Pos.compare_spec a b); subst; simpl
         | H : context [Z.compare ?a ?b] |- _ =>
             destruct (Z.compare_spec a b); subst; simpl in H
         | H : context [Pos.compare_cont Eq ?a ?b] |- _ =>
             change (Pos.compare_cont Eq a b) with (Pos.compare a b) in H;
             destruct (Pos.compare_spec a b); subst; simpl in H
         end;
  try reflexivity; try discriminate; try lia.

(** [lt] is a strict weak order: asymmetric ... *)
Lemma lt_asym (x y : Np.float) : Np.lt x y = true -> Np.lt y x = false.
Proof.
  unfold Np.lt, SFltb, SFcompare.
  destruct x as [sx | sx | | sx mx ex], y as [sy | sy | | sy my ey];
    try destruct sx; try destruct sy; simpl; try congruence;
    intro H; order_cases.
Qed.

(** ... and whatever lies between [x] and [z] is above [x] or below [z]. *)
Lemma lt_cotrans (x y z : Np.float) :
  Np.lt x z = true -> Np.lt x y = true \/ Np.lt y z = true.
Proof.
  unfold Np.lt, SFltb, SFcompare.
  destruct x as [sx | sx | | sx mx ex], y as [sy | sy | | sy my ey],
           z as [sz | sz | | sz mz ez];
    try destruct sx; try destruct sy; try destruct sz; simpl;
    try (intro; discriminate); try (intros _; left; reflexivity);
    try (intros _; right; reflexivity);
    intro H;
    order_cases;
    try (left; order_cases; fail); try (right; order_cases; fail).
Qed.

Lemma le_total (x y : Np.float) : Np.le x y = false -> Np.le y x = true.
Proof.
  unfold Np.le. intro H. apply negb_false_iff in H.
  rewrite (lt_asym _ _ H). reflexivity.
Qed.

Lemma lt_le (x y : Np.float) : Np.lt x y = true -> Np.le x y = true.
Proof. intro H. unfold Np.le. rewrite (lt_asym _ _ H). reflexivity. Qed.

Lemma le_trans (x y z : Np.float) :
  Np.le x y = true -> Np.le y z = true -> Np.le x z = true.
Proof.
  unfold Np.le. intros Hxy Hyz.
  apply negb_true_iff in Hxy, Hyz. apply negb_true_iff.
  destruct (Np.lt z x) eqn:E; [| reflexivity].
  destruct (lt_cotrans z y x E) as [H | H]; congruence.
Qed.

(** ** [np.argsort] sorts *)

Lemma insert_by_perm (p : nat * Np.float) (l : list (nat * Np.float)) :
  Permutation (Np.insert_by p l) (p :: l).
Proof.
  induction l as [| h t IH]; simpl; [reflexivity |].
  destruct (Np.lt (snd h) (snd p)); [| reflexivity].
  rewrite IH. apply perm_swap.
Qed.

Lemma sort_by_perm (l : list (nat * Np.float)) : Permutation (Np.sort_by l) l.
Proof.
  induction l as [| h t IH]; simpl; [reflexivity |].
  rewrite insert_by_perm. constructor. exact IH.
Qed.

Lemma insert_by_ascending (p : nat * Np.float) (l : list (nat * Np.float)) :
  ascending l -> ascending (Np.insert_by p l).
Proof.
  unfold ascending. induction l as [| h t IH]; intro Hs; simpl.
  - constructor; constructor.
  - inversion Hs as [| ? ? Ht Hh]; subst.
    destruct (Np.lt (snd h) (snd p)) eqn:E.
    + constructor; [apply IH; exact Ht |].
      rewrite Forall_forall. intros q Hq.
      apply (Permutation_in _ (insert_by_perm p t)) in Hq.
      destruct Hq as [<- | Hq]; [apply lt_le; exact E |].
      rewrite Forall_forall in Hh. apply Hh. exact Hq.
    + assert (Hph : Np.le (snd p) (snd h) = true)
        by (unfold Np.le; rewrite E; reflexivity).
      constructor; [exact Hs |].
      constructor; [exact Hph |].
      rewrite Forall_forall in Hh |- *. intros q Hq.
      apply (le_trans _ (snd h)); [exact Hph | apply Hh; exact Hq].
Qed.

Lemma sort_by_ascending (l : list (nat * Np.float)) : ascending (Np.sort_by l).
Proof.
  induction l as [| h t IH]; simpl.
  - constructor.
  - apply insert_by_ascending. exact IH.
Qed.

Lemma enumerate_from (d : list Np.float) (n : nat) :
  Forall (fun p => (n <= fst p)%nat /\ nth_error d (fst p - n) = Some (snd p))
         (combine (seq n (List.length d)) d).
Proof.
  revert n. induction d as [| x t IH]; intro n; simpl; constructor.
  - simpl. split; [lia |]. replace (n - n)%nat with 0%nat by lia. reflexivity.
  - specialize (IH (S n)). rewrite Forall_forall in IH |- *.
    intros p Hp. destruct (IH p Hp) as [Hle Hnth]. split; [lia |].
    replace (fst p - n)%nat with (S (fst p - S n)) by lia. exact Hnth.
Qed.

(** Every pair of [enumerate d] is a position of [d] with its entry. *)
Lemma enumerate_nth (d : list Np.float) :
  Forall (fun p => nth_error d (fst p) = Some (snd p)) (Np.enumerate d).
Proof.
  unfold Np.enumerate. pose proof (enumerate_from d 0) as H.
  rewrite Forall_forall in H |- *. intros p Hp.
  destruct (H p Hp) as [_ Hn]. rewrite Nat.sub_0_r in Hn. exact Hn.
Qed.

Lemma enumerate_fst (d : list Np.float) :
  map fst (Np.enumerate d) = seq 0 (List.length d).
Proof.
  unfold Np.enumerate. generalize 0%nat.
  induction d as [| x t IH]; intro n; simpl; [reflexivity |].
  rewrite IH. reflexivity.
Qed.

(** [argsort d] lists every position of [d] once. *)
Lemma argsort_perm (d : list Np.float) :
  Permutation (Np.argsort d) (seq 0 (List.length d)).
Proof.
  unfold Np.argsort. rewrite <- enumerate_fst.
  apply Permutation_map. apply sort_by_perm.
Qed.

Lemma argsort_length (d : list Np.float) :
  List.length (Np.argsort d) = List.length d.
Proof.
  rewrite (Permutation_length (argsort_perm d)). apply length_seq.
Qed.

Lemma argsort_NoDup (d : list Np.float) : NoDup (Np.argsort d).
Proof.
  apply (Permutation_NoDup (Permutation_sym (argsort_perm d))).
  apply seq_NoDup.
Qed.

Lemma argsort_bound (d : list Np.float) (i : nat) :
  In i (Np.argsort d) <-> (i < List.length d)%nat.
Proof.
  split; intro H.
  - apply (Permutation_in _ (argsort_perm d)) in H.
    apply in_seq in H. lia.
  - apply (Permutation_in _ (Permutation_sym (argsort_perm d))).
    apply in_seq. lia.
Qed.

(** The entries of [d] read along [argsort d] are ascending. *)
Lemma argsort_sorted (d : list Np.float) :
  StronglySorted (fun i j => Np.le (nth i d Np.nan) (nth j d Np.nan) = true)
                 (Np.argsort d).
Proof.
  unfold Np.argsort.
  assert (Hnth : Forall (fun p => nth_error d (fst p) = Some (snd p))
                        (Np.sort_by (Np.enumerate d))).
  { rewrite Forall_forall. intros p Hp.
    apply (Permutation_in _ (sort_by_perm _)) in Hp.
    pose proof (enumerate_nth d) as H. rewrite Forall_forall in H. auto. }
  pose proof (sort_by_ascending (Np.enumerate d)) as Hs. unfold ascending in Hs.
  induction Hs as [| p l Hl IH Hp]; simpl; constructor.
  - apply IH. inversion Hnth; assumption.
  - inversion Hnth as [| ? ? Hp0 Hl0]; subst.
    rewrite Forall_forall in Hp, Hl0 |- *.
    intros j Hj. apply in_map_iff in Hj. destruct Hj as [q [<- Hq]].
    rewrite (nth_error_nth _ _ _ Hp0), (nth_error_nth _ _ _ (Hl0 q Hq)).
    apply Hp. exact Hq.
Qed.

(** On numbers the order of [np.argsort] is [<=]; NaN comes after every
    float. *)
Lemma le_numbers (x y : Np.float) :
  Np.isnan x = false -> Np.isnan y = false -> Np.le x y = SFleb x y.
Proof.
  unfold Np.le, Np.lt, SFleb, SFltb, SFcompare.
  destruct x as [sx | sx | | sx mx ex], y as [sy | sy | | sy my ey];
    try destruct sx; try destruct sy; simpl; try congruence;
    intros _ _; order_cases.
Qed.

Lemma le_nan (x : Np.float) : Np.le x Np.nan = true.
Proof. destruct x as [s | s | | s m e]; try destruct s; reflexivity. Qed.

(** ** Querying on the fallback backend *)

Lemma index_in_range {A : Type} (l : list A) (i : nat) (dflt : A) :
  (i < List.length l)%nat -> Py.index l (Z.of_nat i) = inr (nth i l dflt).
Proof.
  intro Hi. unfold Py.index, Py.len.
  assert (E1 : (Z.of_nat i <? 0) = false) by (apply Z.ltb_ge; lia).
  assert (E2 : (Z.of_nat (List.length l) <=? Z.of_nat i) = false)
    by (apply Z.leb_gt; lia).
  rewrite E1. rewrite E1, E2. cbn [orb]. rewrite Nat2Z.id.
  destruct (nth_error l i) eqn:E.
  - rewrite (nth_error_nth _ _ _ E). reflexivity.
  - apply nth_error_None in E. lia.
Qed.

Lemma for_each_index {R : Type} (ms : list meta) (idx : list nat) (w : world) :
  Forall (fun i => (i < List.length ms)%nat) idx ->
  @for_each R _ _ (fun i => lift (Py.index ms (Z.of_nat i))) idx w =
  (Normal (map (fun i => nth i ms []) idx), w).
Proof.
  induction 1 as [| i t Hi Ht IH]; cbn [for_each map]; [reflexivity |].
  unfold bind. rewrite (index_in_range ms i [] Hi). cbn [lift ret].
  rewrite IH. reflexivity.
Qed.

Lemma firstn_incl {A : Type} (n : nat) (l : list A) (x : A) :
  In x (firstn n l) -> In x l.
Proof.
  intro H. rewrite <- (firstn_skipn n l). apply in_or_app. left. exact H.
Qed.

Lemma slice_to_incl {A : Type} (l : list A) (stop : Z) (x : A) :
  In x (Py.slice_to l stop) -> In x l.
Proof. unfold Py.slice_to. apply firstn_incl. Qed.

Lemma selected_bound (dists : list Np.float) (k : Z) :
  Forall (fun i => (i < List.length dists)%nat) (selected dists k).
Proof.
  rewrite Forall_forall. intros i Hi. apply argsort_bound.
  apply (slice_to_incl _ _ _ Hi).
Qed.

Lemma distances_length (a : Np.ndarray) (q32 : list Np.float) :
  List.length (distances a q32) = List.length (Np.rows a).
Proof. unfold distances. apply length_map. Qed.

Lemma norm_sub_fallback (a : Np.ndarray) (q32 : list Np.float) :
  Np.ncols a = Py.len q32 -> Np.norm_sub a q32 = inr (distances a q32).
Proof.
  intro H. unfold Np.norm_sub, Np.sub_rows, Np.broadcastable.
  rewrite H, Z.eqb_refl. cbn [orb]. unfold distances.
  rewrite map_map. reflexivity.
Qed.

(** What a query returns on the fallback backend. *)
Lemma query_db_fallback (env : environment) (q : list Np.float) (k : Z)
    (w : world) (a : Np.ndarray) :
  fallback_store (self w) a ->
  let dists := distances a (stored_row (dim (self w)) q) in
  call (query_db env q k) w =
  (Returned (Some (map (fun i => nth i (metadata (self w)) []) (selected dists k),
                   Np.take dists (selected dists k))),
   mk_world (self w) (warned w ++ validate_warnings (dim (self w)) q)
            (S (clock_reads w))).
Proof.
  intros [Hflag Hdb Hdim Hwidth Hmeta] dists.
  assert (Hq : Np.ncols a = Py.len (stored_row (dim (self w)) q))
    by (rewrite stored_row_len by lia; exact Hwidth).
  assert (Hidx : Forall (fun i => (i < List.length (metadata (self w)))%nat)
                        (selected dists k)).
  { pose proof (selected_bound dists k) as Hb.
    rewrite Forall_forall in Hb |- *. intros i Hi. specialize (Hb i Hi).
    unfold dists in Hb. rewrite distances_length in Hb.
    unfold Np.alen, Py.len in Hmeta. lia. }
  destruct w as [s ws n]. destruct s as [d c ms vs uf db br].
  cbn [self dim metadata use_faiss knowledge_db warned clock_reads] in *.
  subst uf db.
  unfold call, query_db, bind. unfold time_time at 1.
  cbn [self warned clock_reads fst snd].
  rewrite validate_vector_run.
  cbn -[Z.min Py.len Np.argsort Np.norm_sub Z.eqb].
  fold (stored_row d q).
  destruct (Z.eqb_spec (Np.alen a) 0) as [Hz | Hnz].
  - cbn -[Z.min Py.len Np.argsort Np.norm_sub].
    unfold Np.alen in Hz. apply len_zero_nil in Hz.
    unfold dists, distances, selected. rewrite Hz. cbn [map].
    change (Np.argsort []) with (@nil nat).
    unfold Py.slice_to. rewrite firstn_nil. reflexivity.
  - cbn -[Z.min Py.len Np.argsort Np.norm_sub].
    rewrite (norm_sub_fallback a _ Hq).
    cbn -[Z.min Py.len Np.argsort Np.norm_sub].
    fold dists. fold (selected dists k).
    rewrite (for_each_index ms (selected dists k) _ Hidx).
    reflexivity.
Qed.

Lemma selected_length (dists : list Np.float) (k : Z) :
  Py.len (selected dists k) = clamped k (Py.len dists).
Proof.
  unfold selected, Py.slice_to, clamped.
  assert (Hn : Py.len (Np.argsort dists) = Py.len dists)
    by (unfold Py.len; rewrite argsort_length; reflexivity).
  rewrite Hn. pose proof (len_nonneg dists) as Hpos.
  unfold Py.len at 1. rewrite length_firstn. fold (Py.len (Np.argsort dists)).
  assert (Hl : List.length (Np.argsort dists) = Z.to_nat (Py.len dists))
    by (unfold Py.len in *; rewrite argsort_length; lia).
  rewrite Hl.
  destruct (Z.leb_spec (Py.len dists) k);
    destruct (Z.ltb_spec (Z.min k (Py.len dists)) 0);
    destruct (Z.ltb_spec k 0); lia.
Qed.

Lemma firstn_NoDup {A : Type} (n : nat) (l : list A) :
  NoDup l -> NoDup (firstn n l).
Proof.
  intro H. rewrite <- (firstn_skipn n l) in H.
  apply NoDup_app_remove_r in H. exact H.
Qed.

Lemma sorted_app {A : Type} (R : A -> A -> Prop) (l1 l2 : list A) :
  StronglySorted R (l1 ++ l2) ->
  StronglySorted R l1 /\ forall x y, In x l1 -> In y l2 -> R x y.
Proof.
  induction l1 as [| h t IH]; cbn [app]; intro H.
  - split; [constructor | intros x y []].
  - apply StronglySorted_inv in H. destruct H as [Ht Hh].
    destruct (IH Ht) as [Hs Hc]. split.
    + constructor; [exact Hs |].
      rewrite Forall_forall in Hh |- *. intros x Hx. apply Hh.
      apply in_or_app. left. exact Hx.
    + intros x y [<- | Hx] Hy.
      * rewrite Forall_forall in Hh. apply Hh. apply in_or_app. right. exact Hy.
      * apply Hc; assumption.
Qed.

(** The selected positions are the first of [argsort]: distinct, ascending
    in distance, and no farther than any position left out. *)
Lemma selected_nearest (dists : list Np.float) (k : Z) :
  let dist i := nth i dists Np.nan in
  NoDup (selected dists k) /\
  StronglySorted (fun i j => Np.le (dist i) (dist j) = true) (selected dists k) /\
  forall i j, In i (selected dists k) -> (j < List.length dists)%nat ->
              ~ In j (selected dists k) -> Np.le (dist i) (dist j) = true.
Proof.
  intro dist. unfold selected, Py.slice_to.
  set (n := Z.to_nat _).
  pose proof (argsort_sorted dists) as Hs.
  rewrite <- (firstn_skipn n (Np.argsort dists)) in Hs.
  apply sorted_app in Hs. destruct Hs as [Hs Hc].
  split; [apply firstn_NoDup, argsort_NoDup |].
  split; [exact Hs |].
  intros i j Hi Hj Hnot. apply Hc; [exact Hi |].
  apply argsort_bound in Hj.
  rewrite <- (firstn_skipn n (Np.argsort dists)) in Hj.
  apply in_app_or in Hj. destruct Hj as [Hj | Hj]; [contradiction | exact Hj].
Qed.

Lemma take_distances (a : Np.ndarray) (q32 : list Np.float) (idx : list nat) :
  Forall (fun i => (i < List.length (Np.rows a))%nat) idx ->
  Np.take (distances a q32) idx =
  map (fun i => Np.norm_row (Np.sub_row (nth i (Np.rows a) []) q32)) idx.
Proof.
  intro H. unfold Np.take. apply map_ext_in. intros i Hi.
  rewrite Forall_forall in H. specialize (H i Hi).
  unfold distances.
  rewrite (nth_indep _ Np.nan (Np.norm_row (Np.sub_row [] q32)))
    by (rewrite length_map; exact H).
  apply (map_nth (fun r => Np.norm_row (Np.sub_row r q32))).
Qed.

Lemma sorted_ext_in {A : Type} (R R' : A -> A -> Prop) (l : list A) :
  (forall x y, In x l -> In y l -> R x y -> R' x y) ->
  StronglySorted R l -> StronglySorted R' l.
Proof.
  intros Hext Hs. induction Hs as [| h t Ht IH Hh]; constructor.
  - apply IH. intros x y Hx Hy. apply Hext; right; assumption.
  - rewrite Forall_forall in Hh |- *. intros y Hy.
    apply Hext; [left; reflexivity | right; exact Hy | apply Hh; exact Hy].
Qed.

Lemma nth_distances (a : Np.ndarray) (q32 : list Np.float) (i : nat) :
  (i < List.length (Np.rows a))%nat ->
  nth i (distances a q32) Np.nan =
  Np.norm_row (Np.sub_row (nth i (Np.rows a) []) q32).
Proof.
  intro H. unfold distances.
  rewrite (nth_indep _ Np.nan (Np.norm_row (Np.sub_row [] q32)))
    by (rewrite length_map; exact H).
  apply (map_nth (fun r => Np.norm_row (Np.sub_row r q32))).
Qed.

(** ** Distances in float32 *)

Lemma sub32_self (x : Np.float) :
  Np.isfinite x = true -> Np.sub32 x x = Np.zero.
Proof.
  destruct x as [[|] | s | | s m e]; try reflexivity; try discriminate.
  intros _. unfold Np.sub32, SFsub. rewrite Z.sub_diag. reflexivity.
Qed.

Lemma sub_row_self (r : list Np.float) :
  forallb Np.isfinite r = true ->
  Np.sub_row r r = map (fun _ => Np.zero) r.
Proof.
  intro H.
  assert (Hz : map (fun xy => Np.sub32 (fst xy) (snd xy)) (combine r r)
               = map (fun _ => Np.zero) r).
  { induction r as [| x t IH]; cbn [combine map]; [reflexivity |].
    cbn [forallb] in H. apply andb_prop in H. destruct H as [Hx Ht].
    cbn [fst snd]. rewrite (sub32_self x Hx), (IH Ht). reflexivity. }
  destruct r as [| x [| y t]]; exact Hz.
Qed.

Lemma skipn_repeat {A : Type} (x : A) (k n : nat) :
  skipn k (repeat x n) = repeat x (n - k).
Proof.
  revert n. induction k as [| k IH]; intro n.
  - rewrite Nat.sub_0_r. reflexivity.
  - destruct n as [| n]; [reflexivity | apply IH].
Qed.

Lemma firstn_repeat {A : Type} (x : A) (k n : nat) :
  firstn k (repeat x n) = repeat x (Nat.min k n).
Proof.
  revert n. induction k as [| k IH]; intro n.
  - reflexivity.
  - destruct n as [| n]; [reflexivity |]. cbn. rewrite IH. reflexivity.
Qed.

(** ** The pairwise sum *)

(** A row of more than 128 entries is cut into two shorter parts. *)
Lemma split_point (n : nat) :
  (128 < n)%nat -> (1 <= n / 2 - (n / 2) mod 8 < n)%nat.
Proof.
  intro H.
  pose proof (Nat.div_mod_eq n 2) as E.
  pose proof (Nat.mod_upper_bound n 2 ltac:(lia)) as B2.
  pose proof (Nat.mod_upper_bound (n / 2) 8 ltac:(lia)) as B8.
  revert E B2 B8. generalize (n / 2)%nat (n mod 2)%nat. intros h r.
  generalize (h mod 8)%nat. intros m E B2 B8. lia.
Qed.

(** The counter of the recursion is enough: from the length of the row
    on, the sum does not depend on it. *)
Lemma pairwise_sum_upto_enough (d1 d2 : nat) (l : list Np.float) :
  (List.length l <= d1)%nat -> (List.length l <= d2)%nat ->
  Np.pairwise_sum_upto d1 l = Np.pairwise_sum_upto d2 l.
Proof.
  revert d2 l. induction d1 as [| d1 IH]; intros d2 l H1 H2.
  - destruct l as [| x t]; [| cbn [List.length] in H1; lia].
    destruct d2; reflexivity.
  - destruct d2 as [| d2].
    { destruct l as [| x t]; [reflexivity | cbn [List.length] in H2; lia]. }
    cbn [Np.pairwise_sum_upto].
    destruct (List.length l <? 8)%nat; [reflexivity |].
    destruct (Nat.leb_spec (List.length l) 128) as [_ | Hlong]; [reflexivity |].
    pose proof (split_point _ Hlong) as Hcut.
    f_equal; apply IH; rewrite ?length_firstn, ?length_skipn; lia.
Qed.

(** The three cases of the pairwise sum. *)
Lemma pairwise_sum_short (l : list Np.float) :
  (List.length l < 8)%nat -> Np.pairwise_sum l = fold_left Np.add32 l Np.neg_zero.
Proof.
  intro H. unfold Np.pairwise_sum.
  destruct (List.length l) as [| d] eqn:E.
  - destruct l; [reflexivity | discriminate].
  - cbn [Np.pairwise_sum_upto]. rewrite E.
    destruct (Nat.ltb_spec (S d) 8); [reflexivity | lia].
Qed.

Lemma pairwise_sum_blocks (l : list Np.float) :
  (8 <= List.length l <= 128)%nat -> Np.pairwise_sum l = Np.sum_block l.
Proof.
  intro H. unfold Np.pairwise_sum.
  destruct (List.length l) as [| d] eqn:E; [lia |].
  cbn [Np.pairwise_sum_upto]. rewrite E.
  destruct (Nat.ltb_spec (S d) 8); [lia |].
  destruct (Nat.leb_spec (S d) 128); [reflexivity | lia].
Qed.

Lemma pairwise_sum_split (l : list Np.float) :
  (128 < List.length l)%nat ->
  let n2 := (List.length l / 2 - (List.length l / 2) mod 8)%nat in
  Np.pairwise_sum l =
  Np.add32 (Np.pairwise_sum (firstn n2 l)) (Np.pairwise_sum (skipn n2 l)).
Proof.
  intros H n2. unfold Np.pairwise_sum at 1.
  destruct (List.length l) as [| d] eqn:E; [lia |].
  cbn [Np.pairwise_sum_upto]. rewrite E. fold n2.
  destruct (Nat.ltb_spec (S d) 8); [lia |].
  destruct (Nat.leb_spec (S d) 128); [lia |].
  unfold Np.pairwise_sum.
  pose proof (split_point (S d) ltac:(lia)) as Hcut. fold n2 in Hcut.
  rewrite <- E in *.
  f_equal; apply pairwise_sum_upto_enough;
    rewrite ?length_firstn, ?length_skipn; lia.
Qed.

(** The order of the additions shows in the result: of nine squares the
    first eight are added in pairs and the ninth last, which here gives
    [2^24 + 8], where adding from left to right would give [2^24]. *)
Lemma add_reduce_in_pairs :
  let squares := map (fun x => Np.mul32 x x)
                     (Np.astype_float32 (f64 4096 :: repeat (f64 1) 8)) in
  Np.add_reduce squares = Np.to_float32 (f64 16777224) /\
  fold_left Np.add32 squares Np.zero = Np.to_float32 (f64 16777216).
Proof. vm_compute. split; reflexivity. Qed.

(** A sum of zeros is zero. *)
Lemma fold_add_zeros (n : nat) :
  fold_left Np.add32 (repeat Np.zero n) Np.zero = Np.zero.
Proof. induction n as [| n IH]; [reflexivity | exact IH]. Qed.

Lemma add_blocks_zeros (b m : nat) :
  (8 * b <= m)%nat ->
  Np.add_blocks (repeat Np.zero 8) (repeat Np.zero m) b = repeat Np.zero 8.
Proof.
  revert m. induction b as [| b IH]; intros m H; cbn [Np.add_blocks].
  - reflexivity.
  - rewrite firstn_repeat, skipn_repeat.
    replace (Nat.min 8 m) with 8%nat by lia.
    change (Np.add_each (repeat Np.zero 8) (repeat Np.zero 8))
      with (repeat Np.zero 8).
    apply IH. lia.
Qed.

Lemma sum_block_zeros (n : nat) :
  (8 <= n)%nat -> Np.sum_block (repeat Np.zero n) = Np.zero.
Proof.
  intro H. unfold Np.sum_block.
  rewrite repeat_length, firstn_repeat, !skipn_repeat.
  replace (Nat.min 8 n) with 8%nat by lia.
  assert (Hb : (8 * (n / 8 - 1) <= n - 8)%nat).
  { pose proof (Nat.div_mod_eq n 8) as E. revert E.
    generalize (n / 8)%nat (n mod 8)%nat. intros h r E. lia. }
  rewrite add_blocks_zeros by exact Hb.
  apply fold_add_zeros.
Qed.

Lemma pairwise_sum_upto_zeros (depth n : nat) :
  (1 <= n)%nat -> Np.pairwise_sum_upto depth (repeat Np.zero n) = Np.zero.
Proof.
  revert n.
  assert (Hshort : forall n, (1 <= n)%nat ->
            fold_left Np.add32 (repeat Np.zero n) Np.neg_zero = Np.zero).
  { intros [| n] Hn; [lia |]. cbn [repeat fold_left].
    change (Np.add32 Np.neg_zero Np.zero) with Np.zero. apply fold_add_zeros. }
  induction depth as [| depth IH]; intros n Hn;
    cbn [Np.pairwise_sum_upto]; rewrite repeat_length;
    destruct (Nat.ltb_spec n 8) as [H8 | H8]; try (apply Hshort; exact Hn);
    destruct (Nat.leb_spec n 128) as [H128 | H128];
    try (apply sum_block_zeros; exact H8).
  pose proof (split_point n H128) as Hcut.
  rewrite firstn_repeat, skipn_repeat, !IH by lia. reflexivity.
Qed.

Lemma map_const_repeat {A B : Type} (x : B) (l : list A) :
  map (fun _ => x) l = repeat x (List.length l).
Proof. induction l as [| a t IH]; cbn [map List.length repeat]; congruence. Qed.

Lemma norm_row_zeros {A : Type} (r : list A) :
  Np.norm_row (map (fun _ => Np.zero) r) = Np.zero.
Proof.
  unfold Np.norm_row. rewrite map_map.
  change (fun x : A => Np.mul32 Np.zero Np.zero) with (fun _ : A => Np.zero).
  rewrite map_const_repeat.
  destruct (List.length r) as [| n]; [reflexivity |].
  unfold Np.add_reduce. cbn [repeat]. change (Np.zero :: repeat Np.zero n)
    with (repeat Np.zero (S n)).
  unfold Np.pairwise_sum. rewrite pairwise_sum_upto_zeros by lia.
  reflexivity.
Qed.

(** A row of finite entries is at distance zero from itself. *)
Lemma norm_row_self (r : list Np.float) :
  forallb Np.isfinite r = true -> Np.norm_row (Np.sub_row r r) = Np.zero.
Proof.
  intro H. rewrite (sub_row_self r H). apply norm_row_zeros.
Qed.

(** A square root is a zero, a positive number or NaN. *)
Lemma sqrt32_cases (x : Np.float) :
  match Np.sqrt32 x with
  | S754_zero _ | S754_nan => True
  | S754_infinity s | S754_finite s _ _ => s = false
  end.
Proof.
  unfold Np.sqrt32, SFsqrt.
  destruct x as [s | [|] | | [|] m e]; try exact I; try reflexivity.
  destruct (SFsqrt_core_binary 24 128 (Z.pos m) e) as [[mz ez] lz].
  unfold binary_round_aux.
  destruct (shr_fexp 24 128 mz ez lz) as [mrs' e'].
  destruct (shr_fexp 24 128 _ e' loc_Exact) as [mrs'' e''].
  destruct (shr_m mrs''); try exact I.
  destruct (e'' <=? 128 - 24); reflexivity.
Qed.

Lemma le_zero_sqrt32 (x : Np.float) : Np.le Np.zero (Np.sqrt32 x) = true.
Proof.
  pose proof (sqrt32_cases x) as H.
  destruct (Np.sqrt32 x) as [s | s | | s m e]; try subst s; reflexivity.
Qed.

(** A square root that is not above zero is a zero. *)
Lemma sqrt32_le_zero (x : Np.float) :
  Np.le (Np.sqrt32 x) Np.zero = true -> exists s, Np.sqrt32 x = S754_zero s.
Proof.
  pose proof (sqrt32_cases x) as H.
  destruct (Np.sqrt32 x) as [s | s | | s m e]; try subst s;
    cbn; intro E; try discriminate. exists s. reflexivity.
Qed.

Lemma le_refl (x : Np.float) : Np.le x x = true.
Proof.
  unfold Np.le. destruct (Np.lt x x) eqn:E; [| reflexivity].
  rewrite (lt_asym _ _ E) in E. discriminate.
Qed.

(** ** The indexed backend *)





(** An empty store answers a query with two empty sequences. *)
Lemma query_db_empty (env : environment) (q : list Np.float) (k : Z) (w : world) :
  current_size (self w) = Some 0 ->
  call (query_db env q k) w =
  (Returned (Some ([], [])),
   mk_world (self w) (warned w ++ validate_warnings (dim (self w)) q)
            (S (clock_reads w))).
Proof.
  intro Hsize. destruct w as [s ws n]. destruct s as [d c ms vs uf db br].
  unfold current_size in Hsize.
  cbn [self dim metadata use_faiss knowledge_db warned clock_reads] in *.
  unfold call, query_db, bind. unfold time_time at 1.
  cbn [self warned clock_reads fst snd].
  rewrite validate_vector_run.
  destruct uf, db as [| a | ix]; try discriminate;
    injection Hsize as Hsize;
    cbn -[Z.min Py.len Z.eqb Faiss.ntotal Np.alen];
    rewrite Hsize; reflexivity.
Qed.


(** ** An insert into a full indexed store *)

Lemma add_untrained (ix : Faiss.IndexIVFFlat) (x : Np.ndarray) :
  Faiss.is_trained ix = false -> exists e, Faiss.add ix x = inl e.
Proof.
  intro H. unfold Faiss.add. rewrite H.
  destruct (negb (Np.ncols x =? Faiss.d ix)); eexists; reflexivity.
Qed.

(** The state an insert into a full indexed store leaves: the oldest
    metadata record and raw vector are gone, the collection is the fresh
    index, and the insert has raised. *)
Lemma add_to_db_full_index (env : environment) (vec : list Np.float) (m : meta)
    (w : world) (fm : Faiss.module) (ix : Faiss.IndexIVFFlat)
    (m0 : meta) (ms : list meta) (v0 : list Np.float) (vs : list (list Np.float)) :
  faiss env = Some fm ->
  use_faiss (self w) = true ->
  knowledge_db (self w) = Index ix ->
  metadata (self w) = m0 :: ms ->
  vectors (self w) = v0 :: vs ->
  MAX_DB_SIZE (config (self w)) <= Faiss.ntotal ix ->
  Faiss.IndexFlatL2_raises fm (dim (self w)) = None ->
  Faiss.IndexIVFFlat_raises fm (dim (self w)) (N_CLUSTERS (config (self w))) = None ->
  exists e,
    call (add_to_db env vec m) w =
    (Raised e,
     mk_world
       (mk_system (dim (self w)) (config (self w)) ms vs true
          (Index (rebuilt_index (self w))) (benchmark_results (self w)))
       (warned w ++ validate_warnings (dim (self w)) vec)
       (S (clock_reads w))).
Proof.
  intros Hmod Hflag Hdb Hms Hvs Hfull H1 H2.
  destruct w as [s ws n]. destruct s as [d c ms' vs' uf db br].
  cbn [self dim config metadata vectors use_faiss knowledge_db warned
       clock_reads benchmark_results] in *.
  subst uf db ms' vs'.
  unfold call, add_to_db, bind. unfold time_time at 1.
  cbn [self warned clock_reads fst snd].
  rewrite validate_vector_run.
  cbn -[Z.geb Faiss.ntotal Faiss.add Np.stack Py.len].
  destruct (Z.geb_spec (Faiss.ntotal ix) (MAX_DB_SIZE c)) as [_ | Hlt]; [| lia].
  cbn -[Z.geb Faiss.ntotal Faiss.add Np.stack Py.len].
  unfold faiss_module, new_IndexIVFFlat, bind. rewrite Hmod.
  cbn -[Z.geb Faiss.ntotal Faiss.add Np.stack Py.len].
  rewrite H1. cbn -[Z.geb Faiss.ntotal Faiss.add Np.stack Py.len].
  rewrite H2. cbn -[Z.geb Faiss.ntotal Faiss.add Np.stack Py.len].
  unfold rebuilt_index. cbn [dim config].
  set (rb := Faiss.set_nprobe (Faiss.fresh d (N_CLUSTERS c)) (N_PROBE c)).
  assert (Hrb : Faiss.is_trained rb = false) by reflexivity.
  destruct vs as [| v1 vs''].
  - cbn -[Z.geb Faiss.ntotal Faiss.add Np.stack Py.len rb]. unfold bind.
    destruct (add_untrained rb (Np.reshape_row (Np.astype_float32 (validated d vec))) Hrb)
      as [e He].
    exists e. rewrite He. reflexivity.
  - cbn -[Z.geb Faiss.ntotal Faiss.add Np.stack Py.len rb]. unfold bind.
    cbn -[Z.geb Faiss.ntotal Faiss.add Np.stack Py.len rb].
    destruct (Np.stack (Py.len v1) (v1 :: vs'')) as [e | a] eqn:Es.
    + exists e. reflexivity.
    + cbn -[Z.geb Faiss.ntotal Faiss.add Np.stack Py.len rb].
      destruct (add_untrained rb (Np.astype_float32_2d a) Hrb) as [e He].
      exists e. rewrite He. reflexivity.
Qed.


(** An insert into an untrained index raises, full or not: once a rebuild
    has left the fresh index in place, no later insert succeeds. *)
Lemma add_to_db_untrained (env : environment) (vec : list Np.float) (m : meta)
    (w : world) (ix : Faiss.IndexIVFFlat) :
  use_faiss (self w) = true ->
  knowledge_db (self w) = Index ix ->
  Faiss.is_trained ix = false ->
  exists e, fst (call (add_to_db env vec m) w) = Raised e.
Proof.
  intros Hflag Hdb Htr.
  destruct w as [s ws n]. destruct s as [d c ms vs uf db br].
  cbn [self dim config metadata vectors use_faiss knowledge_db warned
       clock_reads benchmark_results] in *.
  subst uf db.
  unfold call, add_to_db, bind. unfold time_time at 1.
  cbn [self warned clock_reads fst snd].
  rewrite validate_vector_run.
  cbn -[Z.geb Faiss.ntotal Faiss.add Np.stack Py.len].
  destruct (Faiss.ntotal ix >=? MAX_DB_SIZE c).
  - cbn -[Z.geb Faiss.ntotal Faiss.add Np.stack Py.len].
    destruct ms as [| m0 ms]; [eexists; reflexivity |].
    cbn -[Z.geb Faiss.ntotal Faiss.add Np.stack Py.len].
    destruct vs as [| v0 vs]; [eexists; reflexivity |].
    cbn -[Z.geb Faiss.ntotal Faiss.add Np.stack Py.len].
    unfold faiss_module, new_IndexIVFFlat, bind.
    destruct (faiss env) as [fm |]; [| eexists; reflexivity].
    cbn -[Z.geb Faiss.ntotal Faiss.add Np.stack Py.len].
    destruct (Faiss.IndexFlatL2_raises fm d); [eexists; reflexivity |].
    cbn -[Z.geb Faiss.ntotal Faiss.add Np.stack Py.len].
    destruct (Faiss.IndexIVFFlat_raises fm d (N_CLUSTERS c)); [eexists; reflexivity |].
    cbn -[Z.geb Faiss.ntotal Faiss.add Np.stack Py.len].
    set (rb := Faiss.set_nprobe (Faiss.fresh d (N_CLUSTERS c)) (N_PROBE c)).
    assert (Hrb : Faiss.is_trained rb = false) by reflexivity.
    destruct vs as [| v1 vs''].
    + cbn -[Z.geb Faiss.ntotal Faiss.add Np.stack Py.len rb]. unfold bind.
      destruct (add_untrained rb (Np.reshape_row (Np.astype_float32 (validated d vec))) Hrb)
        as [e He].
      exists e. rewrite He. reflexivity.
    + cbn -[Z.geb Faiss.ntotal Faiss.add Np.stack Py.len rb]. unfold bind.
      cbn -[Z.geb Faiss.ntotal Faiss.add Np.stack Py.len rb].
      destruct (Np.stack (Py.len v1) (v1 :: vs'')) as [e | a] eqn:Es.
      * exists e. reflexivity.
      * cbn -[Z.geb Faiss.ntotal Faiss.add Np.stack Py.len rb].
        destruct (add_untrained rb (Np.astype_float32_2d a) Hrb) as [e He].
        exists e. rewrite He. reflexivity.
  - cbn -[Z.geb Faiss.ntotal Faiss.add Np.stack Py.len]. unfold bind.
    destruct (add_untrained ix (Np.reshape_row (Np.astype_float32 (validated d vec))) Htr)
      as [e He].
    exists e. rewrite He. reflexivity.
Qed.

(** ** Sequences of operations on the fallback backend *)

Lemma keeps_get_system_stats : keeps_self get_system_stats.
Proof.
  unfold get_system_stats.
  apply keeps_bind; [auto with stmt | intro s].
  apply keeps_bind; [destruct (use_faiss s); auto with stmt | intro n].
  auto with stmt.
Qed.

(** What [get_system_stats] reports on the fallback backend. *)
Lemma get_system_stats_fallback (w : world) (a : Np.ndarray) :
  fallback_store (self w) a ->
  call get_system_stats w =
  (Returned (Some (mk_stats (dim (self w)) (Np.alen a)
                            (MAX_DB_SIZE (config (self w))) false
                            (Py.len (metadata (self w))))), w).
Proof.
  intros [Hflag Hdb Hdim Hwidth Hmeta].
  destruct w as [s ws n]. destruct s as [d c ms vs uf db br].
  cbn [self dim config metadata use_faiss knowledge_db] in *. subst uf db.
  reflexivity.
Qed.

(** On the fallback backend every operation leaves a store with one
    metadata record per row. *)
Lemma perform_fallback (env : environment) (w : world) (a : Np.ndarray)
    (o : operation) :
  fallback_store (self w) a ->
  0 < MAX_DB_SIZE (config (self w)) ->
  exists a', fallback_store (self (perform env w o)) a' /\
             config (self (perform env w o)) = config (self w).
Proof.
  intros Hfb Hmax. destruct o as [vec m | vec k |]; cbn [perform].
  - destruct (insert_fallback env (vec, m) w a Hfb Hmax) as (H & _ & _ & Hc & _).
    eexists. split; [exact H | exact Hc].
  - exists a. rewrite (call_keeps _ w (proj1 (query_db_keeps_and_leaves env vec k))).
    split; [exact Hfb | reflexivity].
  - exists a. rewrite (call_keeps _ w keeps_get_system_stats).
    split; [exact Hfb | reflexivity].
Qed.

Lemma perform_all_fallback (env : environment) (os : list operation) :
  forall (w : world) (a : Np.ndarray),
  fallback_store (self w) a ->
  0 < MAX_DB_SIZE (config (self w)) ->
  exists a', fallback_store (self (perform_all env w os)) a'.
Proof.
  induction os as [| o os IH]; intros w a Hfb Hmax; cbn [perform_all fold_left].
  - exists a. exact Hfb.
  - destruct (perform_fallback env w a o Hfb Hmax) as [a1 [H1 Hc]].
    apply (IH _ a1 H1). rewrite Hc. exact Hmax.
Qed.

(** After any sequence of operations on a fallback store, the metadata
    count that [get_system_stats] reports is the size it reports. *)
Lemma fallback_metadata_count (env : environment) (os : list operation)
    (w : world) (a : Np.ndarray) :
  fallback_store (self w) a ->
  0 < MAX_DB_SIZE (config (self w)) ->
  exists st, fst (call get_system_stats (perform_all env w os)) = Returned (Some st) /\
             stat_metadata_count st = stat_db_size st.
Proof.
  intros Hfb Hmax.
  destruct (perform_all_fallback env os w a Hfb Hmax) as [a' Hfb'].
  rewrite (get_system_stats_fallback _ a' Hfb'). eexists. split; [reflexivity |].
  cbn. exact (fb_meta _ _ Hfb').
Qed.

Lemma fallback_fresh_store (dim : Z) (cfg : SJPUConfig) :
  0 < dim -> fallback_store (fallback_fresh dim cfg) (Np.mk_ndarray dim []).
Proof. intro H. constructor; try reflexivity. exact H. Qed.

(** A store built without faiss holds, after any sequence of inserts, the
    last [MAX_DB_SIZE] rows and metadata records inserted, oldest first;
    its size is the smaller of the capacity and the number of inserts. *)
Lemma fallback_keeps_last_inserted (env : environment) (d : Z)
    (cfg : option SJPUConfig) (its : list (list Np.float * meta)) :
  let cap := MAX_DB_SIZE (config_or_default cfg) in
  faiss env = None -> 0 < d -> 0 < cap ->
  exists s,
    fst (__init__ env d cfg) = inr s /\
    forall ws n,
      let w := inserts env (mk_world s ws n) its in
      knowledge_db (self w) =
        Array (Np.mk_ndarray d
                 (last_n cap (map (fun it => stored_row d (fst it)) its))) /\
      metadata (self w) = last_n cap (map snd its) /\
      current_size (self w) = Some (Z.min cap (Py.len its)).
Proof.
  intros cap Hf Hd Hcap.
  exists (fallback_fresh d (config_or_default cfg)).
  rewrite (init_without_faiss env d cfg Hf) by lia.
  split; [reflexivity |]. intros ws n w.
  destruct (inserts_fallback env (mk_world (fallback_fresh d (config_or_default cfg)) ws n)
              (Np.mk_ndarray d []) its (fallback_fresh_store d _ Hd)
              eq_refl Hcap) as (Hfb & Hms & _).
  cbn [self fallback_fresh dim config] in Hfb, Hms. fold cap in Hfb, Hms.
  fold w in Hfb, Hms.
  split; [exact (fb_db _ _ Hfb) |]. split; [exact Hms |].
  unfold current_size. rewrite (fb_flag _ _ Hfb), (fb_db _ _ Hfb).
  unfold Np.alen. cbn [Np.rows]. rewrite last_n_len by lia.
  len_norm. reflexivity.
Qed.

(* ===================================================================== *)
(** * The claims *)
(* ===================================================================== *)

(** ** Construction *)

(** C1.  Construction is not total: the training run of
    [_initialize_database] lies outside its [try].  When faiss is present,
    both constructors succeed and the training run raises, the exception
    leaves [__init__]: no store is built, no warning is recorded and no
    fallback takes place. *)
Theorem construction_raises_when_training_raises
    (env : environment) (fm : Faiss.module) (d : Z)
    (cfg : option SJPUConfig) (e : Py.exn) :
  let c := config_or_default cfg in
  faiss env = Some fm ->
  Faiss.IndexFlatL2_raises fm d = None ->
  Faiss.IndexIVFFlat_raises fm d (N_CLUSTERS c) = None ->
  random_raises env (N_CLUSTERS c * 10) d = None ->
  Faiss.train_raises fm
    (Faiss.set_nprobe (Faiss.fresh d (N_CLUSTERS c)) (N_PROBE c))
    (N_CLUSTERS c * 10) = Some e ->
  __init__ env d cfg = (inl e, []).
Proof.
  intros c Hf H1 H2 H3 H4.
  unfold __init__, call, _initialize_database, bind. rewrite Hf.
  fold (config_or_default cfg). fold c.
  unfold try_except, new_IndexIVFFlat, bind. init_steps H1.
  rewrite H2. init_steps H1. rewrite H3. init_steps H1.
  rewrite H4. reflexivity.
Qed.

Lemma construction_raises_when_training_raises_witness :
  __init__ with_failing_training 2 None = (inl Py.RuntimeError, []).
Proof.
  apply (construction_raises_when_training_raises
           with_failing_training faiss_train_fails 2 None Py.RuntimeError);
    reflexivity.
Defined.

(** ** Capacity *)

(** C2.  On the indexed backend the insert that finds the store full
    raises: of three inserts into a store of capacity 2 the third is lost,
    and the store is left with one metadata record and an empty index
    instead of the last two entries. *)
Theorem indexed_eviction_loses_the_insert :
  current_size (self indexed_full) = Some 2 /\
  fst (call (add_to_db with_faiss diagonal meta_C) indexed_full)
    = Raised Py.RuntimeError /\
  metadata (self (insert with_faiss indexed_full (diagonal, meta_C))) = [meta_B] /\
  current_size (self (insert with_faiss indexed_full (diagonal, meta_C))) = Some 0.
Proof. vm_compute. repeat split; reflexivity. Qed.

(** ** Queries *)




(** ** Sanitization *)

(** C4, as stated, fails: an infinite entry is not replaced with zero but
    with the finite float64 of largest magnitude and the same sign. *)
Lemma validate_vector_infinity_not_zero :
  fst (@validate_vector unit [Np.inf; Np.neg_inf] (small_store no_faiss))
    = Normal [Np.max_float64; Np.min_float64] /\
  Np.max_float64 <> Np.zero /\
  Np.min_float64 <> Np.zero.
Proof. repeat split; try reflexivity; discriminate. Qed.

(** C4 (amended).  For a store of dimension [D >= 0], [validate_vector]
    returns normally, for every sequence of floats, a vector of length [D]
    with only finite entries: the input cut to its first [D] entries or
    padded with zeros, with every NaN replaced by zero, every [+inf] by the
    largest finite float64 and every [-inf] by its opposite
    ([Np.nan_to_num1]).  The store is untouched; a [Resized] warning is
    emitted exactly when the length was not [D], and a [NanInfReplaced]
    warning exactly when the resized vector had a non-finite entry. *)
Theorem validate_vector_repairs (R : Type) (vec : list Np.float) (w : world) :
  0 <= dim (self w) ->
  let D := dim (self w) in
  let cut := firstn (Z.to_nat D)
               (vec ++ repeat Np.zero (Z.to_nat (D - Py.len vec))) in
  exists out w',
    @validate_vector R vec w = (Normal out, w') /\
    Py.len out = D /\
    forallb Np.isfinite out = true /\
    out = map Np.nan_to_num1 cut /\
    self w' = self w /\
    warned w' = warned w
                ++ (if Py.len vec =? D then [] else [Resized (Py.len vec) D])
                ++ (if forallb Np.isfinite cut then [] else [NanInfReplaced]).
Proof.
  intros HD D cut. rewrite validate_vector_run. fold D.
  do 2 eexists. split; [reflexivity |].
  split; [apply validated_len; exact HD |].
  split; [apply validated_finite |].
  assert (Hcut : resized D vec = cut) by (apply resized_firstn; exact HD).
  split; [rewrite validated_nan_to_num, Hcut; reflexivity |].
  split; [reflexivity |].
  cbn [warned]. unfold validate_warnings. rewrite Hcut.
  destruct (Py.len vec =? D), (forallb Np.isfinite cut); reflexivity.
Qed.

Lemma validate_vector_repairs_witness :
  exists out w',
    @validate_vector unit [Np.inf; Np.nan; f64 1] (small_store no_faiss)
      = (Normal out, w') /\
    Py.len out = 2 /\
    forallb Np.isfinite out = true /\
    out = map Np.nan_to_num1 [Np.inf; Np.nan] /\
    self w' = self (small_store no_faiss) /\
    warned w' = [FaissUnavailable] ++ [Resized 3 2] ++ [NanInfReplaced].
Proof.
  apply (validate_vector_repairs unit [Np.inf; Np.nan; f64 1] (small_store no_faiss)).
  vm_compute. discriminate.
Defined.

(** ** Nearest neighbours *)

(** C5, as stated, fails: a query vector equal to a stored vector need not
    come back first at distance 0.  The float32 image of 1e39 is [+inf],
    and the distance of a row with an infinite entry to itself is NaN; and
    of two stored vectors equal to the query only one comes first. *)
Lemma query_db_equal_vector_not_first_at_zero :
  (knowledge_db (self fallback_huge) = Array (Np.mk_ndarray 2 [stored_row 2 huge]) /\
   fst (call (query_db no_faiss huge 1) fallback_huge)
     = Returned (Some ([meta_A], [Np.nan])) /\
   SFeqb Np.nan Np.zero = false) /\
  (knowledge_db (self fallback_twice)
     = Array (Np.mk_ndarray 2 [stored_row 2 unit_x; stored_row 2 unit_x]) /\
   metadata (self fallback_twice) = [meta_A; meta_B] /\
   fst (call (query_db no_faiss unit_x 1) fallback_twice)
     = Returned (Some ([meta_A], [Np.zero]))).
Proof. vm_compute. repeat split; reflexivity. Qed.

(** C5 (amended).  On the fallback backend, for [1 <= k <= size],
    [query_db] returns the metadata and the float32 distances of [k]
    distinct stored rows, ascending in the order of [np.argsort] (the order
    [<=] of the floats, NaN last), and no row left out is nearer than a row
    returned.  If the float32 image of the query has only finite entries
    and is the stored row [j], the first distance returned is a zero, and
    the first row returned is [j] itself when no other row is at distance
    zero. *)
Theorem query_db_fallback_nearest (env : environment) (q : list Np.float)
    (k : Z) (w : world) (a : Np.ndarray) :
  fallback_store (self w) a ->
  1 <= k <= Np.alen a ->
  let q32 := stored_row (dim (self w)) q in
  let dist i := Np.norm_row (Np.sub_row (nth i (Np.rows a) []) q32) in
  let size := List.length (Np.rows a) in
  exists idx w',
    call (query_db env q k) w =
      (Returned (Some (map (fun i => nth i (metadata (self w)) []) idx,
                       map dist idx)), w') /\
    Py.len idx = k /\
    NoDup idx /\
    Forall (fun i => (i < size)%nat) idx /\
    StronglySorted (fun i j => Np.le (dist i) (dist j) = true) idx /\
    (forall i j, In i idx -> (j < size)%nat -> ~ In j idx ->
                 Np.le (dist i) (dist j) = true) /\
    (forall j, forallb Np.isfinite q32 = true -> (j < size)%nat ->
               nth j (Np.rows a) [] = q32 ->
     exists i0 rest s,
       idx = i0 :: rest /\ dist i0 = S754_zero s /\
       ((forall j', (j' < size)%nat -> j' <> j ->
                    Np.le (dist j') Np.zero = false) -> i0 = j)).
Proof.
  intros Hfb Hk q32 dist size.
  rewrite (query_db_fallback env q k w a Hfb). fold q32.
  set (dists := distances a q32). set (idx := selected dists k).
  assert (Hbound : Forall (fun i => (i < size)%nat) idx).
  { pose proof (selected_bound dists k) as Hb. unfold dists in Hb.
    rewrite distances_length in Hb. exact Hb. }
  assert (Hdist : forall i, In i idx -> nth i dists Np.nan = dist i).
  { intros i Hi. rewrite Forall_forall in Hbound.
    apply nth_distances. apply Hbound. exact Hi. }
  assert (Hlen : Py.len idx = k).
  { unfold idx. rewrite selected_length. unfold dists, distances. len_norm.
    fold (Np.alen a). unfold clamped.
    destruct (Z.leb_spec (Np.alen a) k); [lia |].
    destruct (Z.ltb_spec k 0); lia. }
  destruct (selected_nearest dists k) as (Hnodup & Hsorted & Hnear).
  fold idx in Hnodup, Hsorted, Hnear.
  assert (Hsorted' : StronglySorted (fun i j => Np.le (dist i) (dist j) = true) idx).
  { revert Hsorted. apply sorted_ext_in.
    intros x y Hx Hy. rewrite (Hdist x Hx), (Hdist y Hy). auto. }
  assert (Hnear' : forall i j, In i idx -> (j < size)%nat ->
                               ~ In j idx -> Np.le (dist i) (dist j) = true).
  { intros i j Hi Hj Hnot.
    rewrite <- (Hdist i Hi). unfold dist.
    rewrite <- (nth_distances a q32 j Hj). fold dists.
    apply Hnear; [exact Hi | | exact Hnot].
    unfold dists. rewrite distances_length. exact Hj. }
  do 2 eexists. split.
  { pose proof (take_distances a q32 idx Hbound) as Ht. fold dists in Ht.
    rewrite Ht. reflexivity. }
  split; [exact Hlen |]. split; [exact Hnodup |]. split; [exact Hbound |].
  split; [exact Hsorted' |]. split; [exact Hnear' |].
  intros j Hfin Hj Hrow.
  destruct idx as [| i0 rest] eqn:Eidx; [rewrite len_nil in Hlen; lia |].
  assert (Hzero : dist j = Np.zero)
    by (unfold dist; rewrite Hrow; apply norm_row_self; exact Hfin).
  assert (Hle : Np.le (dist i0) Np.zero = true).
  { rewrite <- Hzero.
    destruct (in_dec Nat.eq_dec j (i0 :: rest)) as [[<- | Hj'] | Hnot].
    - apply le_refl.
    - apply StronglySorted_inv in Hsorted'. destruct Hsorted' as [_ Hall].
      rewrite Forall_forall in Hall. apply Hall. exact Hj'.
    - apply Hnear'; [left; reflexivity | exact Hj | exact Hnot]. }
  destruct (sqrt32_le_zero _ Hle) as [s Hs].
  exists i0, rest, s. split; [reflexivity |]. split; [exact Hs |].
  intro Hothers. destruct (Nat.eq_dec i0 j) as [E | N]; [exact E |].
  assert (Hi0 : (i0 < size)%nat)
    by (rewrite Forall_forall in Hbound; apply Hbound; left; reflexivity).
  rewrite (Hothers i0 Hi0 N) in Hle. discriminate.
Qed.

Lemma query_db_fallback_nearest_witness :
  let a := Np.mk_ndarray 2 [stored_row 2 unit_x; stored_row 2 unit_y] in
  let q32 := stored_row 2 unit_y in
  let dist i := Np.norm_row (Np.sub_row (nth i (Np.rows a) []) q32) in
  exists idx w',
    call (query_db no_faiss unit_y 2) fallback_two =
      (Returned (Some (map (fun i => nth i [meta_A; meta_B] []) idx,
                       map dist idx)), w') /\
    Py.len idx = 2 /\
    NoDup idx /\
    Forall (fun i => (i < 2)%nat) idx /\
    StronglySorted (fun i j => Np.le (dist i) (dist j) = true) idx /\
    (forall i j, In i idx -> (j < 2)%nat -> ~ In j idx ->
                 Np.le (dist i) (dist j) = true) /\
    (forall j, forallb Np.isfinite q32 = true -> (j < 2)%nat ->
               nth j (Np.rows a) [] = q32 ->
     exists i0 rest s,
       idx = i0 :: rest /\ dist i0 = S754_zero s /\
       ((forall j', (j' < 2)%nat -> j' <> j ->
                    Np.le (dist j') Np.zero = false) -> i0 = j)).
Proof.
  apply (query_db_fallback_nearest no_faiss unit_y 2 fallback_two
           (Np.mk_ndarray 2 [stored_row 2 unit_x; stored_row 2 unit_y])).
  - constructor; reflexivity.
  - vm_compute. split; discriminate.
Defined.

(** ** Statistics *)

(** C6.  On the indexed backend the metadata count and the size come
    apart: after the insert that finds the store of capacity 2 full has
    raised, [get_system_stats] reports dimension 2, size 0, capacity 2,
    the indexed backend, and a metadata count of 1. *)
Theorem indexed_eviction_breaks_metadata_count :
  fst (call get_system_stats (insert with_faiss indexed_full (diagonal, meta_C)))
    = Returned (Some (mk_stats 2 0 2 true 1)).
Proof. vm_compute. reflexivity. Qed.

(** ** Rebuilding the index *)

(** C7.  An insert into a full indexed store drops the oldest metadata
    record and raw vector and replaces the index by a fresh one, but it
    runs no training on it: whatever the vector, the insert raises, and the
    store is left with an index that is untrained and holds no row, the
    retained raw vectors not re-inserted. *)
Theorem rebuild_leaves_untrained_empty_index
    (env : environment) (vec : list Np.float) (m : meta)
    (w : world) (fm : Faiss.module) (ix : Faiss.IndexIVFFlat)
    (m0 : meta) (ms : list meta) (v0 : list Np.float) (vs : list (list Np.float)) :
  faiss env = Some fm ->
  use_faiss (self w) = true ->
  knowledge_db (self w) = Index ix ->
  metadata (self w) = m0 :: ms ->
  vectors (self w) = v0 :: vs ->
  MAX_DB_SIZE (config (self w)) <= Faiss.ntotal ix ->
  Faiss.IndexFlatL2_raises fm (dim (self w)) = None ->
  Faiss.IndexIVFFlat_raises fm (dim (self w)) (N_CLUSTERS (config (self w))) = None ->
  exists e w' ix',
    call (add_to_db env vec m) w = (Raised e, w') /\
    knowledge_db (self w') = Index ix' /\
    Faiss.is_trained ix' = false /\
    Faiss.xb ix' = [] /\
    metadata (self w') = ms /\
    vectors (self w') = vs.
Proof.
  intros Hmod Hflag Hdb Hms Hvs Hfull H1 H2.
  destruct (add_to_db_full_index env vec m w fm ix m0 ms v0 vs
              Hmod Hflag Hdb Hms Hvs Hfull H1 H2) as [e He].
  rewrite He. do 3 eexists. split; [reflexivity |].
  cbn [self knowledge_db metadata vectors]. repeat split; reflexivity.
Qed.

Lemma rebuild_leaves_untrained_empty_index_witness :
  exists e w' ix',
    call (add_to_db with_faiss diagonal meta_C) indexed_full = (Raised e, w') /\
    knowledge_db (self w') = Index ix' /\
    Faiss.is_trained ix' = false /\
    Faiss.xb ix' = [] /\
    metadata (self w') = [meta_B] /\
    vectors (self w') = [stored_row 2 unit_y].
Proof.
  apply (rebuild_leaves_untrained_empty_index with_faiss diagonal meta_C
           indexed_full faiss_ok
           (Faiss.mk_index 2 32 8 true [stored_row 2 unit_x; stored_row 2 unit_y])
           meta_A [meta_B] (stored_row 2 unit_x) [stored_row 2 unit_y]);
    try reflexivity; vm_compute; discriminate.
Defined.

(** ** The empty store *)

(** C8.  A store whose current size is zero answers every query, for every
    integer [k], with two empty sequences. *)
Theorem query_db_empty_store (env : environment) (q : list Np.float) (k : Z)
    (w : world) :
  current_size (self w) = Some 0 ->
  fst (call (query_db env q k) w) = Returned (Some ([], [])).
Proof.
  intro Hsize. rewrite (query_db_empty env q k w Hsize). reflexivity.
Qed.

Lemma query_db_empty_store_witness :
  fst (call (query_db with_faiss unit_x (-3)) (small_store with_faiss))
    = Returned (Some ([], [])).
Proof.
  apply (query_db_empty_store with_faiss unit_x (-3) (small_store with_faiss)).
  reflexivity.
Defined.

(** ** The frame of a query *)

(** C9.  [query_db] leaves the object unchanged, whatever the state, the
    query vector and [k], and whether it returns or raises: the collection,
    the metadata list, the raw-vector list, the backend flag and the
    benchmark record after the call are those before it.  The call never
    reaches the end of the body, where the query time would be recorded:
    each branch ends in a [return]. *)
Theorem query_db_leaves_store_unchanged (env : environment)
    (q : list Np.float) (k : Z) (w : world) :
  let s' := self (snd (call (query_db env q k) w)) in
  s' = self w /\
  knowledge_db s' = knowledge_db (self w) /\
  metadata s' = metadata (self w) /\
  vectors s' = vectors (self w) /\
  use_faiss s' = use_faiss (self w) /\
  benchmark_results s' = benchmark_results (self w) /\
  fst (call (query_db env q k) w) <> Returned None.
Proof.
  destruct (query_db_keeps_and_leaves env q k) as [Hkeeps Hleaves].
  intro s'. assert (Hs : s' = self w) by (apply call_keeps; exact Hkeeps).
  rewrite Hs. repeat split. apply call_leaves. exact Hleaves.
Qed.

(** ** The empty vector *)



(* ===================================================================== *)
(** * Further properties of the code *)
(* ===================================================================== *)

(** ** Statements that keep an observation *)

Lemma steady_ret {T R A : Type} (f : world -> T) (a : A) : steady f (@ret R A a).
Proof. intro w. split; [reflexivity | discriminate]. Qed.

Lemma steady_raise {T R A : Type} (f : world -> T) (e : Py.exn) :
  steady f (@raise R A e).
Proof. intro w. split; [reflexivity | discriminate]. Qed.

Lemma steady_lift {T R A : Type} (f : world -> T) (x : Py.exn + A) :
  steady f (@lift R A x).
Proof. destruct x; [apply steady_raise | apply steady_ret]. Qed.

Lemma steady_check {T R : Type} (f : world -> T) (x : option Py.exn) :
  steady f (@check R x).
Proof. destruct x; [apply steady_raise | apply steady_ret]. Qed.

Lemma steady_get_self {T R : Type} (f : world -> T) : steady f (@get_self R).
Proof. intro w. split; [reflexivity | discriminate]. Qed.

Lemma steady_modify_self {T R : Type} (f : world -> T)
    (g : SJPUVectorSystem -> SJPUVectorSystem) :
  (forall w, f (mk_world (g (self w)) (warned w) (clock_reads w)) = f w) ->
  steady f (@modify_self R g).
Proof. intros H w. split; [apply H | discriminate]. Qed.

Lemma steady_warn {T R : Type} (f : world -> T) (x : warning) :
  (forall w, f (mk_world (self w) (warned w ++ [x]) (clock_reads w)) = f w) ->
  steady f (@warn R x).
Proof. intros H w. split; [apply H | discriminate]. Qed.

Lemma steady_bind {T R A B : Type} (f : world -> T) (c : M R A) (k : A -> M R B) :
  steady f c -> (forall a, steady f (k a)) -> steady f (bind c k).
Proof.
  intros Hc Hk w. unfold bind. destruct (Hc w) as [Hf Hr].
  destruct (c w) as [[a | r | e] w']; cbn [fst snd] in *.
  - destruct (Hk a w') as [Hf' Hr']. split; [congruence | exact Hr'].
  - exfalso. apply (Hr r). reflexivity.
  - split; [exact Hf | discriminate].
Qed.

Lemma steady_if {T R A : Type} (f : world -> T) (b : bool) (c1 c2 : M R A) :
  steady f c1 -> steady f c2 -> steady f (if b then c1 else c2).
Proof. destruct b; auto. Qed.

Lemma steady_cases {T R A : Type} (f : world -> T) (c : M R A) (w : world) :
  steady f c ->
  (exists a w', c w = (Normal a, w') /\ f w' = f w) \/
  (exists e w', c w = (Raise e, w') /\ f w' = f w).
Proof.
  intro H. destruct (H w) as [Hf Hr].
  destruct (c w) as [[a | r | e] w'] eqn:E; cbn [fst snd] in *.
  - left. exists a, w'. split; [reflexivity | exact Hf].
  - exfalso. apply (Hr r). reflexivity.
  - right. exists e, w'. split; [reflexivity | exact Hf].
Qed.

Ltac steady_tac :=
  repeat first
    [ apply steady_bind; [ | intro ]
    | apply steady_ret
    | apply steady_raise
    | apply steady_lift
    | apply steady_check
    | apply steady_get_self
    | apply steady_modify_self; intro; reflexivity
    | apply steady_warn; intro; reflexivity
    | apply steady_if
    | match goal with
      | |- steady _ (match ?x with _ => _ end) => destruct x
      end ].

(** ** What an insert changes *)

Lemma add_to_db_shape (env : environment) (vec : list Np.float) (m : meta) :
  add_to_db env vec m =
  (start_time <- time_time env ;;
   vec' <- validate_vector vec ;;
   s <- get_self ;;
   add_block env vec' m s ;;
   add_tail env start_time).
Proof. reflexivity. Qed.

Lemma add_block_steady (env : environment) (vec : list Np.float) (m : meta)
    (s : SJPUVectorSystem) :
  steady steady_part (add_block env vec m s).
Proof.
  unfold add_block, db_ntotal, db_len, db_array, db_add, db_index, db_set_nprobe,
    metadata_pop0, vectors_pop0, metadata_append, vectors_append, vectors_array,
    faiss_module, new_IndexIVFFlat.
  cbv zeta. steady_tac.
Qed.

(** An insert ends normally, its time recorded, or raises, nothing
    recorded. *)
Lemma add_to_db_cases (env : environment) (vec : list Np.float) (m : meta)
    (w : world) :
  let n := clock_reads w in
  let before := (dim (self w), config (self w), use_faiss (self w),
                 benchmark_results (self w), S n) in
  (exists w1,
     steady_part w1 = before /\
     add_to_db env vec m w =
     (Normal tt,
      mk_world
        (set_benchmark_results
           (mk_benchmark
              (add_times (benchmark_results (self w1))
               ++ [clock env (S n) - clock env n])
              (query_times (benchmark_results (self w1))))
           (self w1))
        (warned w1) (S (S n)))) \/
  (exists e w1,
     steady_part w1 = before /\
     add_to_db env vec m w = (Raise e, w1)).
Proof.
  destruct w as [s ws n]. cbv zeta. cbn [self clock_reads].
  set (w0 := mk_world s (ws ++ validate_warnings (dim s) vec) (S n)).
  assert (Hrun : add_to_db env vec m (mk_world s ws n) =
                 match add_block env (validated (dim s) vec) m s w0 with
                 | (Normal _, w1) => add_tail env (clock env n) w1
                 | (Return_ r, w1) => (Return_ r, w1)
                 | (Raise e, w1) => (Raise e, w1)
                 end).
  { rewrite add_to_db_shape.
    unfold bind at 1. unfold time_time at 1. cbn [self warned clock_reads].
    unfold bind at 1. rewrite validate_vector_run. reflexivity. }
  rewrite Hrun.
  destruct (steady_cases steady_part (add_block env (validated (dim s) vec) m s) w0
              (add_block_steady env _ m s))
    as [(a & w1 & E & Hf) | (e & w1 & E & Hf)]; rewrite E.
  - left. exists w1. split; [exact Hf |].
    unfold steady_part in Hf. injection Hf as _ _ _ _ Hn.
    unfold add_tail, bind, time_time, modify_self. rewrite Hn.
    reflexivity.
  - right. exists e, w1. split; [exact Hf | reflexivity].
Qed.

(** X14.  Whatever the state and the backend, [add_to_db] leaves the
    dimension, the configuration, the backend flag and the query times as
    they are.  When it returns it has read the clock twice and appended
    exactly one sample, the difference of the two reads, to the add times;
    when it raises it has read the clock once and recorded nothing. *)
Theorem add_to_db_accounting (env : environment) (vec : list Np.float)
    (m : meta) (w : world) :
  let r := call (add_to_db env vec m) w in
  let n := clock_reads w in
  fixed_part (snd r) = fixed_part w /\
  match fst r with
  | Returned None =>
      add_times (benchmark_results (self (snd r)))
        = add_times (benchmark_results (self w)) ++ [clock env (S n) - clock env n] /\
      clock_reads (snd r) = S (S n)
  | Returned (Some _) => False
  | Raised _ =>
      benchmark_results (self (snd r)) = benchmark_results (self w) /\
      clock_reads (snd r) = S n
  end.
Proof.
  cbv zeta. unfold call.
  destruct (add_to_db_cases env vec m w)
    as [(w1 & Hf & E) | (e & w1 & Hf & E)]; rewrite E;
    unfold steady_part in Hf; injection Hf as Hd Hc Hu Hb Hn;
    unfold fixed_part; cbn [fst snd self clock_reads dim config use_faiss
      benchmark_results set_benchmark_results add_times query_times];
    rewrite ?Hd, ?Hc, ?Hu, ?Hb, ?Hn; repeat split.
Qed.

(** ** Sanitizing twice *)

Lemma validated_fixed (d : Z) (v : list Np.float) :
  Py.len v = d -> forallb Np.isfinite v = true ->
  resized d v = v /\ validated d v = v /\ validate_warnings d v = [].
Proof.
  intros Hl Hf.
  assert (Hr : resized d v = v)
    by (unfold resized; rewrite Hl, Z.eqb_refl; reflexivity).
  unfold validated, validate_warnings. rewrite Hr, Hf, Hl, Z.eqb_refl.
  repeat split.
Qed.

(** X1.  Sanitizing is idempotent: in a store of dimension [D >= 0], the
    vector [validate_vector] returns passes [validate_vector] again
    unchanged and without a further warning. *)
Theorem validate_vector_idempotent (R : Type) (vec : list Np.float) (w : world) :
  0 <= dim (self w) ->
  exists out w1,
    @validate_vector R vec w = (Normal out, w1) /\
    @validate_vector R out w1 = (Normal out, w1).
Proof.
  intro HD. rewrite validate_vector_run. do 2 eexists. split; [reflexivity |].
  rewrite validate_vector_run. cbn [self warned clock_reads].
  destruct (validated_fixed (dim (self w)) (validated (dim (self w)) vec)
              (validated_len _ _ HD) (validated_finite _ _)) as (_ & Hv & Hw).
  rewrite Hv, Hw, app_nil_r. reflexivity.
Qed.

Lemma validate_vector_idempotent_witness :
  exists out w1,
    @validate_vector unit [Np.inf; Np.nan; f64 1] (small_store no_faiss)
      = (Normal out, w1) /\
    @validate_vector unit out w1 = (Normal out, w1).
Proof.
  apply (validate_vector_idempotent unit [Np.inf; Np.nan; f64 1] (small_store no_faiss)).
  vm_compute. discriminate.
Defined.

(** ** Construction with a negative dimension *)

(** X2.  A negative dimension is refused: when faiss is absent, or one of
    its constructors raises, [__init__] raises the [ValueError] of
    [np.empty((0, dim))] and no store is built. *)
Theorem construction_refuses_negative_dimension (env : environment) (d : Z)
    (cfg : option SJPUConfig) :
  d < 0 ->
  (faiss env = None \/
   exists fm e, faiss env = Some fm /\
     (Faiss.IndexFlatL2_raises fm d = Some e \/
      (Faiss.IndexFlatL2_raises fm d = None /\
       Faiss.IndexIVFFlat_raises fm d (N_CLUSTERS (config_or_default cfg)) = Some e))) ->
  fst (__init__ env d cfg) = inl Py.ValueError.
Proof.
  intros Hd Henv.
  assert (He : Np.empty0 d = inl Py.ValueError)
    by (unfold Np.empty0; destruct (Z.ltb_spec d 0); [reflexivity | lia]).
  destruct Henv as [Hf | (fm & e & Hf & Hraise)].
  - unfold __init__, call, _initialize_database, bind. rewrite Hf.
    init_steps He. reflexivity.
  - unfold __init__, call, _initialize_database, bind. rewrite Hf.
    fold (config_or_default cfg).
    unfold try_except, new_IndexIVFFlat, bind. init_steps He.
    destruct Hraise as [H1 | [H1 H2]].
    + rewrite H1. init_steps He. reflexivity.
    + rewrite H1. init_steps He. rewrite H2. init_steps He. reflexivity.
Qed.

Lemma construction_refuses_negative_dimension_witness :
  fst (__init__ no_faiss (-1) None) = inl Py.ValueError.
Proof.
  apply (construction_refuses_negative_dimension no_faiss (-1) None).
  - reflexivity.
  - left. reflexivity.
Defined.

(** ** Degenerate configurations *)

(** X3.  A store without capacity accepts nothing: on the fallback backend
    with [MAX_DB_SIZE <= 0], an insert into the empty store raises the
    [IndexError] of [self.metadata.pop(0)] and leaves the store as it
    was, so that every later insert fails alike. *)
Theorem insert_without_capacity_raises (env : environment) (vec : list Np.float)
    (m : meta) (w : world) (a : Np.ndarray) :
  use_faiss (self w) = false ->
  knowledge_db (self w) = Array a ->
  Np.rows a = [] ->
  metadata (self w) = [] ->
  MAX_DB_SIZE (config (self w)) <= 0 ->
  call (add_to_db env vec m) w =
  (Raised Py.IndexError,
   mk_world (self w) (warned w ++ validate_warnings (dim (self w)) vec)
            (S (clock_reads w))).
Proof.
  intros Hflag Hdb Hrows Hms Hcap.
  destruct w as [s ws n]. destruct s as [d c ms vs uf db br].
  destruct a as [nc rs].
  cbn [self dim config metadata use_faiss knowledge_db warned clock_reads
       Np.rows] in *.
  subst uf db rs ms.
  unfold call, add_to_db, bind. unfold time_time at 1.
  cbn [self warned clock_reads fst snd].
  rewrite validate_vector_run.
  cbn -[Z.geb Py.len]. unfold Np.alen. cbn [Np.rows]. rewrite len_nil.
  destruct (Z.geb_spec 0 (MAX_DB_SIZE c)) as [_ | H]; [| lia].
  reflexivity.
Qed.

Lemma insert_without_capacity_raises_witness :
  call (add_to_db no_faiss unit_x meta_A) (fresh_fallback 2 0) =
  (Raised Py.IndexError,
   mk_world (self (fresh_fallback 2 0))
            (warned (fresh_fallback 2 0) ++ validate_warnings 2 unit_x) 1).
Proof.
  apply (insert_without_capacity_raises no_faiss unit_x meta_A
           (fresh_fallback 2 0) (Np.mk_ndarray 2 []));
    reflexivity.
Defined.

Lemma validated_zero (vec : list Np.float) : validated 0 vec = [].
Proof.
  assert (H : Py.len (validated 0 vec) = 0) by (apply validated_len; lia).
  apply len_zero_nil. exact H.
Qed.

(** One insert into a store of dimension 0 with room left: the array is
    the single empty row, whatever it held. *)
Lemma add_to_db_zero_dimension (env : environment) (vec : list Np.float)
    (m : meta) (w : world) (a : Np.ndarray) :
  use_faiss (self w) = false ->
  knowledge_db (self w) = Array a ->
  dim (self w) = 0 ->
  Np.ncols a = 0 ->
  Np.alen a < MAX_DB_SIZE (config (self w)) ->
  exists ws' br',
    call (add_to_db env vec m) w =
    (Returned None,
     mk_world
       (mk_system 0 (config (self w)) (metadata (self w) ++ [m]) (vectors (self w))
          false (Array (Np.mk_ndarray 0 [[]])) br')
       ws' (S (S (clock_reads w)))).
Proof.
  intros Hflag Hdb Hdim Hnc Hroom.
  destruct w as [s ws n]. destruct s as [d c ms vs uf db br].
  destruct a as [nc rs].
  cbn [self dim config metadata vectors use_faiss knowledge_db warned
       clock_reads Np.ncols] in *.
  subst uf db d nc.
  unfold call, add_to_db, bind. unfold time_time at 1.
  cbn [self warned clock_reads fst snd].
  rewrite validate_vector_run. cbn [self dim]. rewrite validated_zero.
  cbn -[Z.geb Py.len Np.alen Np.size].
  destruct (Z.geb_spec (Np.alen {| Np.ncols := 0; Np.rows := rs |}) (MAX_DB_SIZE c))
    as [H | _]; [lia |].
  cbn -[Z.geb Py.len Np.alen Np.size].
  unfold Np.size. cbn [Np.ncols]. rewrite Z.mul_0_r.
  cbn. do 2 eexists. reflexivity.
Qed.

(** X4.  In a store of dimension 0 the array never grows: built without
    faiss with a capacity of at least 2, after any non-empty sequence of
    inserts the store has size 1, while it holds the metadata of every
    insert. *)
Theorem zero_dimension_store_keeps_one_row (env : environment) (cap : Z)
    (its : list (list Np.float * meta)) :
  2 <= cap -> its <> [] ->
  let w := inserts env (fresh_fallback 0 cap) its in
  current_size (self w) = Some 1 /\
  metadata (self w) = map snd its.
Proof.
  intros Hcap Hne. cbv zeta.
  assert (H : forall l, l <> [] ->
            exists vs ws br n,
              inserts env (fresh_fallback 0 cap) l =
              mk_world (mk_system 0 (mk_config cap 32 8) (map snd l) vs false
                          (Array (Np.mk_ndarray 0 [[]])) br) ws n).
  { induction l as [| it l IH] using rev_ind; [congruence |]. intros _.
    rewrite inserts_snoc. unfold insert.
    destruct l as [| it0 l0].
    - cbn [inserts fold_left].
      destruct (add_to_db_zero_dimension env (fst it) (snd it) (fresh_fallback 0 cap)
                  (Np.mk_ndarray 0 [])) as (ws' & br' & E);
        try reflexivity; [cbn; lia |].
      rewrite E. cbn [snd]. do 4 eexists. reflexivity.
    - destruct IH as (vs & ws & br & n & E); [discriminate |].
      rewrite E.
      match goal with
      | |- context [call _ ?w0] =>
          destruct (add_to_db_zero_dimension env (fst it) (snd it) w0
                      (Np.mk_ndarray 0 [[]])) as (ws' & br' & E');
            try reflexivity; [cbn; lia |]
      end.
      rewrite E'. cbn [snd self config metadata vectors].
      rewrite map_app. do 4 eexists. reflexivity. }
  destruct (H its Hne) as (vs & ws & br & n & E). rewrite E.
  split; reflexivity.
Qed.

Lemma zero_dimension_store_keeps_one_row_witness :
  let w := inserts no_faiss (fresh_fallback 0 2) [([], meta_A); ([], meta_B)] in
  current_size (self w) = Some 1 /\
  metadata (self w) = map snd [(@nil Np.float, meta_A); ([], meta_B)].
Proof.
  apply (zero_dimension_store_keeps_one_row no_faiss 2 [([], meta_A); ([], meta_B)]).
  - lia.
  - discriminate.
Defined.

(** ** Insert, then query *)

(** The first position selected, when the query is the finite row [j]. *)
Lemma selected_first_zero (a : Np.ndarray) (q32 : list Np.float) (k : Z) (j : nat) :
  1 <= k ->
  (j < List.length (Np.rows a))%nat ->
  nth j (Np.rows a) [] = q32 ->
  forallb Np.isfinite q32 = true ->
  let dist i := Np.norm_row (Np.sub_row (nth i (Np.rows a) []) q32) in
  exists i0 rest s,
    selected (distances a q32) k = i0 :: rest /\
    (i0 < List.length (Np.rows a))%nat /\
    dist i0 = S754_zero s /\
    ((forall j', (j' < List.length (Np.rows a))%nat -> j' <> j ->
                 Np.le (dist j') Np.zero = false) -> i0 = j).
Proof.
  intros Hk Hj Hrow Hfin dist.
  set (dists := distances a q32).
  assert (Hbound : Forall (fun i => (i < List.length (Np.rows a))%nat)
                          (selected dists k)).
  { pose proof (selected_bound dists k) as Hb. unfold dists in Hb.
    rewrite distances_length in Hb. exact Hb. }
  assert (Hlen : 1 <= Py.len (selected dists k)).
  { rewrite selected_length. unfold dists, distances. len_norm.
    assert (1 <= Py.len (Np.rows a)) by (unfold Py.len; lia).
    unfold clamped. destruct (Z.leb_spec (Py.len (Np.rows a)) k); [lia |].
    destruct (Z.ltb_spec k 0); lia. }
  destruct (selected_nearest dists k) as (_ & Hsorted & Hnear).
  destruct (selected dists k) as [| i0 rest] eqn:Esel;
    [rewrite len_nil in Hlen; lia |].
  assert (Hi0 : (i0 < List.length (Np.rows a))%nat)
    by (rewrite Forall_forall in Hbound; apply Hbound; left; reflexivity).
  assert (Hzero : dist j = Np.zero)
    by (unfold dist; rewrite Hrow; apply norm_row_self; exact Hfin).
  assert (Hle : Np.le (dist i0) Np.zero = true).
  { rewrite <- Hzero. unfold dist.
    rewrite <- (nth_distances a q32 i0 Hi0), <- (nth_distances a q32 j Hj).
    fold dists.
    destruct (in_dec Nat.eq_dec j (i0 :: rest)) as [[<- | Hj'] | Hnot].
    - apply le_refl.
    - apply StronglySorted_inv in Hsorted. destruct Hsorted as [_ Hall].
      rewrite Forall_forall in Hall. apply Hall. exact Hj'.
    - apply Hnear; [left; reflexivity | | exact Hnot].
      unfold dists. rewrite distances_length. exact Hj. }
  destruct (sqrt32_le_zero _ Hle) as [s Hs].
  exists i0, rest, s. split; [reflexivity |]. split; [exact Hi0 |].
  split; [exact Hs |].
  intro Hothers. destruct (Nat.eq_dec i0 j) as [E | N]; [exact E |].
  rewrite (Hothers i0 Hi0 N) in Hle. discriminate.
Qed.

(** X5.  Insert, then query: on the fallback backend, after a vector whose
    float32 image is finite has been inserted with metadata [m], the query
    with that vector and [k = 1] returns one result at distance zero; it
    is [m] when no row retained from before is at distance zero. *)
Theorem insert_then_query_finds_it (env : environment) (vec : list Np.float)
    (m : meta) (w : world) (a : Np.ndarray) :
  fallback_store (self w) a ->
  0 < MAX_DB_SIZE (config (self w)) ->
  let row := stored_row (dim (self w)) vec in
  let retained := if Np.alen a >=? MAX_DB_SIZE (config (self w))
                  then tl (Np.rows a) else Np.rows a in
  forallb Np.isfinite row = true ->
  exists found d s w2,
    call (query_db env vec 1) (insert env w (vec, m)) =
      (Returned (Some ([found], [d])), w2) /\
    d = S754_zero s /\
    ((forall r, In r retained ->
                Np.le (Np.norm_row (Np.sub_row r row)) Np.zero = false) ->
     found = m).
Proof.
  intros Hfb Hmax row retained Hfin.
  destruct (insert_fallback env (vec, m) w a Hfb Hmax)
    as (Hfb' & Hms & Hd & _ & _).
  cbn [fst snd] in Hfb', Hms. fold row in Hfb'.
  unfold evict_append in Hfb', Hms. fold (Np.alen a) in Hfb'.
  fold retained in Hfb'.
  set (w1 := insert env w (vec, m)) in *.
  set (a' := Np.mk_ndarray (dim (self w)) (retained ++ [row])) in *.
  rewrite (query_db_fallback env vec 1 w1 a' Hfb'). rewrite Hd. fold row.
  assert (Hj : (List.length retained < List.length (Np.rows a'))%nat)
    by (cbn [a' Np.rows]; rewrite length_app; cbn [List.length]; lia).
  assert (Hrow : nth (List.length retained) (Np.rows a') [] = row)
    by (cbn [a' Np.rows]; rewrite app_nth2, Nat.sub_diag by lia; reflexivity).
  destruct (selected_first_zero a' row 1 _ ltac:(lia) Hj Hrow Hfin)
    as (i0 & rest & s & Hsel & Hi0 & Hzero & Hunique).
  assert (Hrest : rest = []).
  { pose proof (selected_length (distances a' row) 1) as Hl.
    rewrite Hsel in Hl. unfold distances in Hl. len_norm_in Hl.
    assert (1 <= Py.len (Np.rows a')) by (unfold Py.len; lia).
    unfold clamped in Hl.
    destruct (Z.leb_spec (Py.len (Np.rows a')) 1) as [H1 | H1].
    - destruct rest; [reflexivity |]. len_norm_in Hl.
      pose proof (len_nonneg rest). lia.
    - change (1 <? 0) with false in Hl. cbv iota in Hl.
      destruct rest; [reflexivity |]. len_norm_in Hl.
      pose proof (len_nonneg rest). lia. }
  subst rest. rewrite Hsel.
  unfold Np.take. cbn [map].
  rewrite (nth_distances a' row i0 Hi0).
  do 4 eexists. split; [reflexivity |]. split; [exact Hzero |].
  intro Hothers.
  assert (E : i0 = List.length retained).
  { apply Hunique. intros j' Hj' Hne.
    assert (Hlt : (j' < List.length retained)%nat)
      by (cbn [a' Np.rows] in Hj'; rewrite length_app in Hj';
          cbn [List.length] in Hj'; lia).
    cbn [a' Np.rows]. rewrite app_nth1 by exact Hlt.
    apply Hothers. apply nth_In. exact Hlt. }
  rewrite E, Hms.
  assert (Hlen : List.length (if Py.len (metadata (self w)) >=? MAX_DB_SIZE (config (self w))
                              then tl (metadata (self w)) else metadata (self w))
                 = List.length retained).
  { unfold retained. rewrite (fb_meta _ _ Hfb). unfold Np.alen.
    destruct (Py.len (Np.rows a) >=? MAX_DB_SIZE (config (self w))).
    - pose proof (fb_meta _ _ Hfb) as Hm. unfold Np.alen, Py.len in Hm.
      destruct (metadata (self w)), (Np.rows a); cbn [tl List.length] in *; lia.
    - pose proof (fb_meta _ _ Hfb) as Hm. unfold Np.alen, Py.len in Hm. lia. }
  rewrite <- Hlen. rewrite app_nth2, Nat.sub_diag by lia. reflexivity.
Qed.

Lemma insert_then_query_finds_it_witness :
  exists found d s w2,
    call (query_db no_faiss diagonal 1) (insert no_faiss fallback_two (diagonal, meta_C)) =
      (Returned (Some ([found], [d])), w2) /\
    d = S754_zero s /\
    ((forall r, In r [stored_row 2 unit_y] ->
                Np.le (Np.norm_row (Np.sub_row r (stored_row 2 diagonal))) Np.zero = false) ->
     found = meta_C).
Proof.
  apply (insert_then_query_finds_it no_faiss diagonal meta_C fallback_two
           (Np.mk_ndarray 2 [stored_row 2 unit_x; stored_row 2 unit_y])).
  - constructor; reflexivity.
  - reflexivity.
  - reflexivity.
Defined.

(** ** The indexed backend below and at capacity *)

Lemma add_to_db_index_room_state (env : environment) (vec : list Np.float)
    (m : meta) (w : world) (ix : Faiss.IndexIVFFlat) :
  aligned_index (self w) ix ->
  Faiss.ntotal ix < MAX_DB_SIZE (config (self w)) ->
  let s := self w in
  let row := stored_row (dim s) vec in
  exists ws' br',
    call (add_to_db env vec m) w =
    (Returned None,
     mk_world
       (mk_system (dim s) (config s) (metadata s ++ [m]) (vectors s ++ [row]) true
          (Index (Faiss.mk_index (Faiss.d ix) (Faiss.nlist ix) (Faiss.nprobe ix)
                    true (Faiss.xb ix ++ [row])))
          br')
       ws' (S (S (clock_reads w)))).
Proof.
  intros [Hflag Hdb Htr Hd Hdim Hrows Hmeta] Hroom.
  destruct w as [s ws n]. destruct s as [d c ms vs uf db br].
  cbn [self dim config metadata vectors use_faiss knowledge_db warned
       clock_reads benchmark_results] in *.
  subst uf db.
  assert (Hrow : Py.len (Np.astype_float32 (validated d vec)) = d)
    by (apply (stored_row_len d vec); lia).
  unfold call, add_to_db, bind. unfold time_time at 1.
  cbn [self warned clock_reads fst snd].
  rewrite validate_vector_run.
  cbn -[Z.geb Faiss.ntotal Faiss.add Py.len].
  destruct (Z.geb_spec (Faiss.ntotal ix) (MAX_DB_SIZE c)) as [Hge | _]; [lia |].
  cbn -[Z.geb Faiss.ntotal Faiss.add Py.len].
  unfold Faiss.add, Np.reshape_row. cbn [Np.ncols Np.rows].
  rewrite Hrow, Hd, Z.eqb_refl, Htr.
  cbn -[Z.geb Faiss.ntotal Py.len].
  do 2 eexists. unfold stored_row. reflexivity.
Qed.

(** X6.  Below capacity the indexed backend keeps everything: starting
    from a store whose trained index holds the raw vectors, after a
    sequence of inserts that fits the capacity the index rows, the raw
    vectors and the metadata have grown by the inserted rows and records,
    in insertion order. *)
Theorem indexed_store_holds_inserts_below_capacity (env : environment)
    (w : world) (ix : Faiss.IndexIVFFlat) (its : list (list Np.float * meta)) :
  aligned_index (self w) ix ->
  Faiss.ntotal ix + Py.len its <= MAX_DB_SIZE (config (self w)) ->
  let w' := inserts env w its in
  let rows := map (fun it => stored_row (dim (self w)) (fst it)) its in
  exists ix',
    aligned_index (self w') ix' /\
    Faiss.xb ix' = Faiss.xb ix ++ rows /\
    vectors (self w') = vectors (self w) ++ rows /\
    metadata (self w') = metadata (self w) ++ map snd its /\
    current_size (self w') = Some (Faiss.ntotal ix + Py.len its) /\
    dim (self w') = dim (self w) /\
    config (self w') = config (self w).
Proof.
  intros Hal. induction its as [| it its IH] using rev_ind; intros Hfit; cbv zeta.
  - exists ix. cbn [inserts fold_left map]. rewrite !app_nil_r.
    split; [exact Hal |]. repeat split.
    unfold current_size. rewrite (al_flag _ _ Hal), (al_db _ _ Hal).
    rewrite len_nil, Z.add_0_r. reflexivity.
  - rewrite len_app, len_cons, len_nil in Hfit.
    destruct IH as (ix1 & Hal1 & Hxb & Hvs & Hms & Hsize & Hd & Hc); [lia |].
    rewrite inserts_snoc. unfold insert.
    assert (Hroom : Faiss.ntotal ix1 < MAX_DB_SIZE (config (self (inserts env w its)))).
    { rewrite Hc. unfold Faiss.ntotal. rewrite Hxb. len_norm.
      unfold Faiss.ntotal in Hfit. lia. }
    destruct (add_to_db_index_room_state env (fst it) (snd it) _ ix1 Hal1 Hroom)
      as (ws' & br' & E).
    rewrite E. cbn [snd self]. rewrite Hd, Hc.
    eexists. split.
    + destruct Hal1 as [F1 F2 F3 F4 F5 F6 F7].
      constructor; try reflexivity.
      * cbn [Faiss.d dim]. congruence.
      * cbn [dim]. rewrite <- Hd. exact F5.
      * cbn [Faiss.xb vectors]. rewrite F6. reflexivity.
      * cbn [metadata vectors]. rewrite !length_app, F7. reflexivity.
    + cbn [Faiss.xb vectors metadata dim config].
      rewrite !map_app, !app_assoc. cbn [map].
      rewrite Hxb, Hvs, Hms. repeat split.
      unfold current_size. cbn [use_faiss knowledge_db]. unfold Faiss.ntotal.
      cbn [Faiss.xb]. f_equal. len_norm. lia.
Qed.

Lemma indexed_store_holds_inserts_below_capacity_witness :
  let w := small_store with_faiss in
  let its := [(unit_x, meta_A); (unit_y, meta_B)] in
  let w' := inserts with_faiss w its in
  let rows := map (fun it => stored_row 2 (fst it)) its in
  exists ix',
    aligned_index (self w') ix' /\
    Faiss.xb ix' = [] ++ rows /\
    vectors (self w') = [] ++ rows /\
    metadata (self w') = [] ++ map snd its /\
    current_size (self w') = Some (0 + Py.len its) /\
    dim (self w') = 2 /\
    config (self w') = mk_config 2 32 8.
Proof.
  apply (indexed_store_holds_inserts_below_capacity with_faiss
           (small_store with_faiss) (Faiss.mk_index 2 32 8 true [])
           [(unit_x, meta_A); (unit_y, meta_B)]).
  - constructor; try reflexivity. cbn. lia.
  - vm_compute. discriminate.
Defined.

(** An insert into a store whose index is full or untrained raises, and
    leaves such a store, with no more metadata than before. *)
Lemma stuck_step (env : environment) (vec : list Np.float) (m : meta) (w : world) :
  stuck (self w) ->
  exists e w',
    call (add_to_db env vec m) w = (Raised e, w') /\
    stuck (self w') /\
    config (self w') = config (self w) /\
    (List.length (metadata (self w')) <= List.length (metadata (self w)))%nat.
Proof.
  intros (Hflag & ix & Hdb & Hix).
  destruct w as [s ws n]. destruct s as [d c ms vs uf db br].
  cbn [self dim config metadata vectors use_faiss knowledge_db warned
       clock_reads benchmark_results] in *.
  subst uf db.
  unfold call, add_to_db, bind. unfold time_time at 1.
  cbn [self warned clock_reads fst snd].
  rewrite validate_vector_run.
  cbn -[Z.geb Faiss.ntotal Faiss.add Np.stack Py.len].
  assert (Hsame : forall (ms' : list meta) (vs' : list (list Np.float))
                          (ws' : list warning) (n' : nat),
            stuck (mk_system d c ms' vs' true (Index ix) br) /\
            config (mk_system d c ms' vs' true (Index ix) br) = c)
    by (intros; split; [split; [reflexivity | exists ix; auto] | reflexivity]).
  assert (Hnew : forall ms' vs' ix',
            Faiss.is_trained ix' = false ->
            stuck (mk_system d c ms' vs' true (Index ix') br) /\
            config (mk_system d c ms' vs' true (Index ix') br) = c)
    by (intros; split; [split; [reflexivity | eexists; split; [reflexivity | auto]]
                       | reflexivity]).
  destruct (Z.geb_spec (Faiss.ntotal ix) (MAX_DB_SIZE c)) as [Hfull | Hroom].
  - cbn -[Z.geb Faiss.ntotal Faiss.add Np.stack Py.len].
    destruct ms as [| m0 ms].
    { do 2 eexists. split; [reflexivity |]. cbn [self metadata].
      destruct (Hsame (@nil meta) vs ws n). auto. }
    cbn -[Z.geb Faiss.ntotal Faiss.add Np.stack Py.len].
    destruct vs as [| v0 vs].
    { do 2 eexists. split; [reflexivity |]. cbn [self metadata List.length].
      destruct (Hsame ms (@nil (list Np.float)) ws n). auto. }
    cbn -[Z.geb Faiss.ntotal Faiss.add Np.stack Py.len].
    unfold faiss_module, new_IndexIVFFlat, bind.
    destruct (faiss env) as [fm |].
    2:{ do 2 eexists. split; [reflexivity |]. cbn [self metadata List.length].
        destruct (Hsame ms vs ws n). auto. }
    cbn -[Z.geb Faiss.ntotal Faiss.add Np.stack Py.len].
    destruct (Faiss.IndexFlatL2_raises fm d).
    { do 2 eexists. split; [reflexivity |]. cbn [self metadata List.length].
      destruct (Hsame ms vs ws n). auto. }
    cbn -[Z.geb Faiss.ntotal Faiss.add Np.stack Py.len].
    destruct (Faiss.IndexIVFFlat_raises fm d (N_CLUSTERS c)).
    { do 2 eexists. split; [reflexivity |]. cbn [self metadata List.length].
      destruct (Hsame ms vs ws n). auto. }
    cbn -[Z.geb Faiss.ntotal Faiss.add Np.stack Py.len].
    set (rb := Faiss.set_nprobe (Faiss.fresh d (N_CLUSTERS c)) (N_PROBE c)).
    assert (Hrb : Faiss.is_trained rb = false) by reflexivity.
    destruct vs as [| v1 vs''].
    + cbn -[Z.geb Faiss.ntotal Faiss.add Np.stack Py.len rb]. unfold bind.
      destruct (add_untrained rb (Np.reshape_row (Np.astype_float32 (validated d vec))) Hrb)
        as [e He].
      rewrite He. do 2 eexists. split; [reflexivity |].
      cbn [self metadata List.length].
      destruct (Hnew ms (@nil (list Np.float)) rb Hrb). auto.
    + cbn -[Z.geb Faiss.ntotal Faiss.add Np.stack Py.len rb]. unfold bind.
      cbn -[Z.geb Faiss.ntotal Faiss.add Np.stack Py.len rb].
      destruct (Np.stack (Py.len v1) (v1 :: vs'')) as [e | a] eqn:Es.
      * do 2 eexists. split; [reflexivity |]. cbn [self metadata List.length].
        destruct (Hnew ms (v1 :: vs'') rb Hrb). auto.
      * cbn -[Z.geb Faiss.ntotal Faiss.add Np.stack Py.len rb].
        destruct (add_untrained rb (Np.astype_float32_2d a) Hrb) as [e He].
        rewrite He. do 2 eexists. split; [reflexivity |].
        cbn [self metadata List.length].
        destruct (Hnew ms (v1 :: vs'') rb Hrb). auto.
  - destruct Hix as [Hun | Hfull]; [| lia].
    cbn -[Z.geb Faiss.ntotal Faiss.add Np.stack Py.len]. unfold bind.
    destruct (add_untrained ix (Np.reshape_row (Np.astype_float32 (validated d vec))) Hun)
      as [e He].
    rewrite He. do 2 eexists. split; [reflexivity |].
    cbn [self metadata]. destruct (Hsame ms vs ws n). auto.
Qed.

(** X7.  At capacity the indexed backend is stuck for good: in a store
    whose index is full (or untrained), every insert of every sequence of
    inserts raises, whatever the vectors, and the sequence leaves no more
    metadata than there was. *)
Theorem indexed_store_at_capacity_rejects_every_insert (env : environment)
    (w : world) (its : list (list Np.float * meta)) :
  stuck (self w) ->
  (forall pre it post, its = pre ++ it :: post ->
     exists e, fst (call (add_to_db env (fst it) (snd it)) (inserts env w pre))
               = Raised e) /\
  (List.length (metadata (self (inserts env w its)))
   <= List.length (metadata (self w)))%nat.
Proof.
  intro Hstuck.
  assert (Hinv : forall l,
            stuck (self (inserts env w l)) /\
            (List.length (metadata (self (inserts env w l)))
             <= List.length (metadata (self w)))%nat).
  { induction l as [| it l IH] using rev_ind.
    - split; [exact Hstuck | reflexivity].
    - destruct IH as [Hs Hl]. rewrite inserts_snoc. unfold insert.
      destruct (stuck_step env (fst it) (snd it) _ Hs) as (e & w' & E & Hs' & _ & Hl').
      rewrite E. cbn [snd]. split; [exact Hs' | lia]. }
  split; [| apply Hinv].
  intros pre it post _.
  destruct (stuck_step env (fst it) (snd it) _ (proj1 (Hinv pre)))
    as (e & w' & E & _).
  exists e. rewrite E. reflexivity.
Qed.

Lemma indexed_store_at_capacity_rejects_every_insert_witness :
  let its := [(diagonal, meta_C); (unit_x, meta_A)] in
  (forall pre it post, its = pre ++ it :: post ->
     exists e, fst (call (add_to_db with_faiss (fst it) (snd it))
                      (inserts with_faiss indexed_full pre)) = Raised e) /\
  (List.length (metadata (self (inserts with_faiss indexed_full its)))
   <= List.length (metadata (self indexed_full)))%nat.
Proof.
  apply (indexed_store_at_capacity_rejects_every_insert with_faiss indexed_full
           [(diagonal, meta_C); (unit_x, meta_A)]).
  split; [reflexivity |].
  eexists. split; [reflexivity |]. right. vm_compute. discriminate.
Defined.

(** ** The labels of the search *)

Lemma index_labelled (ms : list meta) (i : Z) :
  -1 <= i < Py.len ms -> 0 < Py.len ms -> Py.index ms i = inr (labelled ms i).
Proof.
  intros Hi Hl. unfold Py.index, labelled, Py.len in *.
  destruct (Z.eqb_spec i (-1)) as [-> | Hne].
  - change (-1 <? 0) with true. cbv iota.
    assert (Hpos : (0 < List.length ms)%nat) by lia.
    assert (E1 : (-1 + Z.of_nat (List.length ms) <? 0) = false)
      by (apply Z.ltb_ge; lia).
    assert (E2 : (Z.of_nat (List.length ms) <=? -1 + Z.of_nat (List.length ms)) = false)
      by (apply Z.leb_gt; lia).
    rewrite E1, E2. cbn [orb].
    replace (Z.to_nat (-1 + Z.of_nat (List.length ms)))
      with (List.length ms - 1)%nat by lia.
    destruct ms as [| m0 ms'] using rev_ind; [cbn in Hpos; lia |].
    rewrite length_app. cbn [List.length].
    replace (List.length ms' + 1 - 1)%nat with (List.length ms')%nat by lia.
    rewrite nth_error_app2 by lia. rewrite Nat.sub_diag. cbn [nth_error].
    rewrite last_last. reflexivity.
  - assert (E0 : (i <? 0) = false) by (apply Z.ltb_ge; lia).
    rewrite E0. cbv iota. rewrite E0.
    assert (E2 : (Z.of_nat (List.length ms) <=? i) = false) by (apply Z.leb_gt; lia).
    rewrite E2. cbn [orb].
    destruct (nth_error ms (Z.to_nat i)) as [x |] eqn:E.
    + rewrite (nth_error_nth _ _ _ E). reflexivity.
    + apply nth_error_None in E. lia.
Qed.

Lemma for_each_labelled {R : Type} (ms : list meta) (I : list Z) (w : world) :
  Forall (fun i => -1 <= i < Py.len ms) I -> 0 < Py.len ms ->
  @for_each R _ _ (fun i => lift (Py.index ms i)) I w
    = (Normal (map (labelled ms) I), w).
Proof.
  intros HI Hl. induction HI as [| i t Hi Ht IH]; cbn [for_each map].
  - reflexivity.
  - unfold bind. rewrite (index_labelled ms i Hi Hl). cbn [lift ret].
    rewrite IH. reflexivity.
Qed.

(** X8.  What a query on the indexed backend returns for the labels of the
    search: the metadata record at each label's position, and for a
    label [-1], by which the search marks a neighbour it did not find, the
    last record of the store. *)
Theorem query_db_missing_neighbour_reads_last_record (env : environment)
    (q : list Np.float) (k : Z) (w : world) (fm : Faiss.module)
    (ix : Faiss.IndexIVFFlat) (D : list Np.float) (I : list Z) :
  indexed_store env (self w) fm ix ->
  Faiss.ntotal ix <> 0 ->
  Faiss.search fm ix (stored_row (dim (self w)) q) (Z.min k (Faiss.ntotal ix))
    = inr (D, I) ->
  Forall (fun i => -1 <= i < Faiss.ntotal ix) I ->
  fst (call (query_db env q k) w)
    = Returned (Some (map (labelled (metadata (self w))) I, D)) /\
  (forall j, nth_error I j = Some (-1) ->
     nth_error (map (labelled (metadata (self w))) I) j
       = Some (last (metadata (self w)) [])).
Proof.
  intros [Hmod Hflag Hdb Hmeta] Hn Hsearch HI. split.
  - destruct w as [s ws n]. destruct s as [d c ms vs uf db br].
    cbn [self dim metadata use_faiss knowledge_db warned clock_reads] in *.
    subst uf db.
    assert (Hpos : 0 < Py.len ms)
      by (rewrite Hmeta; pose proof (len_nonneg (Faiss.xb ix));
          unfold Faiss.ntotal in *; lia).
    rewrite <- Hmeta in HI.
    unfold call, query_db, bind. unfold time_time at 1.
    cbn [self warned clock_reads fst snd].
    rewrite validate_vector_run.
    cbn -[Z.min Py.len Z.eqb Faiss.ntotal Faiss.search labelled].
    fold (stored_row d q).
    destruct (Z.eqb_spec (Faiss.ntotal ix) 0) as [Hz | _]; [contradiction |].
    cbn -[Z.min Py.len Z.eqb Faiss.ntotal Faiss.search labelled].
    unfold faiss_module. rewrite Hmod.
    cbn -[Z.min Py.len Z.eqb Faiss.ntotal Faiss.search labelled].
    rewrite Hsearch.
    cbn -[Z.min Py.len Z.eqb Faiss.ntotal Faiss.search labelled].
    rewrite (for_each_labelled ms I _ HI Hpos). reflexivity.
  - intros j Hj. rewrite nth_error_map, Hj. reflexivity.
Qed.

Lemma query_db_missing_neighbour_reads_last_record_witness :
  fst (call (query_db with_short_faiss diagonal 2) indexed_short)
    = Returned (Some (map (labelled (metadata (self indexed_short))) [0; -1],
                      [Np.zero; Np.zero])) /\
  (forall j, nth_error [0; -1] j = Some (-1) ->
     nth_error (map (labelled (metadata (self indexed_short))) [0; -1]) j
       = Some (last (metadata (self indexed_short)) [])).
Proof.
  apply (query_db_missing_neighbour_reads_last_record with_short_faiss diagonal 2
           indexed_short faiss_short
           (Faiss.mk_index 2 32 8 true
              [Np.astype_float32 unit_x; Np.astype_float32 unit_y])).
  - split; reflexivity.
  - vm_compute. discriminate.
  - reflexivity.
  - repeat constructor; vm_compute; congruence.
Defined.

(** ** Generated vectors *)

Lemma run_validate_fixed {R : Type} (v : list Np.float) (p : process) :
  Py.len v = dim (self (interp p)) -> forallb Np.isfinite v = true ->
  run (@validate_vector R v) p = (Normal v, p).
Proof.
  intros Hl Hf. destruct p as [[s ws n] out dr]. unfold run.
  cbn [interp stdout draws] in *. rewrite validate_vector_run.
  cbn [self warned clock_reads] in *.
  destruct (validated_fixed (dim s) v Hl Hf) as (_ & Hv & Hw).
  rewrite Hv, Hw, app_nil_r. reflexivity.
Qed.

(** X9.  The impulse vector: in a store of dimension [D >= 1] it is [1.0]
    followed by [D - 1] zeros, generated without a warning and without a
    change of state; in a store of dimension 0 the generation raises
    [IndexError], with a negative dimension [ValueError]. *)
Theorem generate_vector_impulse (num : numerics) (R : Type) (p : process) :
  let d := dim (self (interp p)) in
  @generate_vector num R "impulse" p =
  if d <? 0 then (Raise Py.ValueError, p)
  else if d =? 0 then (Raise Py.IndexError, p)
  else (Normal (Np64.one :: repeat Np.zero (Z.to_nat d - 1)), p).
Proof.
  intro d. unfold generate_vector.
  change (String.eqb "impulse" "uniform") with false.
  change (String.eqb "impulse" "gaussian") with false.
  change (String.eqb "impulse" "sparse") with false.
  change (String.eqb "impulse" "impulse") with true.
  cbv iota. unfold pbind at 1.
  assert (Hs : run (@get_self R) p = (Normal (self (interp p)), p))
    by (destruct p as [[s ws n] out dr]; reflexivity).
  rewrite Hs. fold d. unfold pbind at 1 2. unfold Np64.zeros.
  assert (Hlift : forall (A : Type) (x : Py.exn + A),
            run (@lift R A x) p
            = match x with inl e => (Raise e, p) | inr a => (Normal a, p) end)
    by (intros A x; destruct p as [[s ws n] out dr]; destruct x; reflexivity).
  destruct (Z.ltb_spec d 0) as [Hneg | Hd].
  - rewrite Hlift. reflexivity.
  - rewrite Hlift.
    destruct (Z.eqb_spec d 0) as [Hz | Hnz].
    + rewrite Hz. cbn [Z.to_nat repeat Np64.set_item0]. rewrite Hlift. reflexivity.
    + destruct (Z.to_nat d) as [| k] eqn:Ek; [lia |].
      cbn [repeat Np64.set_item0]. rewrite Hlift.
      replace (S k - 1)%nat with k by lia.
      apply run_validate_fixed.
      * fold d. unfold Py.len. cbn [List.length]. rewrite repeat_length. lia.
      * cbn [forallb]. rewrite zeros_finite. reflexivity.
Qed.

(** X10.  The sparse vector needs five entries: in a store of dimension
    below 5 the generation raises [ValueError] and changes nothing; from
    dimension 5 on it is the square roots of the five probabilities
    followed by zeros, generated without a warning. *)
Theorem generate_vector_sparse (num : numerics) (R : Type) (p : process) :
  let d := dim (self (interp p)) in
  @generate_vector num R "sparse" p =
  if d <? 5 then (Raise Py.ValueError, p)
  else (Normal (map Np64.sqrt sparse_probs ++ repeat Np.zero (Z.to_nat d - 5)), p).
Proof.
  intro d. unfold generate_vector.
  change (String.eqb "sparse" "uniform") with false.
  change (String.eqb "sparse" "gaussian") with false.
  change (String.eqb "sparse" "sparse") with true.
  cbv iota. unfold pbind at 1.
  assert (Hs : run (@get_self R) p = (Normal (self (interp p)), p))
    by (destruct p as [[s ws n] out dr]; reflexivity).
  rewrite Hs. fold d. unfold pbind at 1 2. unfold Np64.zeros.
  assert (Hlift : forall (A : Type) (x : Py.exn + A),
            run (@lift R A x) p
            = match x with inl e => (Raise e, p) | inr a => (Normal a, p) end)
    by (intros A x; destruct p as [[s ws n] out dr]; destruct x; reflexivity).
  set (src := map Np64.sqrt sparse_probs).
  assert (Hsrc : Py.len src = 5) by reflexivity.
  assert (Hfin : forallb Np.isfinite src = true) by (vm_compute; reflexivity).
  destruct (Z.ltb_spec d 0) as [Hneg | Hd].
  - rewrite Hlift. destruct (Z.ltb_spec d 5); [reflexivity | lia].
  - rewrite Hlift. unfold Np64.set_slice_to.
    assert (Hslice : Py.slice_to (repeat Np.zero (Z.to_nat d)) 5
                     = repeat Np.zero (Nat.min 5 (Z.to_nat d))).
    { unfold Py.slice_to. change (5 <? 0) with false. cbv iota.
      rewrite firstn_repeat. unfold Py.len. rewrite repeat_length.
      f_equal. lia. }
    rewrite Hslice, Hsrc. unfold Py.len at 1. rewrite repeat_length.
    rewrite skipn_repeat.
    destruct (Z.ltb_spec d 5) as [Hsmall | Hbig].
    + replace (Nat.min 5 (Z.to_nat d)) with (Z.to_nat d) by lia.
      destruct (Z.eqb_spec 5 (Z.of_nat (Z.to_nat d))) as [E | _]; [lia |].
      change src with (map Np64.sqrt sparse_probs).
      cbn [map sparse_probs]. rewrite Hlift. reflexivity.
    + replace (Nat.min 5 (Z.to_nat d)) with 5%nat by lia.
      change (5 =? Z.of_nat 5) with true. cbv iota. rewrite Hlift.
      apply run_validate_fixed.
      * fold d. rewrite len_app, Hsrc. unfold Py.len. rewrite repeat_length. lia.
      * rewrite forallb_app, Hfin, zeros_finite. reflexivity.
Qed.

Lemma run_get_self {R : Type} (p : process) :
  run (@get_self R) p = (Normal (self (interp p)), p).
Proof. destruct p as [[s ws n] out dr]. reflexivity. Qed.

Lemma run_lift {R A : Type} (x : Py.exn + A) (p : process) :
  run (@lift R A x) p
  = match x with inl e => (Raise e, p) | inr a => (Normal a, p) end.
Proof. destruct p as [[s ws n] out dr]. destruct x; reflexivity. Qed.

Lemma run_validate_vector {R : Type} (vec : list Np.float) (p : process) :
  run (@validate_vector R vec) p =
  (Normal (validated (dim (self (interp p))) vec),
   mk_process
     (mk_world (self (interp p))
        (warned (interp p) ++ validate_warnings (dim (self (interp p))) vec)
        (clock_reads (interp p)))
     (stdout p) (draws p)).
Proof. unfold run. rewrite validate_vector_run. reflexivity. Qed.

(** X11.  Whatever the kind of vector asked for and whatever the numeric
    libraries answer, in a store of dimension [D >= 0] a generated vector
    has length [D] and finite entries only; the generation changes
    neither the store nor the output, and when it raises, the interpreter
    state is as before. *)
Theorem generate_vector_result_is_sanitized (num : numerics) (R : Type)
    (vec_type : string) (p : process) :
  0 <= dim (self (interp p)) ->
  match @generate_vector num R vec_type p with
  | (Normal v, p') =>
      Py.len v = dim (self (interp p)) /\ forallb Np.isfinite v = true /\
      self (interp p') = self (interp p) /\ stdout p' = stdout p /\
      clock_reads (interp p') = clock_reads (interp p)
  | (Return_ _, _) => False
  | (Raise _, p') => interp p' = interp p /\ stdout p' = stdout p
  end.
Proof.
  intro Hd. unfold generate_vector. unfold pbind at 1. rewrite run_get_self.
  set (d := dim (self (interp p))) in *.
  assert (Hend : forall vec q,
            interp q = interp p -> stdout q = stdout p ->
            match run (@validate_vector R vec) q with
            | (Normal v, p') =>
                Py.len v = d /\ forallb Np.isfinite v = true /\
                self (interp p') = self (interp p) /\ stdout p' = stdout p /\
                clock_reads (interp p') = clock_reads (interp p)
            | (Return_ _, _) => False
            | (Raise _, p') => interp p' = interp p /\ stdout p' = stdout p
            end).
  { intros vec q Hi Ho. rewrite run_validate_vector, Hi. fold d.
    cbn [interp self stdout clock_reads].
    split; [apply validated_len; exact Hd |].
    split; [apply validated_finite |]. auto. }
  assert (Horacle : forall (x : Py.exn + list Np.float) q,
            interp q = interp p -> stdout q = stdout p ->
            match pbind (run (@lift R _ x))
                        (fun vec => run (@validate_vector R vec)) q with
            | (Normal v, p') =>
                Py.len v = d /\ forallb Np.isfinite v = true /\
                self (interp p') = self (interp p) /\ stdout p' = stdout p /\
                clock_reads (interp p') = clock_reads (interp p)
            | (Return_ _, _) => False
            | (Raise _, p') => interp p' = interp p /\ stdout p' = stdout p
            end).
  { intros x q Hi Ho. unfold pbind. rewrite run_lift.
    destruct x as [e | vec]; [auto | apply Hend; assumption]. }
  destruct (String.eqb vec_type "uniform").
  { unfold pbind at 1 2. rewrite run_lift.
    destruct (Np64.ones d) as [e | o]; [auto |].
    unfold pret. apply Hend; reflexivity. }
  destruct (String.eqb vec_type "gaussian").
  { apply Horacle; reflexivity. }
  destruct (String.eqb vec_type "sparse").
  { unfold pbind at 1 2. rewrite run_lift.
    destruct (Np64.zeros d) as [e | z]; [auto |].
    rewrite run_lift.
    destruct (Np64.set_slice_to z 5 (map Np64.sqrt sparse_probs)) as [e | v];
      [auto | apply Hend; reflexivity]. }
  destruct (String.eqb vec_type "impulse").
  { unfold pbind at 1 2. rewrite run_lift.
    destruct (Np64.zeros d) as [e | z]; [auto |].
    rewrite run_lift.
    destruct (Np64.set_item0 z Np64.one) as [e | v];
      [auto | apply Hend; reflexivity]. }
  unfold pbind at 1 2. unfold next_draw at 1.
  rewrite run_lift.
  destruct (normal_vector num (draws p) d) as [e | v].
  - cbn [interp stdout]. auto.
  - apply Hend; reflexivity.
Qed.

Lemma generate_vector_result_is_sanitized_witness :
  match @generate_vector flat_numerics unit "gaussian" (started (small_store no_faiss)) with
  | (Normal v, p') =>
      Py.len v = dim (self (interp (started (small_store no_faiss)))) /\
      forallb Np.isfinite v = true /\
      self (interp p') = self (interp (started (small_store no_faiss))) /\
      stdout p' = stdout (started (small_store no_faiss)) /\
      clock_reads (interp p') = clock_reads (interp (started (small_store no_faiss)))
  | (Return_ _, _) => False
  | (Raise _, p') =>
      interp p' = interp (started (small_store no_faiss)) /\
      stdout p' = stdout (started (small_store no_faiss))
  end.
Proof.
  apply (generate_vector_result_is_sanitized flat_numerics unit "gaussian"
           (started (small_store no_faiss))).
  vm_compute. discriminate.
Defined.

(** ** The benchmark *)

Lemma benchmark_db_shape (env : environment) (num : numerics) (n : Z) :
  benchmark_db env num n =
  pbind (print (BenchmarkStart n)) (fun _ =>
  pbind (for_range (Z.to_nat n) (benchmark_pass env num)) (fun _ =>
  pbind (run get_self) (fun s =>
  pbind (print (AverageAddTime (average_of (add_times (benchmark_results s))))) (fun _ =>
  pbind (print (AverageQueryTime (average_of (query_times (benchmark_results s))))) (fun _ =>
  pbind (print (BenchmarkDone (use_faiss s))) (fun _ =>
  run (modify_self (set_benchmark_results (mk_benchmark [] []))))))))).
Proof. reflexivity. Qed.

Lemma for_range_snoc {R : Type} (body : P R unit) (k : nat) (p : process) :
  for_range (S k) body p =
  match for_range k body p with
  | (Normal _, p') => body p'
  | (Return_ r, p') => (Return_ r, p')
  | (Raise e, p') => (Raise e, p')
  end.
Proof.
  revert p. induction k as [| k IH]; intro p.
  - cbn [for_range]. unfold pbind, pret.
    destruct (body p) as [[[] | r | e] p']; reflexivity.
  - change (for_range (S (S k)) body p)
      with (pbind body (fun _ => for_range (S k) body) p).
    change (for_range (S k) body p)
      with (pbind body (fun _ => for_range k body) p).
    unfold pbind. destruct (body p) as [[[] | r | e] p1]; [apply IH | |]; reflexivity.
Qed.

Lemma generate_gaussian (num : numerics) (R : Type) (p : process)
    (g : list Np.float) :
  gaussian_vector num (dim (self (interp p))) = inr g ->
  @generate_vector num R "gaussian" p =
  (Normal (validated (dim (self (interp p))) g),
   mk_process
     (mk_world (self (interp p))
        (warned (interp p) ++ validate_warnings (dim (self (interp p))) g)
        (clock_reads (interp p)))
     (stdout p) (draws p)).
Proof.
  intro Hg. unfold generate_vector.
  change (String.eqb "gaussian" "uniform") with false.
  change (String.eqb "gaussian" "gaussian") with true.
  cbv iota. unfold pbind. rewrite run_get_self, run_lift, Hg.
  apply run_validate_vector.
Qed.

(** One pass of the benchmark on the fallback backend. *)
Lemma benchmark_pass_fallback (env : environment) (num : numerics) (p : process)
    (a : Np.ndarray) (g : list Np.float) :
  fallback_store (self (interp p)) a ->
  0 < MAX_DB_SIZE (config (self (interp p))) ->
  gaussian_vector num (dim (self (interp p))) = inr g ->
  exists p' a',
    benchmark_pass env num p = (Normal tt, p') /\
    fallback_store (self (interp p')) a' /\
    metadata (self (interp p')) =
      evict_append (MAX_DB_SIZE (config (self (interp p))))
        (metadata (self (interp p))) benchmark_meta /\
    dim (self (interp p')) = dim (self (interp p)) /\
    config (self (interp p')) = config (self (interp p)) /\
    add_times (benchmark_results (self (interp p'))) =
      add_times (benchmark_results (self (interp p)))
      ++ [clock env (S (clock_reads (interp p))) - clock env (clock_reads (interp p))] /\
    query_times (benchmark_results (self (interp p'))) =
      query_times (benchmark_results (self (interp p))) /\
    clock_reads (interp p') = (clock_reads (interp p) + 3)%nat /\
    stdout p' = stdout p /\ draws p' = draws p.
Proof.
  intros Hfb Hmax Hg.
  destruct p as [[s ws n] out dr]. cbn [interp self warned clock_reads stdout draws] in *.
  set (v := validated (dim s) g).
  set (w1 := mk_world s (ws ++ validate_warnings (dim s) g) n).
  pose proof (insert_fallback env (v, benchmark_meta) w1 a Hfb Hmax) as Hins.
  cbv zeta in Hins. unfold insert in Hins. cbn [fst snd] in Hins.
  pose proof (call_add_to_db_fallback env v benchmark_meta w1 a Hfb Hmax) as Hadd.
  cbv zeta in Hadd.
  destruct (call (add_to_db env v benchmark_meta) w1) as [o2 w2] eqn:E2.
  cbn [snd] in Hins. destruct Hins as (Hfb2 & Hm2 & Hd2 & Hc2 & _).
  pose proof (query_db_fallback env v 3 w2 _ Hfb2) as Hq. cbv zeta in Hq.
  unfold benchmark_pass, pbind.
  rewrite (generate_gaussian num unit (mk_process (mk_world s ws n) out dr) g Hg).
  cbn [interp self warned clock_reads stdout draws]. fold v. fold w1.
  unfold invoke at 1. cbn [interp stdout draws]. rewrite E2.
  injection Hadd as Ho2 Hw2. subst o2.
  unfold invoke at 1. cbn [interp stdout draws]. rewrite Hq.
  unfold pret. do 2 eexists. split; [reflexivity |].
  cbn [interp self warned clock_reads stdout draws].
  split; [exact Hfb2 |]. split; [exact Hm2 |]. split; [exact Hd2 |].
  split; [exact Hc2 |].
  rewrite Hw2. cbn [self benchmark_results add_times query_times clock_reads].
  repeat split. lia.
Qed.

(** The passes of the benchmark on the fallback backend. *)
Lemma benchmark_loop_fallback (env : environment) (num : numerics) (p : process)
    (a : Np.ndarray) (g : list Np.float) (k : nat) :
  fallback_store (self (interp p)) a ->
  0 < MAX_DB_SIZE (config (self (interp p))) ->
  Np.alen a <= MAX_DB_SIZE (config (self (interp p))) ->
  gaussian_vector num (dim (self (interp p))) = inr g ->
  exists p' a',
    for_range k (benchmark_pass env num) p = (Normal tt, p') /\
    fallback_store (self (interp p')) a' /\
    metadata (self (interp p')) =
      last_n (MAX_DB_SIZE (config (self (interp p))))
        (metadata (self (interp p)) ++ repeat benchmark_meta k) /\
    dim (self (interp p')) = dim (self (interp p)) /\
    config (self (interp p')) = config (self (interp p)) /\
    add_times (benchmark_results (self (interp p'))) =
      add_times (benchmark_results (self (interp p)))
      ++ benchmark_add_times env (clock_reads (interp p)) k /\
    query_times (benchmark_results (self (interp p'))) =
      query_times (benchmark_results (self (interp p))) /\
    clock_reads (interp p') = (clock_reads (interp p) + 3 * k)%nat /\
    stdout p' = stdout p /\ draws p' = draws p.
Proof.
  intros Hfb Hmax Hsize Hg. induction k as [| k IH].
  - exists p, a. split; [reflexivity |]. split; [exact Hfb |].
    split.
    { cbn [repeat]. rewrite app_nil_r. unfold last_n.
      pose proof (fb_meta _ _ Hfb) as Hm. unfold Py.len in Hm.
      replace (List.length (metadata (self (interp p)))
               - Z.to_nat (MAX_DB_SIZE (config (self (interp p)))))%nat
        with 0%nat by lia.
      reflexivity. }
    unfold benchmark_add_times. cbn [seq map]. rewrite app_nil_r.
    repeat split. lia.
  - destruct IH as (p1 & a1 & Hrun & Hfb1 & Hm1 & Hd1 & Hc1 & Ha1 & Hq1 & Hn1 & Ho1 & Hr1).
    rewrite for_range_snoc, Hrun.
    assert (Hmax1 : 0 < MAX_DB_SIZE (config (self (interp p1))))
      by (rewrite Hc1; exact Hmax).
    assert (Hg1 : gaussian_vector num (dim (self (interp p1))) = inr g)
      by (rewrite Hd1; exact Hg).
    destruct (benchmark_pass_fallback env num p1 a1 g Hfb1 Hmax1 Hg1)
      as (p2 & a2 & Hrun2 & Hfb2 & Hm2 & Hd2 & Hc2 & Ha2 & Hq2 & Hn2 & Ho2 & Hr2).
    exists p2, a2. split; [exact Hrun2 |]. split; [exact Hfb2 |].
    split.
    { rewrite Hm2, Hc1, Hm1, evict_append_last_n by exact Hmax.
      rewrite <- app_assoc.
      change (repeat benchmark_meta (S k))
        with (benchmark_meta :: repeat benchmark_meta k).
      rewrite repeat_cons. reflexivity. }
    split; [congruence |]. split; [congruence |].
    split.
    { rewrite Ha2, Ha1, Hn1, <- app_assoc. unfold benchmark_add_times.
      rewrite seq_S, map_app. reflexivity. }
    split; [congruence |]. split; [lia |]. split; congruence.
Qed.

(** X12.  The benchmark on the fallback backend (capacity > 0, the Gaussian
    vector computed): [benchmark_db(n)] returns; it has made [max(n, 0)]
    inserts under the metadata [{'test': 'benchmark'}], of which the store
    keeps the last [MAX_DB_SIZE]; it prints four lines, the average of the
    insert times including the passes' own, one per pass, while the average
    of the query times is that of the times recorded before: the queries
    of the benchmark record none, so for a store without recorded query
    times it prints 0; the recorded times are erased at the end. *)
Theorem benchmark_db_on_fallback (env : environment) (num : numerics)
    (p : process) (a : Np.ndarray) (g : list Np.float) (n : Z) :
  fallback_store (self (interp p)) a ->
  0 < MAX_DB_SIZE (config (self (interp p))) ->
  Np.alen a <= MAX_DB_SIZE (config (self (interp p))) ->
  gaussian_vector num (dim (self (interp p))) = inr g ->
  let s := self (interp p) in
  let k := Z.to_nat n in
  exists p',
    pcall (benchmark_db env num n) p = (Returned None, p') /\
    stdout p' =
      stdout p ++
      [BenchmarkStart n;
       AverageAddTime
         (average_of (add_times (benchmark_results s)
                      ++ benchmark_add_times env (clock_reads (interp p)) k));
       AverageQueryTime (average_of (query_times (benchmark_results s)));
       BenchmarkDone false] /\
    benchmark_results (self (interp p')) = mk_benchmark [] [] /\
    metadata (self (interp p')) =
      last_n (MAX_DB_SIZE (config s)) (metadata s ++ repeat benchmark_meta k) /\
    current_size (self (interp p')) =
      Some (Z.min (MAX_DB_SIZE (config s)) (Np.alen a + Z.of_nat k)) /\
    clock_reads (interp p') = (clock_reads (interp p) + 3 * k)%nat /\
    draws p' = draws p.
Proof.
  intros Hfb Hmax Hsize Hg s k.
  set (p0 := mk_process (interp p) (stdout p ++ [BenchmarkStart n]) (draws p)).
  destruct (benchmark_loop_fallback env num p0 a g k Hfb Hmax Hsize Hg)
    as (p1 & a1 & Hrun & Hfb1 & Hm1 & Hd1 & Hc1 & Ha1 & Hq1 & Hn1 & Ho1 & Hr1).
  cbn [p0 interp stdout draws] in Hm1, Hd1, Hc1, Ha1, Hq1, Hn1, Ho1, Hr1.
  rewrite benchmark_db_shape. unfold pcall, pbind at 1.
  unfold print at 1. fold p0. unfold pbind at 1. fold k. rewrite Hrun.
  unfold pbind at 1. rewrite run_get_self.
  unfold pbind, print, run, modify_self. cbn [interp stdout draws fst snd].
  destruct p1 as [[s1 ws1 n1] out1 dr1].
  cbn [interp self warned clock_reads stdout draws] in *.
  eexists. split; [reflexivity |].
  cbn [interp self warned clock_reads stdout draws].
  split.
  { rewrite Ho1, Ha1, Hq1, (fb_flag _ _ Hfb1), <- !app_assoc. reflexivity. }
  split; [destruct s1; reflexivity |].
  split; [destruct s1; exact Hm1 |].
  split.
  { pose proof (fb_meta _ _ Hfb1) as Hlen. rewrite Hm1 in Hlen.
    rewrite last_n_len in Hlen by lia.
    rewrite len_app, (fb_meta _ _ Hfb) in Hlen.
    assert (Hrep : Py.len (repeat benchmark_meta k) = Z.of_nat k)
      by (unfold Py.len; rewrite repeat_length; reflexivity).
    rewrite Hrep in Hlen.
    destruct Hfb1 as [Hflag1 Hdb1 _ _ _].
    destruct s1 as [d1 c1 ms1 vs1 uf1 db1 br1].
    cbn [use_faiss knowledge_db] in Hflag1, Hdb1. subst uf1 db1.
    unfold current_size, set_benchmark_results.
    cbn [use_faiss knowledge_db]. rewrite <- Hlen. reflexivity. }
  split; [exact Hn1 | exact Hr1].
Qed.

Lemma benchmark_db_on_fallback_witness :
  let p := started (small_store no_faiss) in
  exists p',
    pcall (benchmark_db no_faiss flat_numerics 3) p = (Returned None, p') /\
    stdout p' =
      stdout p ++
      [BenchmarkStart 3;
       AverageAddTime
         (average_of (add_times (benchmark_results (self (interp p)))
                      ++ benchmark_add_times no_faiss (clock_reads (interp p))
                           (Z.to_nat 3)));
       AverageQueryTime
         (average_of (query_times (benchmark_results (self (interp p)))));
       BenchmarkDone false] /\
    benchmark_results (self (interp p')) = mk_benchmark [] [] /\
    metadata (self (interp p')) =
      last_n (MAX_DB_SIZE (config (self (interp p))))
        (metadata (self (interp p)) ++ repeat benchmark_meta (Z.to_nat 3)) /\
    current_size (self (interp p')) =
      Some (Z.min (MAX_DB_SIZE (config (self (interp p))))
              (Np.alen (Np.mk_ndarray 2 []) + Z.of_nat (Z.to_nat 3))) /\
    clock_reads (interp p') = (clock_reads (interp p) + 3 * Z.to_nat 3)%nat /\
    draws p' = draws p.
Proof.
  apply (benchmark_db_on_fallback no_faiss flat_numerics
           (started (small_store no_faiss)) (Np.mk_ndarray 2 [])
           (repeat (Np64.div Np64.one (Np64.sqrt (f64 2))) 2) 3).
  - split; vm_compute; reflexivity.
  - vm_compute. reflexivity.
  - vm_compute. discriminate.
  - reflexivity.
Defined.

(** X13.  The benchmark on a full index: on the indexed backend with an
    index that is full (or untrained), [benchmark_db(n)] with [n >= 1]
    raises in the insert of its first pass; only the first line has been
    printed, no average is reported, and the recorded times are not
    erased. *)
Theorem benchmark_db_on_full_index (env : environment) (num : numerics)
    (p : process) (g : list Np.float) (n : Z) :
  stuck (self (interp p)) ->
  1 <= n ->
  gaussian_vector num (dim (self (interp p))) = inr g ->
  exists e p',
    pcall (benchmark_db env num n) p = (Raised e, p') /\
    stdout p' = stdout p ++ [BenchmarkStart n] /\
    benchmark_results (self (interp p')) = benchmark_results (self (interp p)) /\
    stuck (self (interp p')).
Proof.
  intros Hstuck Hn Hg.
  set (p0 := mk_process (interp p) (stdout p ++ [BenchmarkStart n]) (draws p)).
  set (v := validated (dim (self (interp p))) g).
  set (w1 := mk_world (self (interp p))
               (warned (interp p) ++ validate_warnings (dim (self (interp p))) g)
               (clock_reads (interp p))).
  destruct (stuck_step env v benchmark_meta w1 Hstuck)
    as (e & w2 & Hcall & Hstuck2 & _).
  assert (Hbr : benchmark_results (self w2) = benchmark_results (self w1)).
  { unfold call in Hcall.
    destruct (add_to_db_cases env v benchmark_meta w1)
      as [(w3 & _ & E) | (e' & w3 & Hf & E)]; rewrite E in Hcall.
    - discriminate.
    - injection Hcall as _ <-. unfold steady_part in Hf. congruence. }
  exists e, (mk_process w2 (stdout p ++ [BenchmarkStart n]) (draws p)).
  split; [| split; [reflexivity | split; [exact Hbr | exact Hstuck2]]].
  rewrite benchmark_db_shape. unfold pcall, pbind at 1.
  unfold print at 1. fold p0.
  destruct (Z.to_nat n) as [| k] eqn:Ek; [lia |].
  cbn [for_range]. unfold pbind at 1 2. unfold benchmark_pass. unfold pbind at 1.
  rewrite (generate_gaussian num unit p0 g Hg).
  cbn [p0 interp stdout draws]. fold v. fold w1.
  unfold pbind at 1. unfold invoke at 1. cbn [interp stdout draws].
  rewrite Hcall. reflexivity.
Qed.

Lemma benchmark_db_on_full_index_witness :
  exists e p',
    pcall (benchmark_db with_faiss flat_numerics 1) (started indexed_full)
      = (Raised e, p') /\
    stdout p' = stdout (started indexed_full) ++ [BenchmarkStart 1] /\
    benchmark_results (self (interp p'))
      = benchmark_results (self (interp (started indexed_full))) /\
    stuck (self (interp p')).
Proof.
  apply (benchmark_db_on_full_index with_faiss flat_numerics (started indexed_full)
           (repeat (Np64.div Np64.one (Np64.sqrt (f64 2))) 2) 1).
  - split; [reflexivity |].
    eexists. split; [reflexivity |]. right. vm_compute. discriminate.
  - lia.
  - reflexivity.
Defined.
